(** * Khilonamart: the Amazon toys scraper of [script.py]

    A shallow embedding of [AmazonToysScraper] and the properties of its
    retrieval loop, its field extractors and its Power BI normaliser.

    Modelling conventions.
    - A Python [str] that comes from a page is a [str]: the list of its
      characters, a character being its code point.  The constants of the
      program (selectors, addresses, labels) are [string]s.
    - What Python and its libraries decide outside the repository is a
      [Platform]: the Unicode classes of the characters outside ASCII, the
      length of digit run [int] accepts, the rounding of [float], and what
      pandas makes of a column of integers too large for it.  Inside
      ASCII, for short digit runs, for numbers a binary64 holds exactly
      and for small integers the model computes.
    - A Python [float] is a [pyfloat]: the rational it is equal to, or
      infinity.  A missing number ([None] or NaN, the values [pd.isna]
      accepts) is [None].
    - Python [int] is [Z].
    - [re] is embedded by a small backtracking matcher over the fragment of
      regular expressions the source uses; the patterns are values of type
      [regex] that mirror the source literals.
    - The network, the clock, the random generator and the file system are a
      [world] read by the code and a [sys] state that records every sleep,
      request and file written.  Logging is left out. *)

From Stdlib Require Import ZArith QArith Lqa List String Ascii Bool Lia.
From Stdlib Require Import DecimalString DecimalPos DecimalZ.
Import ListNotations.
Open Scope string_scope.
Open Scope Z_scope.

(** ** Exceptions *)

Inductive exn : Type :=
| ValueError
| RequestException
| OSError
| OtherException.

Inductive exc (A : Type) : Type :=
| Ok (a : A)
| Raise (e : exn).
Arguments Ok {A} a.
Arguments Raise {A} e.

Definition exc_bind {A B} (m : exc A) (f : A -> exc B) : exc B :=
  match m with
  | Ok a => f a
  | Raise e => Raise e
  end.

Notation "x <- m ;; k" := (exc_bind m (fun x => k))
  (at level 61, m at next level, right associativity).

(** ** Characters, text and numbers *)

(** A character is its code point. *)
Definition char : Type := N.

(** A Python [str]. *)
Definition str : Type := list char.

(** An ASCII literal of the program as a [str]. *)
Definition lit (s : string) : str :=
  map N_of_ascii (list_ascii_of_string s).

(** A Python [float] that is no NaN and not negative infinity. *)
Inductive pyfloat : Type :=
| Finite (q : Q)
| Infinity.

Definition float_nonneg (x : pyfloat) : Prop :=
  match x with
  | Finite q => (0 <= q)%Q
  | Infinity => True
  end.

(** The float of an integer: the nearest number with 53 significant bits,
    a tie going to the even one (for integers below [2 ^ 1024]). *)
Definition float64_of_Z (n : Z) : Z :=
  let a := Z.abs n in
  if a <? 2 ^ 53 then n
  else
    let e := Z.log2 a - 52 in
    let q := a / 2 ^ e in
    let r := a mod 2 ^ e in
    let half := 2 ^ (e - 1) in
    let q' := if (half <? r) || ((r =? half) && Z.odd q)
              then q + 1 else q in
    Z.sgn n * (q' * 2 ^ e).

(** ** The platform

    What the interpreter and the libraries decide where the model does
    not compute, with what is known of it. *)

Class Platform : Type := {
  (** The value of a decimal digit (category Nd) outside ASCII: the
      characters the digit class of [re] matches and [int] and [float]
      read. *)
  wide_decimal : char -> option Z;
  (** [str.isdigit] outside ASCII. *)
  wide_isdigit : char -> bool;
  (** [str.isspace] outside ASCII, which is also the white-space class of
      [re] and what [str.strip] removes. *)
  wide_isspace : char -> bool;
  (** [str.lower] on a text with a character outside ASCII. *)
  wide_lower : str -> str;
  (** Whether [int] converts a run of more than 640 digits rather than
      raise [ValueError] ([sys.int_max_str_digits]). *)
  int_accepts_long : str -> bool;
  (** [float] of a number that no binary64 holds exactly. *)
  round64 : Q -> pyfloat;
  (** [pd.to_numeric(column, errors='coerce').fillna(0).astype(int)] on a
      column with an integer above [2 ^ 62] in absolute value. *)
  wide_int_column : list (option Z) -> list Z;

  wide_decimal_range :
    forall c v, wide_decimal c = Some v -> 0 <= v <= 9;
  wide_decimal_isdigit :
    forall c v, wide_decimal c = Some v -> wide_isdigit c = true;
  (** U+20B9, the rupee sign, is a currency symbol. *)
  rupee_no_digit : wide_decimal 8377%N = None;
  round64_nonneg :
    forall q, (0 <= q)%Q -> float_nonneg (round64 q);
  wide_int_column_length :
    forall column,
      List.length (wide_int_column column) = List.length column;
  wide_int_column_none :
    forall column i,
      nth_error column i = Some None ->
      nth_error (wide_int_column column) i = Some 0
}.

Module Text.

Local Open Scope list_scope.

Section Classes.

Context {P : Platform}.

Definition is_ascii (c : char) : bool := (c <? 128)%N.

Definition ascii_decimal (c : char) : option Z :=
  if ((48 <=? c) && (c <=? 57))%N then Some (Z.of_N c - 48) else None.

(** The value of a decimal digit. *)
Definition decimal (c : char) : option Z :=
  if is_ascii c then ascii_decimal c else wide_decimal c.

(** The digit class of [re], and the digits [int] and [float] read. *)
Definition isdecimal (c : char) : bool :=
  match decimal c with
  | Some _ => true
  | None => false
  end.

(** [str.isdigit]. *)
Definition isdigit (c : char) : bool :=
  if is_ascii c then ((48 <=? c) && (c <=? 57))%N else wide_isdigit c.

(** [str.isspace] and the white-space class of [re]; in ASCII: tab, LF,
    VT, FF, CR, FS..US, space. *)
Definition isspace (c : char) : bool :=
  if is_ascii c
  then (((9 <=? c) && (c <=? 13)) || ((28 <=? c) && (c <=? 32)))%N
  else wide_isspace c.

Definition lower_char (c : char) : char :=
  if ((65 <=? c) && (c <=? 90))%N then (c + 32)%N else c.

(** [str.lower]. *)
Definition lower (s : str) : str :=
  if forallb is_ascii s then map lower_char s else wide_lower s.

End Classes.

Fixpoint any (p : char -> bool) (s : str) : bool :=
  match s with
  | [] => false
  | c :: s' => p c || any p s'
  end.

Fixpoint all (p : char -> bool) (s : str) : bool :=
  match s with
  | [] => true
  | c :: s' => p c && all p s'
  end.

Fixpoint starts_with (prefix s : str) : bool :=
  match prefix, s with
  | [], _ => true
  | a :: prefix', b :: s' => (a =? b)%N && starts_with prefix' s'
  | _ :: _, [] => false
  end.

(** [needle in hay]. *)
Fixpoint contains (needle hay : str) : bool :=
  starts_with needle hay ||
  match hay with
  | [] => false
  | _ :: hay' => contains needle hay'
  end.

(** [s.replace(old, new)] for a one-character [old]. *)
Fixpoint replace (old : char) (new : str) (s : str) : str :=
  match s with
  | [] => []
  | c :: s' =>
      if (c =? old)%N then new ++ replace old new s'
      else c :: replace old new s'
  end.

Fixpoint take_while (p : char -> bool) (s : str) : str :=
  match s with
  | [] => []
  | c :: s' => if p c then c :: take_while p s' else []
  end.

Fixpoint drop_while (p : char -> bool) (s : str) : str :=
  match s with
  | [] => []
  | c :: s' => if p c then drop_while p s' else s
  end.

Fixpoint rev (s : str) : str :=
  match s with
  | [] => []
  | c :: s' => rev s' ++ [c]
  end.

(** Truth value of a [str]. *)
Definition nonempty (s : str) : bool :=
  match s with
  | [] => false
  | _ => true
  end.

Section Numbers.

Context {P : Platform}.

(** [s.strip()]. *)
Definition strip (s : str) : str :=
  rev (drop_while isspace (rev (drop_while isspace s))).

Definition digit_val (c : char) : Z :=
  match decimal c with
  | Some v => v
  | None => 0
  end.

Fixpoint digits_value (acc : Z) (s : str) : Z :=
  match s with
  | [] => acc
  | c :: s' => digits_value (10 * acc + digit_val c) s'
  end.

(** Whether [int] converts a run of digits of this length. *)
Definition int_accepts (s : str) : bool :=
  (List.length s <=? 640)%nat || int_accepts_long s.

(** [int(s)] on a run of decimal digits; anything else is a [ValueError]
    here (the sign, blanks and underscores Python also accepts do not occur
    in the text the scraper passes), and so is a run that is too long. *)
Definition py_int (s : str) : exc Z :=
  if nonempty s && all isdecimal s && int_accepts s
  then Ok (digits_value 0 s)
  else Raise ValueError.

(** The text before the first point, and the text after it. *)
Fixpoint split_point (s : str) : str * str :=
  match s with
  | [] => ([], [])
  | c :: s' =>
      if (c =? 46)%N then ([], s')
      else let (ip, fp) := split_point s' in (c :: ip, fp)
  end.

(** A number in lowest terms that a binary64 holds exactly: at most 53
    bits over a power of two. *)
Definition exact64 (q : Q) : bool :=
  (Z.abs (Qnum q) <? 2 ^ 53) &&
  (Z.pos (Qden q) =? 2 ^ Z.log2 (Z.pos (Qden q))) &&
  (Z.log2 (Z.pos (Qden q)) <=? 1022).

(** The float nearest to a number in lowest terms. *)
Definition to_float (q : Q) : pyfloat :=
  if exact64 q then Finite q else round64 q.

(** [float(s)] on [digits], [digits.], [digits.digits] and [.digits]. *)
Definition py_float (s : str) : exc pyfloat :=
  let (ip, fp) := split_point s in
  if nonempty (ip ++ fp) && all isdecimal ip && all isdecimal fp
  then Ok (to_float (Qred (digits_value 0 (ip ++ fp)
                           # Z.to_pos (10 ^ Z.of_nat (List.length fp)))))
  else Raise ValueError.

End Numbers.

End Text.

(** ** The fragment of [re] the scraper uses *)

Module Re.

Local Open Scope list_scope.

Inductive regex : Type :=
| Class (p : char -> bool)             (* one character of a class *)
| Plus (p : char -> bool)              (* class+ , greedy *)
| Star (p : char -> bool)              (* class* , greedy *)
| Exactly (n : nat) (p : char -> bool) (* class{n} *)
| Opt (r : regex)                      (* (?:r)? , greedy *)
| Seq (r1 r2 : regex).

(** Greedy repetition with backtracking: take one more character when the
    rest of the pattern still matches after it, stop here otherwise. *)
Fixpoint star_greedy {A} (p : char -> bool) (s : str)
    (k : str -> option A) : option A :=
  match s with
  | c :: s' =>
      if p c then
        match star_greedy p s' k with
        | Some x => Some x
        | None => k s
        end
      else k s
  | [] => k s
  end.

Fixpoint exactly {A} (n : nat) (p : char -> bool) (s : str)
    (k : str -> option A) : option A :=
  match n with
  | O => k s
  | S n' =>
      match s with
      | c :: s' => if p c then exactly n' p s' k else None
      | [] => None
      end
  end.

(** [matches r s k]: match [r] at the start of [s], then run the rest of
    the pattern [k] on what is left; the first success in the order a
    backtracking matcher tries the alternatives. *)
Fixpoint matches {A} (r : regex) (s : str) (k : str -> option A)
    : option A :=
  match r with
  | Class p =>
      match s with
      | c :: s' => if p c then k s' else None
      | [] => None
      end
  | Plus p =>
      match s with
      | c :: s' => if p c then star_greedy p s' k else None
      | [] => None
      end
  | Star p => star_greedy p s k
  | Exactly n p => exactly n p s k
  | Opt r1 =>
      match matches r1 s k with
      | Some x => Some x
      | None => k s
      end
  | Seq r1 r2 => matches r1 s (fun s' => matches r2 s' k)
  end.

(** [re.match(r, s)]: what is left of [s] after the match. *)
Definition match_at (r : regex) (s : str) : option str :=
  matches r s (fun rest => Some rest).

(** [re.search(r, s).group()]: the leftmost match, [None] without one. *)
Fixpoint search (r : regex) (s : str) : option str :=
  match match_at r s with
  | Some rest => Some (firstn (List.length s - List.length rest) s)
  | None =>
      match s with
      | [] => None
      | _ :: s' => search r s'
      end
  end.

(** [re.sub(r, repl, s)]: every match replaced, left to right.  [fuel]
    bounds the number of steps; [length s + 1] is enough. *)
Fixpoint sub_from (fuel : nat) (r : regex) (repl s : str) : str :=
  match fuel with
  | O => s
  | S fuel' =>
      match match_at r s, s with
      | Some rest, c :: s' =>
          if (List.length rest <? List.length s)%nat
          then repl ++ sub_from fuel' r repl rest
          else repl ++ c :: sub_from fuel' r repl s'
      | Some _, [] => repl
      | None, c :: s' => c :: sub_from fuel' r repl s'
      | None, [] => []
      end
  end.

Definition sub (r : regex) (repl s : str) : str :=
  sub_from (S (List.length s)) r repl s.

End Re.

(** ** The page as the scraper sees it

    BeautifulSoup is outside the repository.  A tag is its text and its
    attributes; a container answers [select_one] and a parsed page answers
    [select], each through the table of the selectors that match. *)

Record element : Type := {
  elem_text : str;
  elem_attrs : list (string * str)
}.

Record container : Type := {
  cont_matches : list (string * element)
}.

Record document : Type := {
  doc_matches : list (string * list container)
}.

Fixpoint assoc {A} (key : string) (table : list (string * A)) : option A :=
  match table with
  | [] => None
  | (k, v) :: rest => if String.eqb k key then Some v else assoc key rest
  end.

(** [tag.get_text()]. *)
Definition get_text (e : element) : str := elem_text e.

(** [tag.get(name, default)]. *)
Definition get (e : element) (name : string) (default : str) : str :=
  match assoc name (elem_attrs e) with
  | Some v => v
  | None => default
  end.

(** [container.select_one(selector)]. *)
Definition select_one (c : container) (selector : string) : option element :=
  assoc selector (cont_matches c).

(** [soup.select(selector)]. *)
Definition select (d : document) (selector : string) : list container :=
  match assoc selector (doc_matches d) with
  | Some cs => cs
  | None => []
  end.

(** ** Records *)

(** The dictionary [product_data], whose five keys are fixed. *)
Record product_data : Type := {
  Product_Name : str;
  Product_URL : str;
  Price : option pyfloat;
  Rating : option pyfloat;
  Number_of_Reviews : option Z
}.

Definition base_url : str := lit "https://www.amazon.in".

(** The double quote, for the selectors that contain one. *)
Definition dq : string := String (ascii_of_nat 34) EmptyString.

Definition name_selectors : list string :=
  [ "h2 a span";
    "h2 span";
    "[data-cy=" ++ dq ++ "title-recipe-title" ++ dq ++ "] span";
    ".a-size-mini span";
    ".a-size-base-plus";
    ".s-size-mini span";
    "h2.a-size-mini span" ].

Definition link_selector : string := "h2 a".
Definition link_selector_dp : string :=
  "a[href*=" ++ dq ++ "/dp/" ++ dq ++ "]".

Definition price_selectors : list string :=
  [ ".a-price-whole";
    ".a-offscreen";
    ".a-price .a-offscreen";
    "[data-a-color=" ++ dq ++ "price" ++ dq ++ "] .a-offscreen";
    ".a-price-symbol + .a-price-whole" ].

Definition rating_selectors : list string :=
  [ ".a-icon-alt";
    "[aria-label*=" ++ dq ++ "stars" ++ dq ++ "]";
    "[aria-label*=" ++ dq ++ "rating" ++ dq ++ "]";
    ".a-star-small .a-icon-alt" ].

Definition review_selectors : list string :=
  [ "a[href*=" ++ dq ++ "#customerReviews" ++ dq ++ "]";
    "[aria-label*=" ++ dq ++ "review" ++ dq ++ "]";
    "span.a-size-base";
    "a.a-link-normal" ].

Definition product_selectors : list string :=
  [ "[data-component-type=" ++ dq ++ "s-search-result" ++ dq ++ "]";
    ".s-result-item[data-asin]";
    "[data-asin]:not([data-asin=" ++ dq ++ dq ++ "])";
    ".s-widget-container .s-result-item" ].

(** [for selector in ...: x = select_one(selector); if x: break]: the
    variable holds the first tag found, or what the last selector gave. *)
Fixpoint first_selected (c : container) (selectors : list string)
    (current : option element) : option element :=
  match selectors with
  | [] => current
  | selector :: rest =>
      match select_one c selector with
      | Some e => Some e
      | None => first_selected c rest None
      end
  end.

(** [a or b] on two [str]. *)
Definition str_or (a b : str) : str :=
  if Text.nonempty a then a else b.

(** [a or b] on two optional tags. *)
Definition tag_or (a b : option element) : option element :=
  match a with
  | Some e => Some e
  | None => b
  end.

Definition comma : char := 44%N.
Definition point : char := 46%N.
Definition space : char := 32%N.

(** U+20B9, the rupee sign. *)
Definition rupee : char := 8377%N.

Definition is_point (c : char) : bool := (c =? point)%N.

Definition is_comma (c : char) : bool := (c =? comma)%N.

Section Extraction.

Context {P : Platform}.

(** ** Field extractors (script.py, lines 74-110) *)

Definition digit_or_comma (c : char) : bool :=
  Text.isdecimal c || (c =? comma)%N.

(** Line 78: one or more white-space characters. *)
Definition space_re : Re.regex := Re.Plus Text.isspace.

(** Line 86: one or more of digit or comma, then optionally a point and
    exactly two digits. *)
Definition price_re : Re.regex :=
  Re.Seq (Re.Plus digit_or_comma)
         (Re.Opt (Re.Seq (Re.Class is_point)
                         (Re.Exactly 2 Text.isdecimal))).

(** Line 96: one or more digits, an optional point, any number of digits. *)
Definition rating_re : Re.regex :=
  Re.Seq (Re.Plus Text.isdecimal)
         (Re.Seq (Re.Opt (Re.Class is_point)) (Re.Star Text.isdecimal)).

(** Line 107: one or more of digit or comma. *)
Definition review_re : Re.regex := Re.Plus digit_or_comma.

Definition clean_text (text : str) : str :=
  if negb (Text.nonempty text) then []
  else Re.sub space_re [space] (Text.strip text).

Definition extract_price (price_text : str) : exc (option pyfloat) :=
  if negb (Text.nonempty price_text) then Ok None
  else
    match Re.search price_re (Text.replace comma [] price_text) with
    | Some group =>
        v <- Text.py_float (Text.replace comma [] group) ;; Ok (Some v)
    | None => Ok None
    end.

Definition extract_rating (rating_text : str) : exc (option pyfloat) :=
  if negb (Text.nonempty rating_text) then Ok None
  else
    match Re.search rating_re rating_text with
    | Some group => v <- Text.py_float group ;; Ok (Some v)
    | None => Ok None
    end.

Definition extract_review_count (review_text : str) : exc (option Z) :=
  if negb (Text.nonempty review_text) then Ok None
  else
    match Re.search review_re (Text.replace comma [] review_text) with
    | Some group =>
        v <- Text.py_int (Text.replace comma [] group) ;; Ok (Some v)
    | None => Ok None
    end.

(** ** [scrape_product_details] (lines 112-226) *)

(** The test of line 207 on the text of a candidate. *)
Definition review_text_ok (review_text : str) : bool :=
  Text.contains (lit "review") (Text.lower review_text) ||
  Text.any Text.isdigit review_text.

(** The loop of lines 203-210.  A tag that fails the test is left in
    [review_element] (the [else] of line 209 belongs to the outer [if]), and
    the next selector overwrites it. *)
Fixpoint review_loop (c : container) (selectors : list string)
    (review_element : option element) : option element :=
  match selectors with
  | [] => review_element
  | selector :: rest =>
      match select_one c selector with
      | Some e =>
          if review_text_ok (get_text e) then Some e
          else review_loop c rest (Some e)
      | None => review_loop c rest None
      end
  end.

(** [urllib.parse.urljoin], which can raise [ValueError]. *)
Variable urljoin : str -> str -> exc str.

(** The body of the [try] of [scrape_product_details]. *)
Definition product_details_body (product_element : container)
    : exc product_data :=
  let name_element := first_selected product_element name_selectors None in
  let link_element :=
    tag_or (select_one product_element link_selector)
           (select_one product_element link_selector_dp) in
  product_url <-
    match link_element with
    | Some link => urljoin base_url (get link "href" [])
    | None => Ok []
    end ;;
  let name :=
    match name_element with
    | Some e => clean_text (get_text e)
    | None => []
    end in
  let price_element := first_selected product_element price_selectors None in
  price <-
    match price_element with
    | Some e => extract_price (get_text e)
    | None => Ok None
    end ;;
  let rating_element :=
    first_selected product_element rating_selectors None in
  rating <-
    match rating_element with
    | Some e => extract_rating (str_or (get e "aria-label" []) (get_text e))
    | None => Ok None
    end ;;
  let review_element := review_loop product_element review_selectors None in
  reviews <-
    match review_element with
    | Some e => extract_review_count (get_text e)
    | None => Ok None
    end ;;
  Ok {| Product_Name := name;
        Product_URL := product_url;
        Price := price;
        Rating := rating;
        Number_of_Reviews := reviews |}.

(** [except Exception: return None]. *)
Definition scrape_product_details (product_element : container)
    : option product_data :=
  match product_details_body product_element with
  | Ok product => Some product
  | Raise _ => None
  end.

End Extraction.

(** ** The outside world *)

Record response : Type := {
  status_code : Z;
  content : document;   (* what BeautifulSoup makes of [response.content] *)
  text : str
}.

Inductive http_result : Type :=
| Responded (r : response)
| Failed (e : exn).

(** What the code reads from outside: the answer to the n-th GET, the n-th
    value of [random.random()], and whether a file can be written. *)
Record world : Type := {
  http_get : nat -> string -> http_result;
  random : nat -> Q;
  writable : string -> bool
}.

Inductive event : Type :=
| Sleep (seconds : Q)
| Get (url : string)
| WriteFile (name : string).

(** What the code does to the outside: the number of requests sent and of
    random numbers drawn, and everything done so far, oldest first. *)
Record sys : Type := {
  gets : nat;
  draws : nat;
  trace : list event
}.

Definition sys0 : sys := {| gets := 0; draws := 0; trace := [] |}.

(** The value of [random.uniform(a, b)] at the n-th draw. *)
Definition uniform_value (w : world) (a b : Q) (n : nat) : Q :=
  (a + (b - a) * random w n)%Q.

Definition uniform (w : world) (a b : Q) (s : sys) : Q * sys :=
  (uniform_value w a b (draws s),
   {| gets := gets s; draws := S (draws s); trace := trace s |}).

Definition sleep (seconds : Q) (s : sys) : sys :=
  {| gets := gets s; draws := draws s;
     trace := trace s ++ [Sleep seconds] |}.

(** [self.session.get(url, timeout=15)]. *)
Definition session_get (w : world) (url : string) (s : sys)
    : http_result * sys :=
  (http_get w (gets s) url,
   {| gets := S (gets s); draws := draws s;
      trace := trace s ++ [Get url] |}).

Definition write_file (name : string) (s : sys) : sys :=
  {| gets := gets s; draws := draws s;
     trace := trace s ++ [WriteFile name] |}.

(** ** [make_request_with_retry] (lines 43-72) *)

Definition get_random_delay (w : world) (min_delay max_delay : Q)
    : sys -> Q * sys :=
  uniform w min_delay max_delay.

(** [2 ** attempt]. *)
Definition pow2 (attempt : nat) : Q := inject_Z (2 ^ Z.of_nat attempt).

(** The [for attempt in range(max_retries)] loop from [attempt] on, with
    [remaining] rounds to go. *)
Fixpoint retry_from (w : world) (url : string) (max_retries : nat)
    (attempt remaining : nat) (s : sys) : exc (option response) * sys :=
  match remaining with
  | O => (Ok None, s)
  | S remaining' =>
      let (delay, s1) := get_random_delay w 2 5 s in
      let s2 := sleep delay s1 in
      let (result, s3) := session_get w url s2 in
      match result with
      | Responded response =>
          if status_code response =? 200 then (Ok (Some response), s3)
          else if status_code response =? 503 then
            let (jitter, s4) := uniform w 1 3 s3 in
            let wait_time := (pow2 attempt + jitter)%Q in
            retry_from w url max_retries (S attempt) remaining'
                       (sleep wait_time s4)
          else
            retry_from w url max_retries (S attempt) remaining'
                       (sleep (pow2 attempt) s3)
      | Failed RequestException =>
          if Z.of_nat attempt <? Z.of_nat max_retries - 1
          then retry_from w url max_retries (S attempt) remaining'
                          (sleep (pow2 attempt) s3)
          else retry_from w url max_retries (S attempt) remaining' s3
      | Failed e => (Raise e, s3)
      end
  end.

Definition make_request_with_retry (w : world) (url : string)
    (max_retries : nat) (s : sys) : exc (option response) * sys :=
  retry_from w url max_retries 0 max_retries s.

(** The default of the parameter [max_retries]. *)
Definition default_max_retries : nat := 3.

(** ** [scrape_toys_category] (lines 228-322) *)

(** The instance: [products_data] is its only field that changes. *)
Record scraper : Type := {
  products_data : list product_data
}.

(** [__init__]. *)
Definition init : scraper := {| products_data := [] |}.

Inductive page_result : Type :=
| PageOk
| PageFailed.

(** The state of a run: the instance, the three local counters and the
    outside.  [pages] is a ghost field: the pages requested so far, oldest
    first, and how each ended. *)
Record run_state : Type := {
  self : scraper;
  page_num : Z;
  products_scraped : Z;
  consecutive_failures : Z;
  system : sys;
  pages : list (Z * page_result)
}.

Definition base_search_url : string := "https://www.amazon.in/s".

Definition str_of_int (n : Z) : string :=
  NilZero.string_of_int (Z.to_int n).

Definition page_url (page_num : Z) : string :=
  if page_num =? 1
  then base_search_url ++ "?k=toys+and+gifts&ref=sr_pg_1"
  else base_search_url ++ "?k=toys+and+gifts&page=" ++ str_of_int page_num
       ++ "&ref=sr_pg_" ++ str_of_int page_num.

Definition debug_file (page_num : Z) : string :=
  "debug_page_" ++ str_of_int page_num ++ ".html".

(** Lines 275-280: the containers of the first selector that finds any. *)
Fixpoint locate_containers (soup : document) (selectors : list string)
    (product_containers : list container) : list container :=
  match selectors with
  | [] => product_containers
  | selector :: rest =>
      match select soup selector with
      | [] => locate_containers soup rest []
      | found => found
      end
  end.

(** The guard of the [while] of line 245. *)
Definition loop_guard (max_pages max_products : Z) (st : run_state) : bool :=
  (page_num st <=? max_pages) &&
  (products_scraped st <? max_products) &&
  (consecutive_failures st <? 3).

(** The three ways a page fails (lines 258-262, 282-290, 315-319) leave
    the same counters. *)
Definition page_failed (st : run_state) (s : sys) : run_state :=
  {| self := self st;
     page_num := page_num st + 1;
     products_scraped := products_scraped st;
     consecutive_failures := consecutive_failures st + 1;
     system := s;
     pages := pages st ++ [(page_num st, PageFailed)] |}.

Section Paginator.

Context {P : Platform}.
Variable urljoin : str -> str -> exc str.
Variable w : world.

(** Lines 297-310: the [for] over the containers of a page. *)
Fixpoint process_containers (max_products : Z) (containers : list container)
    (scraped : Z) (data : list product_data) : Z * list product_data :=
  match containers with
  | [] => (scraped, data)
  | c :: rest =>
      if max_products <=? scraped then (scraped, data)
      else
        match scrape_product_details urljoin c with
        | Some product =>
            if Text.nonempty (Product_Name product)
            then process_containers max_products rest (scraped + 1)
                                    (data ++ [product])
            else process_containers max_products rest scraped data
        | None => process_containers max_products rest scraped data
        end
  end.

(** One round of the [while]: lines 246-319. *)
Definition scrape_page (max_products : Z) (st : run_state) : run_state :=
  let (fetched, s1) :=
    make_request_with_retry w (page_url (page_num st)) default_max_retries
                            (system st) in
  match fetched with
  | Raise _ => page_failed st s1
  | Ok None => page_failed st s1
  | Ok (Some response) =>
      let soup := content response in
      match locate_containers soup product_selectors [] with
      | [] =>
          if writable w (debug_file (page_num st))
          then page_failed st (write_file (debug_file (page_num st)) s1)
          else page_failed st s1
      | product_containers =>
          let (scraped, data) :=
            process_containers max_products product_containers
                               (products_scraped st)
                               (products_data (self st)) in
          {| self := {| products_data := data |};
             page_num := page_num st + 1;
             products_scraped := scraped;
             consecutive_failures := 0;
             system := s1;
             pages := pages st ++ [(page_num st, PageOk)] |}
      end
  end.

(** The [while] of line 245; [fuel] bounds the number of rounds. *)
Fixpoint scrape_loop (fuel : nat) (max_pages max_products : Z)
    (st : run_state) : run_state :=
  match fuel with
  | O => st
  | S fuel' =>
      if loop_guard max_pages max_products st
      then scrape_loop fuel' max_pages max_products
                       (scrape_page max_products st)
      else st
  end.

(** The state at line 241. *)
Definition start (me : scraper) (s : sys) : run_state :=
  {| self := me;
     page_num := 1;
     products_scraped := 0;
     consecutive_failures := 0;
     system := s;
     pages := [] |}.

(** The state at line 321.  Every round adds one to [page_num], so
    [max_pages] rounds are enough. *)
Definition run (max_pages max_products : Z) (me : scraper) (s : sys)
    : run_state :=
  scrape_loop (Z.to_nat max_pages) max_pages max_products (start me s).

(** The value returned (which is the field [products_data] itself), the
    instance and the outside after the call. *)
Definition scrape_toys_category (max_pages max_products : Z) (me : scraper)
    (s : sys) : list product_data * scraper * sys :=
  let st := run max_pages max_products me s in
  (products_data (self st), self st, system st).

End Paginator.

(** ** The Power BI dataset (lines 324-404) *)

Definition Qltb (x y : Q) : bool := negb (Qle_bool y x).

(** [x < y] and [x >= y] for a float [x] and the constant [y]. *)
Definition float_ltb (x : pyfloat) (y : Q) : bool :=
  match x with
  | Finite q => Qltb q y
  | Infinity => false
  end.

Definition float_geb (x : pyfloat) (y : Q) : bool :=
  match x with
  | Finite q => Qle_bool y q
  | Infinity => true
  end.

(** A price that [pd.isna] accepts is [None]. *)
Definition categorize_price (price : option pyfloat) : string :=
  match price with
  | None => "No Price Listed"
  | Some price =>
      if float_ltb price 500 then "Under ₹500"
      else if float_ltb price 1000 then "₹500 - ₹1,000"
      else if float_ltb price 2000 then "₹1,000 - ₹2,000"
      else if float_ltb price 5000 then "₹2,000 - ₹5,000"
      else "Above ₹5,000"
  end.

Definition categorize_rating (rating : option pyfloat) : string :=
  match rating with
  | None => "No Rating"
  | Some rating =>
      if float_geb rating 4.5 then "Excellent (4.5+)"
      else if float_geb rating 4.0 then "Very Good (4.0-4.4)"
      else if float_geb rating 3.5 then "Good (3.5-3.9)"
      else if float_geb rating 3.0 then "Average (3.0-3.4)"
      else "Below Average (<3.0)"
  end.

Definition categorize_reviews (review_count : Z) : string :=
  if review_count =? 0 then "No Reviews"
  else if review_count <? 10 then "Few Reviews (1-9)"
  else if review_count <? 50 then "Some Reviews (10-49)"
  else if review_count <? 100 then "Many Reviews (50-99)"
  else if review_count <? 500 then "Lots of Reviews (100-499)"
  else "Very Popular (500+)".

(** A column of a pandas frame is the list of its values, a missing value
    being [None]. *)
Definition fillna {A} (value : A) (column : list (option A)) : list A :=
  map (fun x => match x with Some v => v | None => value end) column.

Definition notna {A} (column : list (option A)) : list bool :=
  map (fun x => match x with Some _ => true | None => false end) column.

(** [pd.to_numeric(column, errors='coerce')] on a column of floats and
    missing values, which is a float64 column already. *)
Definition to_numeric (column : list (option pyfloat))
    : list (option pyfloat) :=
  column.

(** [column.apply(f)]. *)
Definition apply {A B} (f : A -> B) (column : list A) : list B :=
  map f column.

Definition is_some {A} (x : option A) : bool :=
  match x with
  | Some _ => true
  | None => false
  end.

(** An integer of a column that is at most [2 ^ 62] in absolute value, or
    a missing value. *)
Definition small_count (x : option Z) : bool :=
  match x with
  | Some n => Z.abs n <=? 2 ^ 62
  | None => true
  end.

(** The column [df['Number_of_Reviews']] that [pd.DataFrame] builds from
    small integers and missing values: int64 when no value is missing,
    float64 otherwise, every integer then replaced by its float. *)
Definition count_column (column : list (option Z)) : list (option Z) :=
  if forallb is_some column then column
  else map (option_map float64_of_Z) column.

Section Dataset.

Context {P : Platform}.

(** Line 345: [pd.to_numeric(column, errors='coerce').fillna(0)
    .astype(int)]. *)
Definition to_int_column (column : list (option Z)) : list Z :=
  if forallb small_count column then fillna 0 (count_column column)
  else wide_int_column column.

Record powerbi_frame : Type := {
  col_Product_Name : list str;
  col_Price_INR : list (option pyfloat);
  col_Rating : list (option pyfloat);
  col_Number_of_Reviews : list Z;
  col_Product_URL : list str;
  col_Price_Range : list string;
  col_Rating_Category : list string;
  col_Review_Category : list string;
  col_Has_Price : list bool;
  col_Has_Rating : list bool;
  col_Has_Reviews : list bool
}.

(** [pd.DataFrame()]. *)
Definition empty_frame : powerbi_frame :=
  {| col_Product_Name := []; col_Price_INR := []; col_Rating := [];
     col_Number_of_Reviews := []; col_Product_URL := [];
     col_Price_Range := []; col_Rating_Category := [];
     col_Review_Category := []; col_Has_Price := []; col_Has_Rating := [];
     col_Has_Reviews := [] |}.

(** The frame built, and the instance after the call. *)
Definition create_powerbi_dataset (me : scraper) : powerbi_frame * scraper :=
  match products_data me with
  | [] => (empty_frame, me)
  | _ =>
      let df := products_data me in
      let name := fillna (lit "Unknown Product")
                    (map (fun r => Some (Product_Name r)) df) in
      let price_inr := to_numeric (map Price df) in
      let rating := to_numeric (map Rating df) in
      let reviews := to_int_column (map Number_of_Reviews df) in
      let url := fillna [] (map (fun r => Some (Product_URL r)) df) in
      ({| col_Product_Name := name;
          col_Price_INR := price_inr;
          col_Rating := rating;
          col_Number_of_Reviews := reviews;
          col_Product_URL := url;
          col_Price_Range := apply categorize_price price_inr;
          col_Rating_Category := apply categorize_rating rating;
          col_Review_Category := apply categorize_reviews reviews;
          col_Has_Price := notna price_inr;
          col_Has_Rating := notna rating;
          col_Has_Reviews := map (fun n => 0 <? n) reviews |},
       me)
  end.

End Dataset.

(** One row of the dataset. *)
Record analytics_record : Type := {
  ar_Product_Name : str;
  ar_Price_INR : option pyfloat;
  ar_Rating : option pyfloat;
  ar_Number_of_Reviews : Z;
  ar_Product_URL : str;
  ar_Price_Range : string;
  ar_Rating_Category : string;
  ar_Review_Category : string;
  ar_Has_Price : bool;
  ar_Has_Rating : bool;
  ar_Has_Reviews : bool
}.

Definition opt_bind {A B} (m : option A) (f : A -> option B) : option B :=
  match m with
  | Some a => f a
  | None => None
  end.

(** The [i]-th row of a frame: the [i]-th value of each column. *)
Definition row (f : powerbi_frame) (i : nat) : option analytics_record :=
  opt_bind (nth_error (col_Product_Name f) i) (fun name =>
  opt_bind (nth_error (col_Price_INR f) i) (fun price =>
  opt_bind (nth_error (col_Rating f) i) (fun rating =>
  opt_bind (nth_error (col_Number_of_Reviews f) i) (fun reviews =>
  opt_bind (nth_error (col_Product_URL f) i) (fun url =>
  opt_bind (nth_error (col_Price_Range f) i) (fun price_range =>
  opt_bind (nth_error (col_Rating_Category f) i) (fun rating_category =>
  opt_bind (nth_error (col_Review_Category f) i) (fun review_category =>
  opt_bind (nth_error (col_Has_Price f) i) (fun has_price =>
  opt_bind (nth_error (col_Has_Rating f) i) (fun has_rating =>
  opt_bind (nth_error (col_Has_Reviews f) i) (fun has_reviews =>
  Some {| ar_Product_Name := name;
          ar_Price_INR := price;
          ar_Rating := rating;
          ar_Number_of_Reviews := reviews;
          ar_Product_URL := url;
          ar_Price_Range := price_range;
          ar_Rating_Category := rating_category;
          ar_Review_Category := review_category;
          ar_Has_Price := has_price;
          ar_Has_Rating := has_rating;
          ar_Has_Reviews := has_reviews |}))))))))))).

(** ** The specification's own wording

    Second definitions, written from the specification and compared with
    the code below. *)

Module Spec.

Local Open Scope list_scope.

(** The candidates of an ordered selector list: the tags the selectors
    find, in the order of the list. *)
Definition candidates (c : container) (selectors : list string)
    : list element :=
  flat_map (fun selector =>
              match select_one c selector with
              | Some e => [e]
              | None => []
              end) selectors.

Section Wording.

Context {P : Platform}.

(** A candidate validates when its text contains "review", whatever the
    case, or at least one digit ([str.isdigit]). *)
Definition validated (e : element) : bool :=
  Text.contains (lit "review") (Text.lower (get_text e)) ||
  Text.any Text.isdigit (get_text e).

Definition first_validated (c : container) : option element :=
  find validated (candidates c review_selectors).

(** The first run of decimal digits of a text. *)
Fixpoint first_digits (s : str) : str :=
  match s with
  | [] => []
  | c :: s' =>
      if Text.isdecimal c then Text.take_while Text.isdecimal s
      else first_digits s'
  end.

(** The digit sequence of a text, separators stripped, as an integer. *)
Definition digit_sequence (text : str) : option Z :=
  let digits := first_digits (Text.replace comma [] text) in
  if Text.nonempty digits then Some (Text.digits_value 0 digits) else None.

Definition review_count (c : container) : option Z :=
  match first_validated c with
  | Some e => digit_sequence (get_text e)
  | None => None
  end.

(** The number written [ip.fp]. *)
Definition decimal (ip fp : str) : Q :=
  Qred (Text.digits_value 0 (ip ++ fp)
        # Z.to_pos (10 ^ Z.of_nat (List.length fp))).

(** A point and two digits at the start of [s], or nothing. *)
Definition two_decimals (s : str) : str :=
  match s with
  | c0 :: d1 :: d2 :: _ =>
      if is_point c0 && Text.isdecimal d1 && Text.isdecimal d2
      then [d1; d2]
      else []
  | _ => []
  end.

(** The leading numeric pattern of a text without separators: its first
    run of digits with the two decimals that may follow it. *)
Fixpoint leading_number (s : str) : option Q :=
  match s with
  | [] => None
  | c :: s' =>
      if Text.isdecimal c
      then Some (decimal (Text.take_while Text.isdecimal s)
                         (two_decimals (Text.drop_while Text.isdecimal s)))
      else leading_number s'
  end.

(** The price of a text: the float of its leading number, the thousands
    separators taken out first. *)
Definition price_of (text : str) : option pyfloat :=
  option_map Text.to_float (leading_number (Text.replace comma [] text)).

End Wording.

(** Section 4.4: the analytics record of one product record. *)
Definition normalize (r : product_data) : analytics_record :=
  let reviews :=
    match Number_of_Reviews r with
    | Some n => n
    | None => 0
    end in
  {| ar_Product_Name := Product_Name r;
     ar_Price_INR := Price r;
     ar_Rating := Rating r;
     ar_Number_of_Reviews := reviews;
     ar_Product_URL := Product_URL r;
     ar_Price_Range := categorize_price (Price r);
     ar_Rating_Category := categorize_rating (Rating r);
     ar_Review_Category := categorize_reviews reviews;
     ar_Has_Price := match Price r with Some _ => true | None => false end;
     ar_Has_Rating := match Rating r with Some _ => true | None => false end;
     ar_Has_Reviews := 0 <? reviews |}.

End Spec.

(** ** Instances the code reaches *)

(** The instances a program can hold: a new one, and one on which
    [scrape_toys_category] or [create_powerbi_dataset] has been called. *)
Inductive reachable {P : Platform} (urljoin : str -> str -> exc str)
    : scraper -> Prop :=
| reach_init : reachable urljoin init
| reach_scrape (w : world) (max_pages max_products : Z) (me : scraper)
    (s : sys) :
    reachable urljoin me ->
    reachable urljoin
      (self (run urljoin w max_pages max_products me s))
| reach_dataset (me : scraper) :
    reachable urljoin me ->
    reachable urljoin (snd (create_powerbi_dataset me)).

(** ** Sample pages *)

Module Sample.

(** A platform that knows ASCII only, converts every run of digits and
    computes with exact numbers. *)
Definition platform : Platform :=
  {| wide_decimal := fun _ => None;
     wide_isdigit := fun _ => false;
     wide_isspace := fun _ => false;
     wide_lower := fun s => s;
     int_accepts_long := fun _ => true;
     round64 := Finite;
     wide_int_column := fillna 0;
     wide_decimal_range := ltac:(intros c v H; discriminate H);
     wide_decimal_isdigit := ltac:(intros c v H; discriminate H);
     rupee_no_digit := eq_refl;
     round64_nonneg := fun q H => H;
     wide_int_column_length :=
       fun column => length_map _ column;
     wide_int_column_none :=
       ltac:(intros column i H; unfold fillna; rewrite nth_error_map, H;
             reflexivity) |}.

(** A [urljoin] for relative links. *)
Definition urljoin (base url : str) : exc str := Ok (base ++ url)%list.

(** A container whose title is a link without address. *)
Definition titled (title : string) : container :=
  let heading := {| elem_text := lit title; elem_attrs := [] |} in
  {| cont_matches :=
       [ ("h2 a span", heading); ("h2 span", heading);
         ("h2 a", heading) ] |}.

(** A container with a title, a price, a badge and a review link. *)
Definition toy : container :=
  let heading :=
    {| elem_text := lit "Wooden Train Set"; elem_attrs := [] |} in
  let link :=
    {| elem_text := lit "Wooden Train Set";
       elem_attrs := [("href", lit "/dp/B0TRAIN")] |} in
  {| cont_matches :=
       [ ("h2 a span", heading);
         ("h2 span", heading);
         ("h2 a", link);
         (link_selector_dp, link);
         (".a-price-whole", {| elem_text := lit "1,234.50";
                               elem_attrs := [] |});
         (".a-icon-alt", {| elem_text := lit "Top 100 in Toys";
                            elem_attrs := [] |});
         ("span.a-size-base", {| elem_text := lit "Sponsored";
                                 elem_attrs := [] |});
         ("a.a-link-normal", {| elem_text := lit "1,234 ratings";
                                elem_attrs := [] |}) ] |}.

(** A page of search results with three products, the second untitled. *)
Definition results : document :=
  {| doc_matches :=
       [ (".s-result-item[data-asin]",
          [ titled "Toy Car"; titled "  "; toy ]) ] |}.

Definition ok_response : response :=
  {| status_code := 200; content := results; text := lit "<html>" |}.

Definition busy_response : response :=
  {| status_code := 503; content := {| doc_matches := [] |}; text := [] |}.

(** A site that always answers with the page of results. *)
Definition up : world :=
  {| http_get := fun _ _ => Responded ok_response;
     random := fun _ => 1 # 2;
     writable := fun _ => true |}.

(** A site that always answers 503. *)
Definition busy : world :=
  {| http_get := fun _ _ => Responded busy_response;
     random := fun _ => 1 # 2;
     writable := fun _ => true |}.

(** The instance after a first call that asked for two products. *)
Definition after_first_call {P : Platform} : scraper :=
  self (run urljoin up 1 2 init sys0).

End Sample.

(** ** Vocabulary of the statements *)

(** A record with a name. *)
Definition named (r : product_data) : Prop :=
  Text.nonempty (Product_Name r) = true.

Definition failed (entry : Z * page_result) : bool :=
  match snd entry with
  | PageFailed => true
  | PageOk => false
  end.

(** The number of failed pages since the last page that succeeded. *)
Definition trailing_failures (log : list (Z * page_result)) : Z :=
  fold_left (fun n entry => if failed entry then n + 1 else 0) log 0.

(** Nothing comes after three failures in a row. *)
Definition breaker_holds (log : list (Z * page_result)) : Prop :=
  forall pre a b c post,
    log = (pre ++ a :: b :: c :: post)%list ->
    failed a = true -> failed b = true -> failed c = true ->
    post = [].

(** The counter of failures agrees with the pages requested so far. *)
Definition breaker_state (st : run_state) : Prop :=
  consecutive_failures st = trailing_failures (pages st) /\
  consecutive_failures st <= 3 /\
  breaker_holds (pages st).

(** What a run has added to the instance [me] when it is in the state
    [st]: records with a name, as many as [products_scraped] counts. *)
Definition added (max_products : Z) (me : scraper) (st : run_state)
    : Prop :=
  exists new,
    products_data (self st) = (products_data me ++ new)%list /\
    Forall named new /\
    products_scraped st = Z.of_nat (List.length new) /\
    products_scraped st <= Z.max 0 max_products.

(** An event of the round that asks for [url]: its requests are for
    [url]. *)
Definition of_page (url : string) (e : event) : Prop :=
  match e with
  | Get u => u = url
  | _ => True
  end.

(** Every request is answered, with status 503. *)
Definition always_503 (w : world) : Prop :=
  forall (n : nat) (url : string),
    exists r, http_get w n url = Responded r /\ status_code r = 503.

(** Section 4.1 under persistent 503: before each attempt a sleep of
    [uniform(2, 5)], the request, then a sleep of
    [2^attempt + uniform(1, 3)]. *)
Fixpoint trace_under_503 (w : world) (url : string)
    (attempt remaining draw : nat) : list event :=
  match remaining with
  | O => []
  | S remaining' =>
      [ Sleep (uniform_value w 2 5 draw);
        Get url;
        Sleep (pow2 attempt + uniform_value w 1 3 (S draw))%Q ]
      ++ trace_under_503 w url (S attempt) remaining' (S (S draw))
  end.

(** The requests of a trace. *)
Definition requests (t : list event) : list event :=
  filter (fun e => match e with Get _ => true | _ => false end) t.

(** The page of a round is a success (line 293 is reached) when the
    request gets a response and a selector of line 268 finds a container
    in it. *)
Definition page_succeeds (w : world) (st : run_state) : bool :=
  match fst (make_request_with_retry w (page_url (page_num st))
                                     default_max_retries (system st)) with
  | Ok (Some response) =>
      match locate_containers (content response) product_selectors [] with
      | [] => false
      | _ => true
      end
  | _ => false
  end.

(** The state of a run after [k] rounds of the [while]. *)
Definition after_rounds {P : Platform} (urljoin : str -> str -> exc str)
    (w : world) (max_products : Z) (me : scraper) (s : sys) (k : nat)
    : run_state :=
  Nat.iter k (scrape_page urljoin w max_products) (start me s).

(** The requests of the pages from [page] on, [n] requests for a page
    that has [n] in [counts]. *)
Fixpoint page_requests (counts : list nat) (page : Z) : list event :=
  match counts with
  | [] => []
  | n :: rest =>
      (repeat (Get (page_url page)) n ++ page_requests rest (page + 1))%list
  end.

(** The run of digits that [int] is given for the review count of a
    container: the first one of the text of its first validated
    candidate. *)
Definition review_digits {P : Platform} (c : container) : str :=
  match Spec.first_validated c with
  | Some e => Spec.first_digits (Text.replace comma [] (get_text e))
  | None => []
  end.


Module SampleRecords.

(** What [scrape_product_details] makes of [Sample.toy]. *)
Definition toy_record : product_data :=
  {| Product_Name := lit "Wooden Train Set";
     Product_URL := lit "https://www.amazon.in/dp/B0TRAIN";
     Price := Some (Finite (2469 # 2));
     Rating := Some (Finite 100);
     Number_of_Reviews := Some 1234 |}.

(** What it makes of [Sample.titled "Toy Car"]. *)
Definition car_record : product_data :=
  {| Product_Name := lit "Toy Car";
     Product_URL := lit "https://www.amazon.in";
     Price := None;
     Rating := None;
     Number_of_Reviews := None |}.

(** A product with more reviews than a float counts exactly. *)
Definition popular_record : product_data :=
  {| Product_Name := lit "Toy Car";
     Product_URL := lit "https://www.amazon.in";
     Price := None;
     Rating := None;
     Number_of_Reviews := Some (2 ^ 53 + 1) |}.

End SampleRecords.

(** A record whose review count a float holds exactly, or is missing. *)
Definition exact_count (r : product_data) : Prop :=
  match Number_of_Reviews r with
  | Some n => Z.abs n <= 2 ^ 53
  | None => True
  end.

(** ** Saving (lines 406-451) and [main] (lines 453-487)

    The time stamp that [datetime.now().strftime] gives is a parameter;
    what pandas writes in a file is left out, a file written being the
    event [WriteFile] of its name; [print] is left out with the
    logging. *)

Definition csv_name (timestamp : string) : string :=
  "amazon_toys_500_products_" ++ timestamp ++ ".csv".

Definition xlsx_name (timestamp : string) : string :=
  "PowerBI_Amazon_Toys_500_Products_" ++ timestamp ++ ".xlsx".

(** [if not filename: filename = default]. *)
Definition name_or_default (filename : option string) (default : string)
    : string :=
  match filename with
  | Some EmptyString => default
  | Some name => name
  | None => default
  end.

(** The value returned and the outside after the call; the instance is
    not changed. *)
Definition save_to_csv (w : world) (timestamp : string)
    (filename : option string) (me : scraper) (s : sys)
    : option string * sys :=
  let filename := name_or_default filename (csv_name timestamp) in
  match products_data me with
  | [] => (None, s)
  | _ =>
      if writable w filename
      then (Some filename, write_file filename s)
      else (None, s)
  end.

(** [powerbi_df.empty]: the frame has no row. *)
Definition frame_empty (f : powerbi_frame) : bool :=
  match col_Product_Name f with
  | [] => true
  | _ => false
  end.

Section Saving.

Context {P : Platform}.

Definition save_powerbi_dataset (w : world) (timestamp : string)
    (filename : option string) (me : scraper) (s : sys)
    : option string * sys :=
  let filename := name_or_default filename (xlsx_name timestamp) in
  let (powerbi_df, _) := create_powerbi_dataset me in
  if frame_empty powerbi_df then (None, s)
  else if writable w filename
       then (Some filename, write_file filename s)
       else (None, s).

Definition MAX_PAGES : Z := 25.
Definition MAX_PRODUCTS : Z := 500.

(** [main]: the names of the two files saved, and the outside after. *)
Definition main (urljoin : str -> str -> exc str) (w : world)
    (csv_time xlsx_time : string) (s : sys)
    : option string * option string * sys :=
  let '(products, scraper, s1) :=
    scrape_toys_category urljoin w MAX_PAGES MAX_PRODUCTS init s in
  match products with
  | [] => (None, None, s1)
  | _ =>
      let (csv_file, s2) := save_to_csv w csv_time None scraper s1 in
      let (powerbi_file, s3) :=
        save_powerbi_dataset w xlsx_time None scraper s2 in
      (csv_file, powerbi_file, s3)
  end.

End Saving.

(** ** Further vocabulary *)

(** The random generator gives numbers between 0 and 1. *)
Definition unit_random (w : world) : Prop :=
  forall n : nat, (0 <= random w n <= 1)%Q.

(** The only failure of a request is a [RequestException]. *)
Definition transient_failures (w : world) : Prop :=
  forall (n : nat) (url : string) (e : exn),
    http_get w n url = Failed e -> e = RequestException.

(** Every request fails with a [RequestException]. *)
Definition always_down (w : world) : Prop :=
  forall (n : nat) (url : string),
    http_get w n url = Failed RequestException.

(** What [make_request_with_retry] does between its start and its end, as
    rounds: a sleep of 2 to 5 seconds, one request for [url], and at most
    one more sleep. *)
Inductive rounds (url : string) : list event -> Prop :=
| rounds_done : rounds url []
| rounds_more (delay : Q) (backoff rest : list event) :
    (2 <= delay <= 5)%Q ->
    backoff = [] \/ (exists seconds, backoff = [Sleep seconds]) ->
    rounds url rest ->
    rounds url ([Sleep delay; Get url] ++ backoff ++ rest)%list.

(** The trace of the retry loop when every request fails with a
    [RequestException]: a sleep of [2 ** attempt] after every attempt but
    the last of the [max_retries]. *)
Fixpoint trace_when_down (w : world) (url : string) (max_retries : nat)
    (attempt remaining draw : nat) : list event :=
  match remaining with
  | O => []
  | S remaining' =>
      ([ Sleep (uniform_value w 2 5 draw); Get url ]
       ++ (if Z.of_nat attempt <? Z.of_nat max_retries - 1
           then [Sleep (pow2 attempt)] else [])
       ++ trace_when_down w url max_retries (S attempt) remaining'
                          (S draw))%list
  end.

Section Tidy.

Context {P : Platform}.

(** The form of a cleaned text: single spaces between words, no other
    white space, none at either end.  [after_space] says that the text
    before [s] ended with a space, or that [s] is the whole text. *)
Fixpoint tidy_from (after_space : bool) (s : str) : bool :=
  match s with
  | [] => negb after_space
  | c :: s' =>
      if Text.isspace c
      then (c =? space)%N && negb after_space && tidy_from true s'
      else tidy_from false s'
  end.

Definition tidy (s : str) : bool :=
  match s with
  | [] => true
  | _ => tidy_from true s
  end.

(** The last character of [s] is no white space. *)
Fixpoint ends_nonspace (s : str) : bool :=
  match s with
  | [] => false
  | [c] => negb (Text.isspace c)
  | _ :: s' => ends_nonspace s'
  end.

(** The first character of [s] is no white space. *)
Definition starts_nonspace (s : str) : bool :=
  match s with
  | [] => false
  | c :: _ => negb (Text.isspace c)
  end.

(** The records with a name that the containers of a page give, in the
    order of the page. *)
Fixpoint named_records (urljoin : str -> str -> exc str)
    (containers : list container) : list product_data :=
  match containers with
  | [] => []
  | c :: rest =>
      match scrape_product_details urljoin c with
      | Some product =>
          if Text.nonempty (Product_Name product)
          then product :: named_records urljoin rest
          else named_records urljoin rest
      | None => named_records urljoin rest
      end
  end.

(** A record that [scrape_product_details] gives for some container. *)
Definition produced (urljoin : str -> str -> exc str)
    (r : product_data) : Prop :=
  exists c, scrape_product_details urljoin c = Some r.

End Tidy.

(** A selector finds at least one container in the page. *)
Definition has_results (soup : document) (selector : string) : bool :=
  match select soup selector with
  | [] => false
  | _ => true
  end.

(** An event that writes no file. *)
Definition writes_nothing (e : event) : Prop :=
  match e with
  | WriteFile _ => False
  | _ => True
  end.

Module Worlds.

(** A site that cannot be reached. *)
Definition down : world :=
  {| http_get := fun _ _ => Failed RequestException;
     random := fun _ => 1 # 2;
     writable := fun _ => true |}.

(** A site that answers 503 twice and then the page of results. *)
Definition slow : world :=
  {| http_get := fun n _ =>
       if (n <? 2)%nat then Responded Sample.busy_response
       else Responded Sample.ok_response;
     random := fun _ => 1 # 2;
     writable := fun _ => true |}.

End Worlds.

(** * Properties *)

(** ** Text *)

Module TextFacts.

Import Text.

Local Open Scope list_scope.

Section Facts.

Context {P : Platform}.

(** The text matched, from what the match leaves. *)
Lemma group_of_rest (a b : str) :
  firstn (List.length (a ++ b) - List.length b) (a ++ b) = a.
Proof.
  rewrite length_app.
  replace (List.length a + List.length b - List.length b)%nat
    with (List.length a + 0)%nat by lia.
  rewrite firstn_app_2. simpl. apply app_nil_r.
Qed.

Lemma take_drop_while (p : char -> bool) (s : str) :
  take_while p s ++ drop_while p s = s.
Proof.
  induction s as [|c s IH]; simpl; auto.
  destruct (p c); simpl; congruence.
Qed.

Lemma all_take_while (p : char -> bool) (s : str) :
  all p (take_while p s) = true.
Proof.
  induction s as [|c s IH]; simpl; auto.
  destruct (p c) eqn:E; simpl; auto.
  now rewrite E.
Qed.

Lemma all_app (p : char -> bool) (a b : str) :
  all p (a ++ b) = all p a && all p b.
Proof.
  induction a as [|c a IH]; simpl; auto.
  now rewrite IH, andb_assoc.
Qed.

Lemma any_app (p : char -> bool) (a b : str) :
  any p (a ++ b) = any p a || any p b.
Proof.
  induction a as [|c a IH]; simpl; auto.
  now rewrite IH, orb_assoc.
Qed.

Lemma any_false_all (p : char -> bool) (s : str) :
  any p s = false <-> all (fun c => negb (p c)) s = true.
Proof.
  induction s as [|c s IH]; simpl; [tauto|].
  rewrite orb_false_iff, andb_true_iff, negb_true_iff. tauto.
Qed.

Lemma rev_app (a b : str) : rev (a ++ b) = rev b ++ rev a.
Proof.
  induction a as [|c a IH]; simpl.
  - now rewrite app_nil_r.
  - now rewrite IH, app_assoc.
Qed.

Lemma rev_rev (s : str) : rev (rev s) = s.
Proof.
  induction s as [|c s IH]; simpl; auto.
  now rewrite rev_app, IH.
Qed.

(** A decimal digit is a digit for [str.isdigit]. *)
Lemma isdecimal_isdigit (c : char) :
  isdecimal c = true -> isdigit c = true.
Proof.
  unfold isdecimal, decimal, isdigit, ascii_decimal.
  destruct (is_ascii c).
  - destruct ((48 <=? c) && (c <=? 57))%N; auto.
  - destruct (wide_decimal c) eqn:E; [|discriminate].
    intros _. exact (wide_decimal_isdigit _ _ E).
Qed.

Lemma any_isdecimal_isdigit (s : str) :
  any isdecimal s = true -> any isdigit s = true.
Proof.
  induction s as [|c s IH]; simpl; auto.
  intros H. apply orb_true_iff in H. apply orb_true_iff.
  destruct H as [H|H]; [left; now apply isdecimal_isdigit | right; auto].
Qed.

Lemma digit_not_comma (c : char) :
  isdecimal c = true -> (c =? comma)%N = false.
Proof.
  intros H. destruct (c =? comma)%N eqn:E; auto.
  apply N.eqb_eq in E. subst c. discriminate H.
Qed.

Lemma digit_not_point (c : char) :
  isdecimal c = true -> (c =? point)%N = false.
Proof.
  intros H. destruct (c =? point)%N eqn:E; auto.
  apply N.eqb_eq in E. subst c. discriminate H.
Qed.

(** The rupee sign is no decimal digit. *)
Lemma rupee_not_decimal : isdecimal rupee = false.
Proof.
  unfold isdecimal, decimal, rupee. cbn [is_ascii]. 
  change (8377 <? 128)%N with false. cbv iota.
  now rewrite rupee_no_digit.
Qed.

Lemma replace_has_no_comma (s : str) :
  any is_comma (replace comma [] s) = false.
Proof.
  induction s as [|c s IH]; simpl; auto.
  destruct (c =? comma)%N eqn:E; simpl; auto.
  unfold is_comma at 1. now rewrite E.
Qed.

Lemma replace_without_comma (s : str) :
  any is_comma s = false -> replace comma [] s = s.
Proof.
  induction s as [|c s IH]; simpl; auto.
  intros H. apply orb_false_iff in H. destruct H as [H1 H2].
  unfold is_comma in H1. rewrite H1. now rewrite IH.
Qed.

Lemma digits_have_no_comma (s : str) :
  all isdecimal s = true -> any is_comma s = false.
Proof.
  induction s as [|c s IH]; simpl; auto.
  intros H. apply andb_true_iff in H. destruct H as [H1 H2].
  unfold is_comma at 1. now rewrite (digit_not_comma _ H1), IH.
Qed.

Lemma any_replace (p : char -> bool) (s : str) :
  p comma = false ->
  any p (replace comma [] s) = any p s.
Proof.
  intros Hp. induction s as [|c s IH]; simpl; auto.
  destruct (c =? comma)%N eqn:E; simpl.
  - apply N.eqb_eq in E. subst c. rewrite Hp. exact IH.
  - now rewrite IH.
Qed.

Lemma any_digit_replace (s : str) :
  any isdecimal (replace comma [] s) = any isdecimal s.
Proof. now apply any_replace. Qed.

(** On a text without commas the class "digit or comma" is the class of
    the digits. *)
Lemma digit_or_comma_digit (c : char) :
  is_comma c = false -> digit_or_comma c = isdecimal c.
Proof.
  unfold digit_or_comma, is_comma. intros ->. apply orb_false_r.
Qed.

Lemma take_while_digit_or_comma (s : str) :
  any is_comma s = false ->
  take_while digit_or_comma s = take_while isdecimal s.
Proof.
  induction s as [|c s IH]; simpl; auto.
  intros H. apply orb_false_iff in H. destruct H as [H1 H2].
  rewrite (digit_or_comma_digit _ H1).
  destruct (isdecimal c); auto. now rewrite IH.
Qed.

Lemma drop_while_digit_or_comma (s : str) :
  any is_comma s = false ->
  drop_while digit_or_comma s = drop_while isdecimal s.
Proof.
  induction s as [|c s IH]; simpl; auto.
  intros H. apply orb_false_iff in H. destruct H as [H1 H2].
  rewrite (digit_or_comma_digit _ H1).
  destruct (isdecimal c); auto.
Qed.

Lemma digit_val_range (c : char) : 0 <= digit_val c <= 9.
Proof.
  unfold digit_val, decimal, ascii_decimal.
  destruct (is_ascii c).
  - destruct ((48 <=? c) && (c <=? 57))%N eqn:E; [|lia].
    apply andb_true_iff in E. destruct E as [E1 E2].
    apply N.leb_le in E1, E2. lia.
  - destruct (wide_decimal c) eqn:E; [|lia].
    exact (wide_decimal_range _ _ E).
Qed.

Lemma digits_value_nonneg (s : str) (acc : Z) :
  0 <= acc -> 0 <= digits_value acc s.
Proof.
  revert acc. induction s as [|c s IH]; cbn [digits_value];
    intros acc Hacc; auto.
  pose proof (digit_val_range c).
  apply IH; lia.
Qed.

Lemma split_point_digits (ds rest : str) :
  all isdecimal ds = true ->
  split_point (ds ++ rest) =
  (ds ++ fst (split_point rest), snd (split_point rest)).
Proof.
  induction ds as [|c ds IH]; simpl; intros H.
  - now destruct (split_point rest).
  - apply andb_true_iff in H. destruct H as [H1 H2].
    pose proof (digit_not_point _ H1) as Hc. unfold point in Hc.
    rewrite Hc, (IH H2). reflexivity.
Qed.

Lemma py_int_digits (s : str) :
  nonempty s = true -> all isdecimal s = true -> int_accepts s = true ->
  py_int s = Ok (digits_value 0 s).
Proof. unfold py_int. now intros -> -> ->. Qed.

Lemma py_int_refused (s : str) :
  int_accepts s = false -> py_int s = Raise ValueError.
Proof. unfold py_int. intros ->. now rewrite andb_false_r. Qed.

(** [int] converts every run of at most 640 digits. *)
Lemma int_accepts_short (s : str) :
  (List.length s <= 640)%nat -> int_accepts s = true.
Proof.
  intros H. unfold int_accepts.
  apply Nat.leb_le in H. now rewrite H.
Qed.

Lemma to_float_nonneg (q : Q) : (0 <= q)%Q -> float_nonneg (to_float q).
Proof.
  intros H. unfold to_float.
  destruct (exact64 q); [exact H | now apply round64_nonneg].
Qed.

Lemma decimal_value_nonneg (ip fp : str) :
  (0 <= Qred (digits_value 0 (ip ++ fp)
              # Z.to_pos (10 ^ Z.of_nat (List.length fp))))%Q.
Proof.
  rewrite Qred_correct. unfold Qle; simpl.
  rewrite Z.mul_1_r.
  apply digits_value_nonneg; lia.
Qed.

(** [float] gives no negative number. *)
Lemma py_float_nonneg (s : str) (x : pyfloat) :
  py_float s = Ok x -> float_nonneg x.
Proof.
  unfold py_float. destruct (split_point s) as [ip fp].
  destruct (nonempty (ip ++ fp) && all isdecimal ip && all isdecimal fp);
    [|discriminate].
  intros H.
  assert (Hx : x = to_float
                     (Qred (digits_value 0 (ip ++ fp)
                            # Z.to_pos (10 ^ Z.of_nat (List.length fp)))))
    by congruence.
  rewrite Hx. apply to_float_nonneg, decimal_value_nonneg.
Qed.

End Facts.

End TextFacts.

(** ** The matcher *)

Module ReFacts.

Import Text TextFacts Re.

Local Open Scope list_scope.

Section Facts.

Context {P : Platform}.

Lemma star_greedy_some {A} (p : char -> bool) (s : str)
    (k : str -> option A) (x : A) :
  k (drop_while p s) = Some x -> star_greedy p s k = Some x.
Proof.
  induction s as [|c s IH]; simpl; auto.
  destruct (p c); auto.
  intros H. now rewrite (IH H).
Qed.

Lemma search_eq (r : regex) (s : str) :
  search r s =
  match match_at r s with
  | Some rest => Some (firstn (List.length s - List.length rest) s)
  | None =>
      match s with
      | [] => None
      | _ :: s' => search r s'
      end
  end.
Proof. destruct s; reflexivity. Qed.

Lemma group_eq (s a b : str) :
  s = a ++ b -> firstn (List.length s - List.length b) s = a.
Proof. intros ->. apply group_of_rest. Qed.

(** A match of [class+] starts at a character of the class and takes the
    whole run. *)
Lemma match_at_plus (p : char -> bool) (c : char) (s : str) :
  match_at (Plus p) (c :: s) =
  if p c then Some (drop_while p s) else None.
Proof.
  unfold match_at. simpl. destruct (p c); auto.
  now apply star_greedy_some.
Qed.

Lemma match_at_seq_plus (p : char -> bool) (r : regex) (c : char)
    (s : str) :
  match_at (Seq (Plus p) r) (c :: s) =
  if p c then star_greedy p s (fun s' => matches r s' (fun x => Some x))
  else None.
Proof. reflexivity. Qed.

(** The optional fraction of a price always matches: a point and two
    digits when they are there, nothing otherwise. *)
Lemma match_fraction (s : str) :
  exists rest,
    matches (Opt (Seq (Class is_point) (Exactly 2 isdecimal))) s
            (fun r => Some r) = Some rest /\
    s = (if nonempty (Spec.two_decimals s)
         then point :: Spec.two_decimals s else []) ++ rest.
Proof.
  destruct s as [|c0 [|d1 [|d2 s]]]; cbn [matches exactly Spec.two_decimals].
  - exists []; auto.
  - exists [c0]. destruct (is_point c0); auto.
  - exists [c0; d1].
    destruct (is_point c0); auto. destruct (isdecimal d1); auto.
  - destruct (is_point c0) eqn:E0; cbn [andb].
    + destruct (isdecimal d1).
      * destruct (isdecimal d2); cbn [nonempty app].
        -- exists s. split; auto.
           apply N.eqb_eq in E0. now subst c0.
        -- eexists; split; reflexivity.
      * eexists; split; reflexivity.
    + eexists; split; reflexivity.
Qed.

(** The tail of the rating pattern always matches: a point and the digits
    after it, or the digits that are there. *)
Lemma match_rating_tail (s : str) :
  exists f rest,
    matches (Seq (Opt (Class is_point)) (Star isdecimal)) s
            (fun r => Some r) = Some rest /\
    s = f ++ rest /\
    (all isdecimal f = true \/
     exists ds, f = point :: ds /\ all isdecimal ds = true).
Proof.
  cbn [matches].
  destruct s as [|c s].
  - exists [], []. simpl. auto.
  - cbn [star_greedy]. destruct (is_point c) eqn:E.
    + exists (point :: take_while isdecimal s), (drop_while isdecimal s).
      rewrite (star_greedy_some isdecimal s (fun r => Some r)
                 (drop_while isdecimal s) eq_refl).
      apply N.eqb_eq in E. subst c. cbn [app].
      rewrite take_drop_while. split; [reflexivity|]. split; auto.
      right. eexists. split; [reflexivity|]. apply all_take_while.
    + exists (take_while isdecimal (c :: s)),
             (drop_while isdecimal (c :: s)).
      rewrite take_drop_while. split; [|split; [reflexivity|]].
      * cbn [drop_while]. destruct (isdecimal c); auto.
        now rewrite (star_greedy_some isdecimal s (fun r => Some r)
                       (drop_while isdecimal s) eq_refl).
      * left. apply all_take_while.
Qed.

Lemma two_decimals_digits (s : str) :
  all isdecimal (Spec.two_decimals s) = true.
Proof.
  destruct s as [|c0 [|d1 [|d2 s]]]; cbn [Spec.two_decimals all]; auto.
  destruct (is_point c0); cbn [andb all]; auto.
  destruct (isdecimal d1) eqn:E1; cbn [andb all]; auto.
  destruct (isdecimal d2) eqn:E2; cbn [andb all]; auto.
  now rewrite E1, E2.
Qed.

End Facts.

End ReFacts.

(** ** The extractors *)

Module ExtractFacts.

Import Text TextFacts Re ReFacts.

Local Open Scope list_scope.

Section Facts.

Context {P : Platform}.

Lemma py_float_int (ds : str) :
  nonempty ds = true -> all isdecimal ds = true ->
  py_float ds = Ok (to_float (Spec.decimal ds [])).
Proof.
  intros Hn Hd.
  assert (Hs : split_point ds = (ds, [])).
  { rewrite <- (app_nil_r ds) at 1.
    rewrite (split_point_digits ds [] Hd). cbn [split_point fst snd].
    now rewrite app_nil_r. }
  unfold py_float, Spec.decimal. rewrite Hs, app_nil_r, Hn, Hd.
  reflexivity.
Qed.

Lemma py_float_point (ds f : str) :
  nonempty ds = true -> all isdecimal ds = true ->
  all isdecimal f = true ->
  py_float (ds ++ point :: f) = Ok (to_float (Spec.decimal ds f)).
Proof.
  intros Hn Hd Hf.
  assert (Hs : split_point (ds ++ point :: f) = (ds, f)).
  { rewrite (split_point_digits ds (point :: f) Hd).
    cbn [split_point fst snd]. unfold point. rewrite N.eqb_refl.
    cbn [fst snd]. now rewrite app_nil_r. }
  unfold py_float, Spec.decimal. rewrite Hs, Hd, Hf.
  destruct ds; [discriminate|reflexivity].
Qed.

(** The search of line 107 finds the first run of digits. *)
Lemma search_review (t : str) :
  any is_comma t = false ->
  search review_re t =
  if nonempty (Spec.first_digits t) then Some (Spec.first_digits t)
  else None.
Proof.
  induction t as [|c t IH]; intros H; [reflexivity|].
  rewrite search_eq. unfold review_re at 1. rewrite match_at_plus.
  cbn [any] in H. apply orb_false_iff in H. destruct H as [H1 H2].
  rewrite (digit_or_comma_digit _ H1).
  cbn [Spec.first_digits].
  destruct (isdecimal c) eqn:E.
  - cbn [take_while]. rewrite E. cbn [nonempty]. f_equal.
    apply group_eq.
    rewrite <- (take_while_digit_or_comma _ H2).
    cbn [app]. now rewrite take_drop_while.
  - now apply IH.
Qed.

Lemma first_digits_are_digits (t : str) :
  all isdecimal (Spec.first_digits t) = true.
Proof.
  induction t as [|c t IH]; cbn [Spec.first_digits]; auto.
  destruct (isdecimal c) eqn:E; auto.
  cbn [take_while]. rewrite E. cbn [all]. rewrite E. apply all_take_while.
Qed.

Lemma first_digits_none (t : str) :
  any isdecimal t = false -> Spec.first_digits t = [].
Proof.
  induction t as [|c t IH]; cbn [Spec.first_digits any]; auto.
  intros H. apply orb_false_iff in H. destruct H as [H1 H2].
  rewrite H1. auto.
Qed.

Lemma first_digits_some (t : str) :
  any isdecimal t = true -> nonempty (Spec.first_digits t) = true.
Proof.
  induction t as [|c t IH]; cbn [Spec.first_digits any]; [discriminate|].
  destruct (isdecimal c) eqn:E; auto.
  intros _. cbn [take_while]. now rewrite E.
Qed.

(** [extract_review_count] gives the digit sequence of the text, when
    [int] converts a run of digits of that length. *)
Lemma extract_review_count_spec (review_text : str) :
  extract_review_count review_text =
  if int_accepts (Spec.first_digits (replace comma [] review_text))
  then Ok (Spec.digit_sequence review_text)
  else Raise ValueError.
Proof.
  unfold extract_review_count, Spec.digit_sequence.
  destruct review_text as [|c t]; [reflexivity|].
  cbn [nonempty negb].
  rewrite (search_review _ (replace_has_no_comma _)).
  set (ds := Spec.first_digits _).
  destruct (nonempty ds) eqn:E.
  - assert (Hd : all isdecimal ds = true) by apply first_digits_are_digits.
    rewrite (replace_without_comma _ (digits_have_no_comma _ Hd)).
    destruct (int_accepts ds) eqn:Ea.
    + now rewrite (py_int_digits _ E Hd Ea).
    + now rewrite (py_int_refused _ Ea).
  - destruct ds; [reflexivity|discriminate].
Qed.

(** The search of line 86, on a text without commas, followed by [float]:
    the leading number of the text. *)
Lemma search_price (t : str) :
  any is_comma t = false ->
  match search price_re t with
  | Some group =>
      exists q, py_float (replace comma [] group) = Ok (to_float q) /\
                Spec.leading_number t = Some q
  | None => Spec.leading_number t = None
  end.
Proof.
  induction t as [|c t IH]; intros H; [reflexivity|].
  rewrite search_eq.
  cbn [any] in H. apply orb_false_iff in H. destruct H as [H1 H2].
  unfold price_re at 1. rewrite match_at_seq_plus.
  rewrite (digit_or_comma_digit _ H1).
  cbn [Spec.leading_number].
  destruct (isdecimal c) eqn:E; [|now apply IH].
  destruct (match_fraction (drop_while digit_or_comma t))
    as (rest & Hm & Hs).
  rewrite (star_greedy_some digit_or_comma t
             (fun s' => matches (Opt (Seq (Class is_point)
                                          (Exactly 2 isdecimal)))
                                s' (fun x => Some x)) rest Hm).
  cbn [take_while drop_while]. rewrite E.
  rewrite (drop_while_digit_or_comma _ H2) in Hs.
  set (ds := c :: take_while isdecimal t).
  set (f := Spec.two_decimals (drop_while isdecimal t)) in *.
  assert (Hds : all isdecimal ds = true)
    by (unfold ds; cbn [all]; now rewrite E, all_take_while).
  assert (Hf : all isdecimal f = true) by apply two_decimals_digits.
  assert (Hg : firstn (List.length (c :: t) - List.length rest) (c :: t) =
               ds ++ (if nonempty f then point :: f else [])).
  { apply group_eq. unfold ds.
    rewrite <- (take_drop_while isdecimal t) at 1.
    rewrite Hs at 1. cbn [app]. now rewrite !app_assoc. }
  rewrite Hg. exists (Spec.decimal ds f). split; auto.
  destruct (nonempty f) eqn:Ef.
  - rewrite replace_without_comma.
    + now apply py_float_point.
    + rewrite any_app. rewrite (digits_have_no_comma _ Hds).
      cbn [any orb is_comma]. 
      change (point =? comma)%N with false. cbn [orb].
      apply digits_have_no_comma. exact Hf.
  - rewrite app_nil_r.
    rewrite (replace_without_comma _ (digits_have_no_comma _ Hds)).
    destruct f; [|discriminate]. now apply py_float_int.
Qed.

(** [extract_price] never raises, and gives the leading number of the
    text. *)
Lemma extract_price_spec (price_text : str) :
  extract_price price_text = Ok (Spec.price_of price_text).
Proof.
  unfold extract_price, Spec.price_of.
  destruct price_text as [|c t]; [reflexivity|].
  cbn [nonempty negb].
  pose proof (search_price _ (replace_has_no_comma (c :: t))) as H.
  destruct (search price_re _) as [group|].
  - destruct H as (q & Hq & Hl). now rewrite Hq, Hl.
  - now rewrite H.
Qed.

Lemma leading_number_none (t : str) :
  any isdecimal t = false -> Spec.leading_number t = None.
Proof.
  induction t as [|c t IH]; cbn [Spec.leading_number any]; auto.
  intros H. apply orb_false_iff in H. destruct H as [H1 H2].
  rewrite H1. auto.
Qed.

Lemma leading_number_some (t : str) :
  any isdecimal t = true -> exists q, Spec.leading_number t = Some q.
Proof.
  induction t as [|c t IH]; cbn [Spec.leading_number any]; [discriminate|].
  destruct (isdecimal c); cbn [orb]; eauto.
Qed.

Lemma decimal_nonneg (ip fp : str) : (0 <= Spec.decimal ip fp)%Q.
Proof. apply decimal_value_nonneg. Qed.

Lemma leading_number_nonneg (t : str) (q : Q) :
  Spec.leading_number t = Some q -> (0 <= q)%Q.
Proof.
  induction t as [|c t IH]; cbn [Spec.leading_number]; [discriminate|].
  destruct (isdecimal c) eqn:E; auto.
  intros H.
  assert (Hq : q = Spec.decimal (take_while isdecimal (c :: t))
                     (Spec.two_decimals (drop_while isdecimal (c :: t))))
    by congruence.
  rewrite Hq. apply decimal_nonneg.
Qed.

(** The search of line 96 finds a text that [float] reads. *)
Lemma search_rating (t : str) :
  match search rating_re t with
  | Some group => exists x, py_float group = Ok x
  | None => True
  end.
Proof.
  induction t as [|c t IH]; [exact I|].
  rewrite search_eq. unfold rating_re at 1. rewrite match_at_seq_plus.
  destruct (isdecimal c) eqn:E; [|exact IH].
  destruct (match_rating_tail (drop_while isdecimal t))
    as (f & rest & Hm & Hs & Hf).
  rewrite (star_greedy_some isdecimal t
             (fun s' => matches (Seq (Opt (Class is_point))
                                     (Star isdecimal))
                                s' (fun x => Some x)) rest Hm).
  set (ds := c :: take_while isdecimal t).
  assert (Hds : all isdecimal ds = true)
    by (unfold ds; cbn [all]; now rewrite E, all_take_while).
  assert (Hg : firstn (List.length (c :: t) - List.length rest) (c :: t) =
               ds ++ f).
  { apply group_eq. unfold ds.
    rewrite <- (take_drop_while isdecimal t) at 1.
    rewrite Hs at 1. cbn [app]. now rewrite !app_assoc. }
  rewrite Hg. destruct Hf as [Hf|(ds2 & -> & Hf)].
  - eexists. apply py_float_int; [reflexivity|].
    now rewrite all_app, Hds, Hf.
  - eexists. now apply py_float_point.
Qed.

(** No digit, no match of the rating pattern. *)
Lemma search_rating_none (t : str) :
  any isdecimal t = false -> search rating_re t = None.
Proof.
  induction t as [|c t IH]; [reflexivity|].
  cbn [any]. intros H. apply orb_false_iff in H. destruct H as [H1 H2].
  rewrite search_eq. unfold rating_re at 1. rewrite match_at_seq_plus.
  rewrite H1. now apply IH.
Qed.

(** A digit, a match of the rating pattern. *)
Lemma search_rating_some (t : str) :
  any isdecimal t = true -> exists group, search rating_re t = Some group.
Proof.
  induction t as [|c t IH]; [discriminate|].
  cbn [any]. intros H.
  rewrite search_eq. unfold rating_re at 1. rewrite match_at_seq_plus.
  destruct (isdecimal c) eqn:E.
  - destruct (match_rating_tail (drop_while isdecimal t))
      as (f & rest & Hm & _).
    rewrite (star_greedy_some isdecimal t
               (fun s' => matches (Seq (Opt (Class is_point))
                                       (Star isdecimal))
                                  s' (fun x => Some x)) rest Hm).
    eauto.
  - now apply IH.
Qed.

(** [extract_rating] never raises. *)
Lemma extract_rating_total (rating_text : str) :
  exists r, extract_rating rating_text = Ok r.
Proof.
  unfold extract_rating.
  destruct (negb (nonempty rating_text)); [eauto|].
  pose proof (search_rating rating_text) as H.
  destruct (search rating_re rating_text) as [group|]; [|eauto].
  destruct H as (q & ->). simpl. eauto.
Qed.

(** [extract_rating] gives no negative number. *)
Lemma extract_rating_nonneg (rating_text : str) (x : pyfloat) :
  extract_rating rating_text = Ok (Some x) -> float_nonneg x.
Proof.
  unfold extract_rating.
  destruct (negb (nonempty rating_text)); [discriminate|].
  destruct (search rating_re rating_text) as [group|]; [|discriminate].
  destruct (py_float group) as [v|e] eqn:E; simpl; [|discriminate].
  intros [= <-]. exact (py_float_nonneg _ _ E).
Qed.

End Facts.

End ExtractFacts.

(** ** One container *)

Module DetailFacts.

Import Text TextFacts ExtractFacts.

Section Facts.

Context {P : Platform}.
Variable urljoin : str -> str -> exc str.

(** What the [try] body puts in each field when it ends normally. *)
Lemma product_details_fields (c : container) (pd : product_data) :
  product_details_body urljoin c = Ok pd ->
  Product_Name pd =
    match first_selected c name_selectors None with
    | Some e => clean_text (get_text e)
    | None => []
    end /\
  match first_selected c price_selectors None with
  | Some e => extract_price (get_text e)
  | None => Ok None
  end = Ok (Price pd) /\
  match first_selected c rating_selectors None with
  | Some e => extract_rating (str_or (get e "aria-label" []) (get_text e))
  | None => Ok None
  end = Ok (Rating pd) /\
  match review_loop c review_selectors None with
  | Some e => extract_review_count (get_text e)
  | None => Ok None
  end = Ok (Number_of_Reviews pd).
Proof.
  unfold product_details_body, exc_bind. intros B.
  repeat match type of B with
         | match ?x with Ok _ => _ | Raise _ => _ end = _ =>
             destruct x eqn:?; [|discriminate B]
         end.
  injection B as <-. simpl. auto.
Qed.

Lemma details_ok (c : container) (pd : product_data) :
  scrape_product_details urljoin c = Some pd ->
  product_details_body urljoin c = Ok pd.
Proof.
  unfold scrape_product_details.
  destruct (product_details_body urljoin c); congruence.
Qed.

(** The loop of lines 203-210 ends on the first candidate that validates;
    without one it ends on [None] or on a tag that does not validate. *)
Lemma review_loop_first_validated (c : container) (selectors : list string)
    (current : option element) :
  match find Spec.validated (Spec.candidates c selectors) with
  | Some e => review_loop c selectors current = Some e
  | None =>
      review_loop c selectors current = current \/
      review_loop c selectors current = None \/
      exists e, review_loop c selectors current = Some e /\
                Spec.validated e = false
  end.
Proof.
  revert current.
  induction selectors as [|selector rest IH]; intros current; simpl; auto.
  destruct (select_one c selector) as [e|]; simpl.
  - change (review_text_ok (get_text e)) with (Spec.validated e).
    destruct (Spec.validated e) eqn:V; auto.
    specialize (IH (Some e)).
    destruct (find Spec.validated (Spec.candidates c rest)); auto.
    destruct IH as [IH|[IH|IH]]; eauto.
  - specialize (IH None).
    destruct (find Spec.validated (Spec.candidates c rest)); auto.
    destruct IH as [IH|[IH|IH]]; auto.
Qed.

(** A text that does not validate has no decimal digit. *)
Lemma unvalidated_no_decimal (e : element) :
  Spec.validated e = false ->
  Spec.first_digits (replace comma [] (get_text e)) = [].
Proof.
  unfold Spec.validated. intros H.
  apply orb_false_iff in H. destruct H as [_ H].
  apply first_digits_none. rewrite any_digit_replace.
  destruct (any isdecimal (get_text e)) eqn:E; auto.
  apply any_isdecimal_isdigit in E. congruence.
Qed.

(** A text that does not validate has no digit sequence. *)
Lemma unvalidated_no_digits (e : element) :
  Spec.validated e = false -> Spec.digit_sequence (get_text e) = None.
Proof.
  intros H. unfold Spec.digit_sequence.
  now rewrite (unvalidated_no_decimal _ H).
Qed.

(** The review count: that of the first validated candidate, or a
    [ValueError] when [int] refuses the run of digits. *)
Lemma reviews_field (c : container) :
  match review_loop c review_selectors None with
  | Some e => extract_review_count (get_text e)
  | None => Ok None
  end = if int_accepts (review_digits c)
        then Ok (Spec.review_count c)
        else Raise ValueError.
Proof.
  unfold Spec.review_count, review_digits, Spec.first_validated.
  pose proof (review_loop_first_validated c review_selectors None) as H.
  destruct (find Spec.validated (Spec.candidates c review_selectors))
    as [e|].
  - rewrite H. apply extract_review_count_spec.
  - destruct H as [H|[H|(e & H & V)]]; rewrite H; auto.
    rewrite extract_review_count_spec.
    rewrite (unvalidated_no_decimal _ V).
    now rewrite unvalidated_no_digits.
Qed.

Lemma price_field (c : container) :
  match first_selected c price_selectors None with
  | Some e => extract_price (get_text e)
  | None => Ok None
  end
  = Ok match first_selected c price_selectors None with
       | Some e => Spec.price_of (get_text e)
       | None => None
       end.
Proof.
  destruct (first_selected c price_selectors None); auto.
  apply extract_price_spec.
Qed.

Lemma rating_field (c : container) :
  exists r,
    match first_selected c rating_selectors None with
    | Some e =>
        extract_rating (str_or (get e "aria-label" []) (get_text e))
    | None => Ok None
    end = Ok r.
Proof.
  destruct (first_selected c rating_selectors None); eauto.
  apply extract_rating_total.
Qed.

(** [scrape_product_details] gives [None] only when [urljoin] raises on
    the link of the container or [int] refuses the digits of the review
    count. *)
Lemma details_none_iff (c : container) :
  scrape_product_details urljoin c = None <->
  (exists link e,
     tag_or (select_one c link_selector) (select_one c link_selector_dp)
       = Some link /\
     urljoin base_url (get link "href" []) = Raise e) \/
  int_accepts (review_digits c) = false.
Proof.
  unfold scrape_product_details, product_details_body.
  rewrite reviews_field, price_field.
  destruct (rating_field c) as (r & ->).
  destruct (int_accepts (review_digits c)).
  - destruct (tag_or (select_one c link_selector)
                     (select_one c link_selector_dp)) as [link|].
    + destruct (urljoin base_url (get link "href" [])) as [url|e] eqn:U;
        simpl; split.
      * discriminate.
      * intros [(l & e & [= <-] & E)|E]; congruence.
      * eauto.
      * auto.
    + simpl. split; [discriminate|].
      intros [(l & e & E & _)|E]; discriminate.
  - split; auto. intros _.
    destruct (tag_or (select_one c link_selector)
                     (select_one c link_selector_dp)) as [link|];
      [destruct (urljoin base_url (get link "href" []))|]; reflexivity.
Qed.

End Facts.

End DetailFacts.

(** ** Claims on the extraction of one container *)

Section DetailClaims.

Context {P : Platform}.
Variable urljoin : str -> str -> exc str.

(** C2.  The review count of a record is that of the first candidate of the
    review selectors whose text contains "review" (in any case) or a digit:
    the digit sequence of its text, separators stripped, read as an integer;
    it is null when no candidate validates.  A candidate validates on any
    character that [str.isdigit] accepts, the digit sequence is made of
    decimal digits, in any script. *)
Theorem review_count_from_first_validated (c : container)
    (pd : product_data) :
  scrape_product_details urljoin c = Some pd ->
  Number_of_Reviews pd = Spec.review_count c /\
  (Spec.first_validated c = None -> Number_of_Reviews pd = None).
Proof.
  intros H. apply DetailFacts.details_ok in H.
  apply DetailFacts.product_details_fields in H.
  destruct H as (_ & _ & _ & H).
  rewrite DetailFacts.reviews_field in H.
  destruct (Text.int_accepts (review_digits c)); [|discriminate].
  assert (E : Number_of_Reviews pd = Spec.review_count c) by congruence.
  split; auto.
  intros N. rewrite E. unfold Spec.review_count. now rewrite N.
Qed.


End DetailClaims.

Lemma review_count_from_first_validated_witness :
  scrape_product_details (P := Sample.platform) Sample.urljoin Sample.toy
    = Some SampleRecords.toy_record /\
  Some 1234 = Spec.review_count (P := Sample.platform) Sample.toy.
Proof.
  split; [reflexivity|].
  exact (proj1 (review_count_from_first_validated
                  (P := Sample.platform)
                  Sample.urljoin Sample.toy SampleRecords.toy_record
                  eq_refl)).
Defined.

(** A tag that does not validate and stays in [review_element] after the
    last selector gives no count. *)
Example stale_candidate_gives_null (P : Platform) :
  let stale := {| elem_text := lit "See options"; elem_attrs := [] |} in
  let c := {| cont_matches := [ ("a.a-link-normal", stale) ] |} in
  review_loop c review_selectors None = Some stale /\
  Spec.first_validated c = None /\
  option_map Number_of_Reviews (scrape_product_details Sample.urljoin c)
    = Some None.
Proof. vm_compute. repeat split. Qed.

(** A candidate whose only digit is a superscript validates, and stops
    the search, but has no digit sequence: the count is null whatever the
    candidates after it read. *)
Example superscript_candidate_gives_null (P : Platform) :
  wide_isdigit 178%N = true -> wide_decimal 178%N = None ->
  let area := {| elem_text := (lit "m" ++ [178%N])%list; elem_attrs := [] |} in
  let link := {| elem_text := lit "1,234"; elem_attrs := [] |} in
  let c := {| cont_matches :=
                [ ("span.a-size-base", area); ("a.a-link-normal", link) ] |}
  in
  Spec.first_validated c = Some area /\
  Spec.review_count c = None /\
  option_map Number_of_Reviews (scrape_product_details Sample.urljoin c)
    = Some None.
Proof.
  intros Hd Hn area link c.
  assert (V : Spec.validated area = true).
  { unfold Spec.validated. apply orb_true_iff. right.
    cbn. unfold Text.isdigit. cbn. now rewrite Hd. }
  assert (F : Spec.first_validated c = Some area).
  { unfold Spec.first_validated. cbn [Spec.candidates flat_map].
    change (Spec.candidates c review_selectors)
      with [area; link]. cbn [find]. now rewrite V. }
  assert (D : Spec.digit_sequence (get_text area) = None).
  { unfold Spec.digit_sequence. cbn.
    unfold Text.isdecimal, Text.decimal. cbn. now rewrite Hn. }
  assert (R : Spec.review_count c = None).
  { unfold Spec.review_count. now rewrite F. }
  split; [exact F|]. split; [exact R|].
  destruct (scrape_product_details Sample.urljoin c) as [pd|] eqn:E.
  - cbn [option_map]. f_equal.
    rewrite (proj1 (review_count_from_first_validated _ _ _ E)).
    exact R.
  - exfalso. apply (DetailFacts.details_none_iff Sample.urljoin c) in E.
    destruct E as [(l & e & _ & E)|E]; [discriminate|].
    unfold review_digits in E. rewrite F in E.
    revert E. cbn. unfold Text.isdecimal, Text.decimal. cbn.
    rewrite Hn. discriminate.
Qed.



(** ** The pagination loop *)

Module LoopFacts.

Local Open Scope list_scope.

Section Loop.

Context {P : Platform}.
Variable urljoin : str -> str -> exc str.
Variable w : world.
Variables max_pages max_products : Z.

(** The [for] of lines 297-310 appends records with a name, counts them,
    and stops at [max_products]. *)
Lemma process_containers_appends (containers : list container) :
  forall (scraped : Z) (data : list product_data),
  exists new,
    snd (process_containers urljoin max_products containers scraped data)
      = data ++ new /\
    Forall named new /\
    fst (process_containers urljoin max_products containers scraped data)
      = scraped + Z.of_nat (List.length new) /\
    fst (process_containers urljoin max_products containers scraped data)
      <= Z.max scraped max_products.
Proof.
  induction containers as [|c rest IH]; intros scraped data;
    cbn [process_containers].
  - exists []. simpl. rewrite app_nil_r. repeat split; auto; lia.
  - destruct (max_products <=? scraped) eqn:G.
    + exists []. simpl. rewrite app_nil_r. repeat split; auto; lia.
    + apply Z.leb_gt in G.
      destruct (scrape_product_details urljoin c) as [product|];
        [|destruct (IH scraped data) as (new & ? & ? & ? & ?);
          exists new; auto].
      destruct (Text.nonempty (Product_Name product)) eqn:N;
        [|destruct (IH scraped data) as (new & ? & ? & ? & ?);
          exists new; auto].
      destruct (IH (scraped + 1) (data ++ [product]))
        as (new & E1 & F & E2 & B).
      exists (product :: new). repeat split.
      * rewrite E1, <- app_assoc. reflexivity.
      * constructor; auto.
      * rewrite E2. cbn [List.length]. lia.
      * lia.
Qed.

(** One round: the page number moves on; the records added have a name;
    the page either succeeds and resets the counter of failures, or fails,
    adds one to it and leaves the records alone. *)
Lemma scrape_page_cases (st : run_state) :
  page_num (scrape_page urljoin w max_products st) = page_num st + 1 /\
  (exists new,
     products_data (self (scrape_page urljoin w max_products st))
       = products_data (self st) ++ new /\
     Forall named new /\
     products_scraped (scrape_page urljoin w max_products st)
       = products_scraped st + Z.of_nat (List.length new) /\
     products_scraped (scrape_page urljoin w max_products st)
       <= Z.max (products_scraped st) max_products) /\
  ((pages (scrape_page urljoin w max_products st)
      = pages st ++ [(page_num st, PageOk)] /\
    consecutive_failures (scrape_page urljoin w max_products st) = 0) \/
   (pages (scrape_page urljoin w max_products st)
      = pages st ++ [(page_num st, PageFailed)] /\
    consecutive_failures (scrape_page urljoin w max_products st)
      = consecutive_failures st + 1)).
Proof.
  assert (Hfail : forall s1,
    page_num (page_failed st s1) = page_num st + 1 /\
    (exists new,
       products_data (self (page_failed st s1))
         = products_data (self st) ++ new /\
       Forall named new /\
       products_scraped (page_failed st s1)
         = products_scraped st + Z.of_nat (List.length new) /\
       products_scraped (page_failed st s1)
         <= Z.max (products_scraped st) max_products) /\
    ((pages (page_failed st s1) = pages st ++ [(page_num st, PageOk)] /\
      consecutive_failures (page_failed st s1) = 0) \/
     (pages (page_failed st s1) = pages st ++ [(page_num st, PageFailed)] /\
      consecutive_failures (page_failed st s1)
        = consecutive_failures st + 1))).
  { intros s1. simpl. split; [reflexivity|]. split; [|right; auto].
    exists []. rewrite app_nil_r. simpl. repeat split; auto; lia. }
  unfold scrape_page.
  destruct (make_request_with_retry w (page_url (page_num st))
              default_max_retries (system st)) as [fetched s1].
  destruct fetched as [[resp|]|e]; try apply Hfail.
  destruct (locate_containers (content resp) product_selectors [])
    as [|c cs] eqn:L.
  - destruct (writable w (debug_file (page_num st))); apply Hfail.
  - pose proof (process_containers_appends (c :: cs) (products_scraped st)
                  (products_data (self st))) as (new & E1 & F & E2 & B).
    destruct (process_containers urljoin max_products (c :: cs)
                (products_scraped st) (products_data (self st)))
      as [scraped data].
    simpl in *. split; [reflexivity|]. split; [|left; auto].
    exists new. auto.
Qed.

(** The retry loop only sleeps and asks for its own address. *)
Lemma retry_from_trace (url : string) (max_retries : nat) :
  forall (remaining attempt : nat) (s : sys),
  exists events,
    trace (snd (retry_from w url max_retries attempt remaining s))
      = trace s ++ events /\
    Forall (of_page url) events.
Proof.
  induction remaining as [|remaining IH]; intros attempt s.
  - exists []. simpl. now rewrite app_nil_r.
  - cbn [retry_from get_random_delay uniform sleep session_get
         gets draws trace].
    destruct (http_get w (gets s) url) as [r|e].
    + destruct (status_code r =? 200).
      * eexists. cbn [snd trace]. rewrite <- app_assoc.
        split; [reflexivity|]. repeat constructor.
      * destruct (status_code r =? 503);
          match goal with
          | |- context [retry_from _ _ _ ?a _ ?s'] =>
              destruct (IH a s') as (events & E & F)
          end;
          rewrite E; cbn [uniform sleep gets draws trace];
          rewrite <- !app_assoc;
          eexists; (split; [reflexivity|]);
          simpl; repeat constructor; exact F.
    + destruct e;
        try (eexists; cbn [snd trace]; rewrite <- app_assoc;
             split; [reflexivity|]; repeat constructor).
      destruct (Z.of_nat attempt <? Z.of_nat max_retries - 1);
        match goal with
        | |- context [retry_from _ _ _ ?a _ ?s'] =>
            destruct (IH a s') as (events & E & F)
        end;
        rewrite E; cbn [sleep gets draws trace];
        rewrite <- !app_assoc;
        eexists; (split; [reflexivity|]);
        simpl; repeat constructor; exact F.
Qed.

(** One round only sleeps, asks for its page and writes its debug file. *)
Lemma scrape_page_trace (st : run_state) :
  exists events,
    trace (system (scrape_page urljoin w max_products st))
      = trace (system st) ++ events /\
    Forall (of_page (page_url (page_num st))) events.
Proof.
  unfold scrape_page, make_request_with_retry.
  destruct (retry_from_trace (page_url (page_num st)) default_max_retries
              default_max_retries 0 (system st)) as (events & E & F).
  destruct (retry_from w (page_url (page_num st)) default_max_retries 0
              default_max_retries (system st)) as [fetched s1].
  cbn [snd] in E.
  destruct fetched as [[resp|]|e]; try solve [exists events; auto].
  destruct (locate_containers (content resp) product_selectors [])
    as [|c cs].
  - destruct (writable w (debug_file (page_num st))).
    + exists (events ++ [WriteFile (debug_file (page_num st))]).
      cbn [page_failed system write_file trace].
      rewrite E, <- app_assoc. split; [reflexivity|].
      apply Forall_app. split; [exact F|]. repeat constructor.
    + exists events. auto.
  - destruct (process_containers urljoin max_products (c :: cs)
                (products_scraped st) (products_data (self st))).
    exists events. auto.
Qed.

Lemma scrape_loop_invariant (Inv : run_state -> Prop) :
  (forall st, Inv st -> loop_guard max_pages max_products st = true ->
              Inv (scrape_page urljoin w max_products st)) ->
  forall (fuel : nat) (st : run_state),
    Inv st -> Inv (scrape_loop urljoin w fuel max_pages max_products st).
Proof.
  intros Step. induction fuel as [|fuel IH]; intros st H; simpl; auto.
  destruct (loop_guard max_pages max_products st) eqn:G; auto.
Qed.

Lemma loop_guard_iff (st : run_state) :
  loop_guard max_pages max_products st = true <->
  page_num st <= max_pages /\ products_scraped st < max_products /\
  consecutive_failures st < 3.
Proof.
  unfold loop_guard.
  rewrite !andb_true_iff, Z.leb_le, !Z.ltb_lt. tauto.
Qed.

(** With enough fuel the loop stops because its guard is false. *)
Lemma scrape_loop_exits (fuel : nat) :
  forall st : run_state,
    max_pages < page_num st + Z.of_nat fuel ->
    loop_guard max_pages max_products
      (scrape_loop urljoin w fuel max_pages max_products st) = false.
Proof.
  induction fuel as [|fuel IH]; intros st H; simpl.
  - unfold loop_guard.
    replace (page_num st <=? max_pages) with false; auto.
    symmetry. apply Z.leb_gt. lia.
  - destruct (loop_guard max_pages max_products st) eqn:G; auto.
    apply IH. rewrite (proj1 (scrape_page_cases st)). lia.
Qed.

(** More fuel than that changes nothing. *)
Lemma scrape_loop_stable (fuel : nat) (st : run_state) :
  loop_guard max_pages max_products st = false ->
  scrape_loop urljoin w fuel max_pages max_products st = st.
Proof. destruct fuel; simpl; auto. now intros ->. Qed.

Lemma run_added (me : scraper) (s : sys) :
  added max_products me (run urljoin w max_pages max_products me s).
Proof.
  unfold run. apply scrape_loop_invariant.
  - intros st (new & E & F & C & B) _.
    destruct (scrape_page_cases st) as (_ & (new' & E' & F' & C' & B') & _).
    exists (new ++ new'). repeat split.
    + rewrite E', E, app_assoc. reflexivity.
    + apply Forall_app. auto.
    + rewrite C', C, List.length_app. lia.
    + lia.
  - exists []. simpl. rewrite app_nil_r. repeat split; auto; lia.
Qed.

Lemma trailing_failures_snoc (log : list (Z * page_result))
    (entry : Z * page_result) :
  trailing_failures (log ++ [entry]) =
  if failed entry then trailing_failures log + 1 else 0.
Proof. unfold trailing_failures. now rewrite fold_left_app. Qed.

Lemma trailing_failures_nonneg (log : list (Z * page_result)) :
  0 <= trailing_failures log.
Proof.
  induction log as [|entry log IH] using rev_ind.
  - reflexivity.
  - rewrite trailing_failures_snoc. destruct (failed entry); lia.
Qed.

Lemma three_failures_at_end (pre : list (Z * page_result))
    (a b c : Z * page_result) :
  failed a = true -> failed b = true -> failed c = true ->
  3 <= trailing_failures (pre ++ [a; b; c]).
Proof.
  intros A B C.
  change (pre ++ [a; b; c]) with (pre ++ [a] ++ [b] ++ [c]).
  rewrite !app_assoc, !trailing_failures_snoc, A, B, C.
  pose proof (trailing_failures_nonneg pre). lia.
Qed.

Lemma breaker_snoc (log : list (Z * page_result))
    (entry : Z * page_result) :
  breaker_holds log -> trailing_failures log < 3 ->
  breaker_holds (log ++ [entry]).
Proof.
  intros H T pre a b c post E A B C.
  destruct post as [|x post'] using rev_ind; auto. clear IHpost'.
  exfalso.
  change (pre ++ a :: b :: c :: post' ++ [x])
    with (pre ++ (a :: b :: c :: post') ++ [x]) in E.
  rewrite app_assoc in E. apply app_inj_tail in E. destruct E as [E _].
  pose proof (H _ _ _ _ _ E A B C) as N. subst post'.
  pose proof (three_failures_at_end pre a b c A B C) as T3.
  rewrite <- E in T3. lia.
Qed.

Lemma run_breaker (me : scraper) (s : sys) :
  breaker_state (run urljoin w max_pages max_products me s).
Proof.
  unfold run. apply scrape_loop_invariant.
  - intros st (C & _ & H) G. apply loop_guard_iff in G.
    destruct G as (_ & _ & G).
    destruct (scrape_page_cases st) as (_ & _ & [[Hp Z0]|[Hp Z1]]);
      unfold breaker_state; rewrite Hp, trailing_failures_snoc; simpl.
    + split; [auto|]. split; [lia|]. apply breaker_snoc; auto. lia.
    + split; [lia|]. split; [lia|]. apply breaker_snoc; auto. lia.
  - unfold breaker_state. simpl. split; [reflexivity|]. split; [lia|].
    intros pre a b c post E. destruct pre; discriminate E.
Qed.

(** Every request of a run is for a page of its log. *)
Lemma run_requests (me : scraper) (s : sys) (url : string) :
  In (Get url)
     (trace (system (run urljoin w max_pages max_products me s))) ->
  In (Get url) (trace s) \/
  exists p r,
    In (p, r) (pages (run urljoin w max_pages max_products me s)) /\
    url = page_url p.
Proof.
  unfold run. revert url.
  apply (scrape_loop_invariant
           (fun st => forall url,
              In (Get url) (trace (system st)) ->
              In (Get url) (trace s) \/
              exists p r, In (p, r) (pages st) /\ url = page_url p)).
  - intros st H _ url I.
    destruct (scrape_page_trace st) as (events & E & F).
    assert (Hp : exists r,
              pages (scrape_page urljoin w max_products st)
                = pages st ++ [(page_num st, r)]).
    { destruct (scrape_page_cases st) as (_ & _ & [[Hp _]|[Hp _]]); eauto. }
    destruct Hp as (r & Hp).
    rewrite E in I. apply in_app_or in I. destruct I as [I|I].
    + destruct (H url I) as [?|(p & r' & I' & U)]; auto.
      right. exists p, r'. rewrite Hp. split; auto.
      apply in_or_app. auto.
    + right. exists (page_num st), r. rewrite Hp. split.
      * apply in_or_app. right. left. reflexivity.
      * rewrite Forall_forall in F. exact (F _ I).
  - simpl. auto.
Qed.

(** A round of the retry loop asks for its address at least once. *)
Lemma retry_from_asks (url : string) (max_retries : nat)
    (remaining attempt : nat) (s : sys) :
  exists events,
    trace (snd (retry_from w url max_retries attempt (S remaining) s))
      = trace s ++ events /\
    Forall (of_page url) events /\
    In (Get url) events.
Proof.
  cbn [retry_from get_random_delay uniform sleep session_get
       gets draws trace].
  destruct (http_get w (gets s) url) as [r|e].
  - destruct (status_code r =? 200).
    + eexists. cbn [snd trace]. rewrite <- app_assoc.
      split; [reflexivity|]. split; [repeat constructor|].
      simpl. auto.
    + destruct (status_code r =? 503);
        match goal with
        | |- context [retry_from _ _ _ ?a _ ?s'] =>
            destruct (retry_from_trace url max_retries remaining a s')
              as (events & E & F)
        end;
        rewrite E; cbn [uniform sleep gets draws trace];
        rewrite <- !app_assoc;
        eexists; (split; [reflexivity|]);
        (split; [simpl; repeat constructor; exact F | simpl; auto]).
  - destruct e;
      try (eexists; cbn [snd trace]; rewrite <- app_assoc;
           split; [reflexivity|]; split; [repeat constructor|];
           simpl; auto).
    destruct (Z.of_nat attempt <? Z.of_nat max_retries - 1);
      match goal with
      | |- context [retry_from _ _ _ ?a _ ?s'] =>
          destruct (retry_from_trace url max_retries remaining a s')
            as (events & E & F)
      end;
      rewrite E; cbn [sleep gets draws trace];
      rewrite <- !app_assoc;
      eexists; (split; [reflexivity|]);
      (split; [simpl; repeat constructor; exact F | simpl; auto]).
Qed.

(** One round of the [while] asks for its page at least once, and for no
    other page. *)
Lemma scrape_page_asks (st : run_state) :
  exists events,
    trace (system (scrape_page urljoin w max_products st))
      = trace (system st) ++ events /\
    Forall (of_page (page_url (page_num st))) events /\
    In (Get (page_url (page_num st))) events.
Proof.
  unfold scrape_page, make_request_with_retry, default_max_retries.
  destruct (retry_from_asks (page_url (page_num st)) 3 2 0 (system st))
    as (events & E & F & I).
  destruct (retry_from w (page_url (page_num st)) 3 0 3 (system st))
    as [fetched s1].
  cbn [snd] in E.
  destruct fetched as [[resp|]|e]; try solve [exists events; auto].
  destruct (locate_containers (content resp) product_selectors [])
    as [|c cs].
  - destruct (writable w (debug_file (page_num st))).
    + exists (events ++ [WriteFile (debug_file (page_num st))]).
      cbn [page_failed system write_file trace].
      rewrite E, <- app_assoc. split; [reflexivity|]. split.
      * apply Forall_app. split; [exact F|]. repeat constructor.
      * apply in_or_app. auto.
    + exists events. auto.
  - destruct (process_containers urljoin max_products (c :: cs)
                (products_scraped st) (products_data (self st))).
    exists events. auto.
Qed.

(** The counter of failures after a round, by what the page gave. *)
Lemma scrape_page_counter (st : run_state) :
  consecutive_failures (scrape_page urljoin w max_products st) =
  if page_succeeds w st then 0 else consecutive_failures st + 1.
Proof.
  unfold scrape_page, page_succeeds.
  destruct (make_request_with_retry w (page_url (page_num st))
              default_max_retries (system st)) as [fetched s1].
  cbn [fst].
  destruct fetched as [[resp|]|e]; try reflexivity.
  destruct (locate_containers (content resp) product_selectors [])
    as [|c cs].
  - destruct (writable w (debug_file (page_num st))); reflexivity.
  - destruct (process_containers urljoin max_products (c :: cs)
                (products_scraped st) (products_data (self st))).
    reflexivity.
Qed.

(** The loop is its body iterated while the guard holds. *)
Lemma scrape_loop_rounds (fuel : nat) :
  forall st : run_state,
  exists k,
    scrape_loop urljoin w fuel max_pages max_products st
      = Nat.iter k (scrape_page urljoin w max_products) st /\
    forall j, (j < k)%nat ->
      loop_guard max_pages max_products
        (Nat.iter j (scrape_page urljoin w max_products) st) = true.
Proof.
  induction fuel as [|fuel IH]; intros st.
  - exists 0%nat. split; [reflexivity|]. intros j Hj. lia.
  - cbn [scrape_loop].
    destruct (loop_guard max_pages max_products st) eqn:G.
    + destruct (IH (scrape_page urljoin w max_products st))
        as (k & E & B).
      exists (S k). split.
      * rewrite E. symmetry. apply Nat.iter_succ_r.
      * intros [|j] Hj; [exact G|].
        rewrite Nat.iter_succ_r. apply B. lia.
    + exists 0%nat. split; [reflexivity|]. intros j Hj. lia.
Qed.

Section Rounds.

Variable me : scraper.
Variable s : sys.

Local Abbreviation state := (after_rounds urljoin w max_products me s).

Lemma state_succ (j : nat) :
  state (S j) = scrape_page urljoin w max_products (state j).
Proof. reflexivity. Qed.

Lemma state_page (j : nat) : page_num (state j) = Z.of_nat j + 1.
Proof.
  induction j as [|j IH]; [reflexivity|].
  rewrite state_succ, (proj1 (scrape_page_cases (state j))), IH. lia.
Qed.

Lemma state_counter_nonneg (j : nat) : 0 <= consecutive_failures (state j).
Proof.
  induction j as [|j IH]; [simpl; lia|].
  rewrite state_succ, scrape_page_counter.
  destruct (page_succeeds w (state j)); lia.
Qed.

(** The run is a number of rounds, the guard true before each of them and
    false after the last. *)
Lemma run_rounds :
  exists k,
    run urljoin w max_pages max_products me s = state k /\
    (forall j, (j < k)%nat ->
       loop_guard max_pages max_products (state j) = true) /\
    loop_guard max_pages max_products (state k) = false.
Proof.
  destruct (scrape_loop_rounds (Z.to_nat max_pages) (start me s))
    as (k & E & B).
  exists k. split; [exact E|]. split; [exact B|].
  unfold after_rounds. rewrite <- E.
  apply scrape_loop_exits. change (page_num (start me s)) with 1. lia.
Qed.

(** What the rounds before the [k]-th have added to the trace: requests
    for the pages 1 to [k] only. *)
Lemma state_requests (k : nat) (url : string) :
  In (Get url) (trace (system (state k))) ->
  In (Get url) (trace s) \/
  exists j, (j < k)%nat /\ url = page_url (Z.of_nat j + 1).
Proof.
  induction k as [|k IH]; [auto|].
  rewrite state_succ.
  destruct (scrape_page_trace (state k)) as (events & E & F).
  rewrite E. intros I. apply in_app_or in I. destruct I as [I|I].
  - destruct (IH I) as [?|(j & Hj & U)]; auto.
    right. exists j. split; [lia|exact U].
  - right. exists k. split; [lia|].
    rewrite Forall_forall in F. rewrite <- state_page. exact (F _ I).
Qed.

(** Three failed pages in a row end the run. *)
Lemma three_failures_stop (k j : nat) :
  (forall i, (i < k)%nat ->
     loop_guard max_pages max_products (state i) = true) ->
  (j + 2 < k)%nat ->
  page_succeeds w (state j) = false ->
  page_succeeds w (state (j + 1)) = false ->
  page_succeeds w (state (j + 2)) = false ->
  k = (j + 3)%nat.
Proof.
  intros B Hj F0 F1 F2.
  assert (C : consecutive_failures (state (j + 3))
              = consecutive_failures (state j) + 3).
  { replace (j + 3)%nat with (S (j + 2)) by lia.
    rewrite state_succ, scrape_page_counter, F2.
    replace (j + 2)%nat with (S (j + 1)) by lia.
    rewrite state_succ, scrape_page_counter, F1.
    replace (j + 1)%nat with (S j) by lia.
    rewrite state_succ, scrape_page_counter, F0. lia. }
  destruct (Nat.lt_ge_cases (j + 3) k) as [L|L]; [|lia].
  exfalso. specialize (B _ L). apply loop_guard_iff in B.
  pose proof (state_counter_nonneg j). lia.
Qed.

End Rounds.

End Loop.

Section Reach.

Context {P : Platform}.

Lemma dataset_keeps_instance (me : scraper) :
  snd (create_powerbi_dataset me) = me.
Proof.
  unfold create_powerbi_dataset. now destruct (products_data me).
Qed.

(** Every record of an instance the code reaches has a name. *)
Lemma reachable_named (urljoin : str -> str -> exc str)
    (me : scraper) :
  reachable urljoin me -> Forall named (products_data me).
Proof.
  induction 1 as [|w mp mx me s R IH|me R IH].
  - constructor.
  - destruct (run_added urljoin w mp mx me s) as (new & E & F & _).
    rewrite E. apply Forall_app. auto.
  - now rewrite dataset_keeps_instance.
Qed.

End Reach.

End LoopFacts.

(** ** Claims on the pagination loop *)

Section PaginationClaims.

Local Open Scope list_scope.

Context {P : Platform}.
Variable urljoin : str -> str -> exc str.

(** C1.  A record whose name is empty is never appended: what a run adds to
    [products_data] has a name, and on an instance the code reaches every
    record of the sequence returned has one. *)
Theorem only_named_records (me : scraper) :
  reachable urljoin me ->
  forall (w : world) (max_pages max_products : Z) (s : sys),
    Forall named
      (fst (fst (scrape_toys_category urljoin w max_pages max_products
                                      me s))) /\
    exists new,
      fst (fst (scrape_toys_category urljoin w max_pages max_products
                                     me s))
        = products_data me ++ new /\
      Forall named new.
Proof.
  intros R w mp mx s. unfold scrape_toys_category. cbn [fst snd].
  split.
  - exact (LoopFacts.reachable_named urljoin _
             (reach_scrape urljoin w mp mx me s R)).
  - destruct (LoopFacts.run_added urljoin w mp mx me s)
      as (new & E & F & _).
    exists new. auto.
Qed.

(** C3.  A run is a number of rounds of the loop body.  Before each round
    the page number is at most [max_pages], fewer than [max_products]
    products are collected and fewer than 3 pages have failed in a row,
    and after the last round that is no longer so.  Round [j] asks for
    page [j + 1], at least once, and for no other page.  A page succeeds
    when the request gets a response in which a selector finds
    containers: the counter of failures is then 0 after the round, and
    one more than before otherwise.  Three rounds in a row whose pages
    fail are the last three of the run, whatever [max_pages] is, and the
    run sends no request but those of its rounds. *)
Theorem pagination_circuit_breaker (w : world) (max_pages max_products : Z)
    (me : scraper) (s : sys) :
  exists rounds : nat,
    let state := after_rounds urljoin w max_products me s in
    run urljoin w max_pages max_products me s = state rounds /\
    (forall j, (j < rounds)%nat ->
       page_num (state j) <= max_pages /\
       products_scraped (state j) < max_products /\
       consecutive_failures (state j) < 3) /\
    ~ (page_num (state rounds) <= max_pages /\
       products_scraped (state rounds) < max_products /\
       consecutive_failures (state rounds) < 3) /\
    (forall j, (j < rounds)%nat ->
       page_num (state j) = Z.of_nat j + 1 /\
       exists events,
         trace (system (state (S j))) = trace (system (state j)) ++ events /\
         In (Get (page_url (Z.of_nat j + 1))) events /\
         Forall (of_page (page_url (Z.of_nat j + 1))) events) /\
    (forall j, (j < rounds)%nat ->
       consecutive_failures (state (S j)) =
       if page_succeeds w (state j) then 0
       else consecutive_failures (state j) + 1) /\
    (forall j, (j + 2 < rounds)%nat ->
       page_succeeds w (state j) = false ->
       page_succeeds w (state (j + 1)%nat) = false ->
       page_succeeds w (state (j + 2)%nat) = false ->
       rounds = (j + 3)%nat) /\
    (forall url,
       In (Get url) (trace (system (state rounds))) ->
       In (Get url) (trace s) \/
       exists j, (j < rounds)%nat /\ url = page_url (Z.of_nat j + 1)).
Proof.
  destruct (LoopFacts.run_rounds urljoin w max_pages max_products me s)
    as (k & E & B & G).
  exists k. cbv zeta.
  split; [exact E|].
  split.
  { intros j Hj. apply LoopFacts.loop_guard_iff. now apply B. }
  split.
  { intros H. apply LoopFacts.loop_guard_iff in H. congruence. }
  split.
  { intros j Hj.
    pose proof (LoopFacts.state_page urljoin w max_products me s j) as Hp.
    split; [exact Hp|].
    rewrite <- Hp.
    destruct (LoopFacts.scrape_page_asks urljoin w max_products
                (after_rounds urljoin w max_products me s j))
      as (events & T & F & I).
    exists events. auto. }
  split.
  { intros j _.
    exact (LoopFacts.scrape_page_counter urljoin w max_products
             (after_rounds urljoin w max_products me s j)). }
  split.
  { intros j. now apply (LoopFacts.three_failures_stop
                           urljoin w max_pages max_products me s k j). }
  intros url. apply LoopFacts.state_requests.
Qed.

(** C4, as the code has it.  A run appends at most [max_products] records
    (none when [max_products] is not positive) to [products_data] and
    returns the whole list; on a new instance that is at most
    [max_products] records. *)
Theorem at_most_max_products_added (w : world) (max_pages max_products : Z)
    (me : scraper) (s : sys) :
  Z.of_nat (List.length (fst (fst (scrape_toys_category
                                urljoin w max_pages max_products me s))))
    <= Z.of_nat (List.length (products_data me)) + Z.max 0 max_products /\
  Z.of_nat (List.length (fst (fst (scrape_toys_category
                                urljoin w max_pages max_products init s))))
    <= Z.max 0 max_products.
Proof.
  unfold scrape_toys_category. cbn [fst snd]. split.
  - destruct (LoopFacts.run_added urljoin w max_pages max_products me s)
      as (new & E & _ & C & B).
    rewrite E, List.length_app. lia.
  - destruct (LoopFacts.run_added urljoin w max_pages max_products init s)
      as (new & E & _ & C & B).
    rewrite E. simpl. lia.
Qed.

(** The accumulator across calls: a run keeps what was there, adds to it
    and returns the field itself. *)
Lemma run_extends (w : world) (max_pages max_products : Z) (me : scraper)
    (s : sys) :
  exists new,
    fst (fst (scrape_toys_category urljoin w max_pages max_products me s))
      = products_data me ++ new /\
    products_data
      (snd (fst (scrape_toys_category urljoin w max_pages max_products
                                      me s)))
      = fst (fst (scrape_toys_category urljoin w max_pages max_products
                                       me s)).
Proof.
  unfold scrape_toys_category. cbn [fst snd].
  destruct (LoopFacts.run_added urljoin w max_pages max_products me s)
    as (new & E & _).
  exists new. auto.
Qed.

(** The untitled second container of [Sample.results] is left out. *)
Example untitled_container_skipped :
  fst (fst (scrape_toys_category Sample.urljoin Sample.up 1 10 init sys0))
  = [SampleRecords.car_record; SampleRecords.toy_record].
Proof. vm_compute. reflexivity. Qed.

(** A site that answers 503 for ever is given up after three pages, each
    requested three times. *)
Example busy_site_given_up :
  page_num (run Sample.urljoin Sample.busy 25 500 init sys0) = 4 /\
  requests (trace (system (run Sample.urljoin Sample.busy 25 500
                               init sys0)))
    = page_requests [3; 3; 3]%nat 1.
Proof. vm_compute. split; reflexivity. Qed.

Lemma second_call_returns :
  fst (fst (scrape_toys_category Sample.urljoin Sample.up 1 1
                                 Sample.after_first_call sys0))
  = [SampleRecords.car_record; SampleRecords.toy_record;
     SampleRecords.car_record].
Proof. vm_compute. reflexivity. Qed.

End PaginationClaims.

Lemma only_named_records_witness :
  Forall named
    (fst (fst (scrape_toys_category (P := Sample.platform)
                 Sample.urljoin Sample.up 1 2 init sys0))) /\
  exists new,
    fst (fst (scrape_toys_category (P := Sample.platform)
                Sample.urljoin Sample.up 1 2 init sys0))
      = (products_data init ++ new)%list /\
    Forall named new.
Proof.
  exact (only_named_records (P := Sample.platform) Sample.urljoin init
           (reach_init Sample.urljoin) Sample.up 1 2 sys0).
Defined.

(** C4, as stated, fails on every platform: a second call on the same
    instance, asking for one product, returns three records. *)
Lemma second_call_exceeds_max_products :
  ~ (exists P : Platform,
       forall (urljoin : str -> str -> exc str) (me : scraper),
         reachable urljoin me ->
         forall (w : world) (max_pages max_products : Z) (s : sys),
           Z.of_nat (List.length (fst (fst (scrape_toys_category
                                         urljoin w max_pages max_products
                                         me s))))
             <= max_products).
Proof.
  intros (P & H).
  assert (R : reachable Sample.urljoin Sample.after_first_call)
    by (apply reach_scrape, reach_init).
  specialize (H Sample.urljoin _ R Sample.up 1 1 sys0).
  rewrite second_call_returns in H. simpl in H. lia.
Qed.

(** C10.  [scrape_toys_category] never clears [products_data]: a run
    returns what the instance held followed by what it adds, and leaves
    that in the field; so a second call on the same instance returns the
    records of the first call with the new ones, here three records for a
    [max_products] of one. *)
Theorem accumulator_never_cleared (P : Platform) :
  (forall (urljoin : str -> str -> exc str) (w : world)
          (max_pages max_products : Z) (me : scraper) (s : sys),
     exists new,
       fst (fst (scrape_toys_category urljoin w max_pages max_products
                                      me s))
         = (products_data me ++ new)%list /\
       products_data
         (snd (fst (scrape_toys_category urljoin w max_pages max_products
                                         me s)))
         = fst (fst (scrape_toys_category urljoin w max_pages max_products
                                          me s))) /\
  products_data Sample.after_first_call
    = [SampleRecords.car_record; SampleRecords.toy_record] /\
  fst (fst (scrape_toys_category Sample.urljoin Sample.up 1 1
                                 Sample.after_first_call sys0))
    = (products_data Sample.after_first_call
       ++ [SampleRecords.car_record])%list /\
  1 < Z.of_nat (List.length (fst (fst (scrape_toys_category
                                    Sample.urljoin Sample.up 1 1
                                    Sample.after_first_call sys0)))).
Proof.
  split; [intros; apply run_extends|].
  split; [vm_compute; reflexivity|].
  split; [vm_compute; reflexivity|].
  rewrite second_call_returns. simpl. lia.
Qed.

(** ** The request client *)

Module RetryFacts.

Local Open Scope list_scope.

(** Under persistent 503 every round of the retry loop sleeps, asks, and
    sleeps again, and the loop ends without a response. *)
Lemma retry_under_503 (w : world) (url : string) (max_retries : nat) :
  always_503 w ->
  forall (remaining attempt : nat) (s : sys),
    retry_from w url max_retries attempt remaining s =
    (Ok None,
     {| gets := gets s + remaining;
        draws := draws s + 2 * remaining;
        trace := trace s
                 ++ trace_under_503 w url attempt remaining (draws s) |}).
Proof.
  intros H. induction remaining as [|remaining IH]; intros attempt s.
  - cbn [retry_from trace_under_503]. destruct s as [g d t].
    cbn [gets draws trace].
    now rewrite !Nat.add_0_r, app_nil_r.
  - cbn [retry_from get_random_delay uniform sleep session_get
         gets draws trace].
    destruct (H (gets s) url) as (r & Hr & Hc).
    rewrite Hr, Hc.
    change (503 =? 200) with false. change (503 =? 503) with true.
    cbn [uniform sleep gets draws trace].
    rewrite IH. cbn [sleep gets draws trace trace_under_503].
    f_equal. f_equal.
    + lia.
    + lia.
    + rewrite <- !app_assoc. reflexivity.
Qed.

Lemma busy_always_503 : always_503 Sample.busy.
Proof. intros n url. exists Sample.busy_response. split; reflexivity. Qed.

End RetryFacts.

(** C5.  When every attempt is answered 503, [make_request_with_retry]
    sends exactly 3 requests, sleeps [2^attempt + uniform(1, 3)] seconds
    after each of them, and returns [None] without raising. *)
Theorem gives_up_after_three_503 (w : world) (url : string) (s : sys) :
  always_503 w ->
  make_request_with_retry w url default_max_retries s =
  (Ok None,
   {| gets := gets s + 3;
      draws := draws s + 6;
      trace :=
        (trace s ++
         [ Sleep (uniform_value w 2 5 (draws s));
           Get url;
           Sleep (pow2 0 + uniform_value w 1 3 (1 + draws s))%Q;
           Sleep (uniform_value w 2 5 (2 + draws s));
           Get url;
           Sleep (pow2 1 + uniform_value w 1 3 (3 + draws s))%Q;
           Sleep (uniform_value w 2 5 (4 + draws s));
           Get url;
           Sleep (pow2 2 + uniform_value w 1 3 (5 + draws s))%Q ])%list |})
  /\
  forall max_retries : nat,
    fst (make_request_with_retry w url max_retries s) = Ok None /\
    gets (snd (make_request_with_retry w url max_retries s))
      = (gets s + max_retries)%nat.
Proof.
  intros H. unfold make_request_with_retry. split.
  - rewrite (RetryFacts.retry_under_503 w url default_max_retries H).
    reflexivity.
  - intros max_retries.
    rewrite (RetryFacts.retry_under_503 w url max_retries H).
    split; reflexivity.
Qed.

Lemma gives_up_after_three_503_witness :
  fst (make_request_with_retry Sample.busy (page_url 1)
                               default_max_retries sys0) = Ok None /\
  List.length
    (requests (trace (snd (make_request_with_retry
                             Sample.busy (page_url 1)
                             default_max_retries sys0)))) = 3%nat.
Proof.
  rewrite (proj1 (gives_up_after_three_503
                    Sample.busy (page_url 1) sys0
                    RetryFacts.busy_always_503)).
  split; reflexivity.
Defined.

(** ** The extractors and the normaliser *)

Module PriceFacts.

Import Text TextFacts ExtractFacts.

Section Facts.

Context {P : Platform}.

Lemma leading_number_skip (c : char) (t : str) :
  isdecimal c = false ->
  Spec.leading_number (c :: t) = Spec.leading_number t.
Proof. intros H. cbn [Spec.leading_number]. now rewrite H. Qed.

Lemma to_float_exact (q : Q) :
  exact64 q = true -> to_float q = Finite q.
Proof. unfold to_float. now intros ->. Qed.

(** The price of a text that starts with the rupee sign is the price of
    what follows the sign. *)
Lemma price_after_rupee (t : str) :
  extract_price (rupee :: t) = Ok (Spec.price_of t).
Proof.
  rewrite extract_price_spec. unfold Spec.price_of.
  change (replace comma [] (rupee :: t))
    with (rupee :: replace comma [] t).
  now rewrite (leading_number_skip _ _ rupee_not_decimal).
Qed.

End Facts.

End PriceFacts.

Section ExtractionClaims.

Context {P : Platform}.

(** C6.  [extract_price] of "₹1,234.50" is 1234.50 and of the empty text
    is null; in general it never raises and gives the leading numeric
    pattern of the text, separators stripped: the first run of decimal
    digits, of any script, with the two decimals that may follow, as the
    float nearest to that number, which is the number itself when a float
    holds it exactly; it is null exactly when the text has no decimal
    digit. *)
Theorem extract_price_leading_number :
  extract_price (rupee :: lit "1,234.50") = Ok (Some (Finite (Qred 1234.50)))
  /\
  extract_price [] = Ok None /\
  (forall price_text,
     extract_price price_text = Ok (Spec.price_of price_text)) /\
  (forall price_text,
     Text.any Text.isdecimal price_text = false ->
     extract_price price_text = Ok None) /\
  (forall price_text,
     Text.any Text.isdecimal price_text = true ->
     exists q,
       Spec.leading_number (Text.replace comma [] price_text) = Some q /\
       (0 <= q)%Q /\
       extract_price price_text = Ok (Some (Text.to_float q)) /\
       float_nonneg (Text.to_float q) /\
       (Text.exact64 q = true -> Text.to_float q = Finite q)).
Proof.
  split; [rewrite PriceFacts.price_after_rupee; vm_compute; reflexivity|].
  split; [reflexivity|].
  split; [apply ExtractFacts.extract_price_spec|].
  split.
  - intros t H. rewrite ExtractFacts.extract_price_spec.
    unfold Spec.price_of.
    rewrite ExtractFacts.leading_number_none; auto.
    now rewrite TextFacts.any_digit_replace.
  - intros t H.
    destruct (ExtractFacts.leading_number_some
                (Text.replace comma [] t)) as (q & E).
    + now rewrite TextFacts.any_digit_replace.
    + pose proof (ExtractFacts.leading_number_nonneg _ _ E) as N.
      exists q. split; [exact E|]. split; [exact N|].
      split.
      * rewrite ExtractFacts.extract_price_spec.
        unfold Spec.price_of. now rewrite E.
      * split; [now apply TextFacts.to_float_nonneg|].
        apply PriceFacts.to_float_exact.
Qed.

End ExtractionClaims.

Module NormalFacts.

Local Open Scope list_scope.

Lemma Qltb_lt (x y : Q) : (x < y)%Q -> Qltb x y = true.
Proof.
  intros H. unfold Qltb. destruct (Qle_bool y x) eqn:E; auto.
  apply Qle_bool_iff in E. exfalso. exact (Qlt_not_le _ _ H E).
Qed.

Lemma Qltb_ge (x y : Q) : (y <= x)%Q -> Qltb x y = false.
Proof.
  intros H. unfold Qltb. apply Qle_bool_iff in H. now rewrite H.
Qed.

(** A float holds every integer up to [2 ^ 53] exactly. *)
Lemma float64_of_Z_exact (n : Z) :
  Z.abs n <= 2 ^ 53 -> float64_of_Z n = n.
Proof.
  intros H. unfold float64_of_Z.
  destruct (Z.abs n <? 2 ^ 53) eqn:E; [reflexivity|].
  apply Z.ltb_ge in E.
  assert (A : Z.abs n = 2 ^ 53) by lia.
  rewrite A.
  destruct (Z.abs_eq_or_opp n) as [Hn|Hn]; rewrite A in Hn.
  - subst n. vm_compute. reflexivity.
  - assert (n = - 2 ^ 53) by lia. subst n. vm_compute. reflexivity.
Qed.

Lemma exact_counts_small (l : list product_data) :
  Forall exact_count l ->
  forallb small_count (map Number_of_Reviews l) = true.
Proof.
  induction 1 as [|r l H F IH]; [reflexivity|].
  cbn [map forallb]. rewrite IH, andb_true_r.
  unfold exact_count in H. unfold small_count.
  destruct (Number_of_Reviews r) as [n|]; auto.
  apply Z.leb_le. 
  assert (2 ^ 53 <= 2 ^ 62) by (vm_compute; discriminate). lia.
Qed.

Lemma count_column_exact (l : list product_data) :
  Forall exact_count l ->
  fillna 0 (count_column (map Number_of_Reviews l))
    = fillna 0 (map Number_of_Reviews l).
Proof.
  intros F. unfold count_column.
  destruct (forallb is_some (map Number_of_Reviews l)); [reflexivity|].
  unfold fillna. rewrite !map_map. apply map_ext_in.
  intros r I. rewrite Forall_forall in F. specialize (F r I).
  unfold exact_count in F.
  destruct (Number_of_Reviews r) as [n|]; [|reflexivity].
  cbn [option_map]. now apply float64_of_Z_exact.
Qed.

Section Facts.

Context {P : Platform}.

Lemma row_of_empty_frame (i : nat) : row empty_frame i = None.
Proof. unfold row, empty_frame. simpl. now destruct i. Qed.

(** The column of the counts has one value for each record. *)
Lemma to_int_column_length (column : list (option Z)) :
  List.length (to_int_column column) = List.length column.
Proof.
  unfold to_int_column, count_column, fillna.
  destruct (forallb small_count column).
  - destruct (forallb is_some column); now rewrite ?length_map.
  - apply wide_int_column_length.
Qed.

(** A missing count becomes 0. *)
Lemma to_int_column_none (column : list (option Z)) (i : nat) :
  nth_error column i = Some None ->
  nth_error (to_int_column column) i = Some 0.
Proof.
  intros H. unfold to_int_column, count_column, fillna.
  destruct (forallb small_count column).
  - destruct (forallb is_some column); rewrite ?nth_error_map, H;
      reflexivity.
  - now apply wide_int_column_none.
Qed.

Lemma to_int_column_exact (l : list product_data) :
  Forall exact_count l ->
  to_int_column (map Number_of_Reviews l)
    = fillna 0 (map Number_of_Reviews l).
Proof.
  intros F. unfold to_int_column.
  rewrite (exact_counts_small _ F). now apply count_column_exact.
Qed.

(** Row [i] of the dataset: what record [i] alone gives, but for the
    count, which is the [i]-th of the column of the counts. *)
Lemma row_fields (me : scraper) (i : nat) (r : product_data) :
  nth_error (products_data me) i = Some r ->
  exists count,
    nth_error (to_int_column (map Number_of_Reviews (products_data me))) i
      = Some count /\
    row (fst (create_powerbi_dataset me)) i =
    Some {| ar_Product_Name := Product_Name r;
            ar_Price_INR := Price r;
            ar_Rating := Rating r;
            ar_Number_of_Reviews := count;
            ar_Product_URL := Product_URL r;
            ar_Price_Range := categorize_price (Price r);
            ar_Rating_Category := categorize_rating (Rating r);
            ar_Review_Category := categorize_reviews count;
            ar_Has_Price := is_some (Price r);
            ar_Has_Rating := is_some (Rating r);
            ar_Has_Reviews := 0 <? count |}.
Proof.
  intros H.
  assert (L : (i < List.length
                     (to_int_column
                        (map Number_of_Reviews (products_data me))))%nat).
  { rewrite to_int_column_length, length_map.
    apply nth_error_Some. congruence. }
  destruct (nth_error
              (to_int_column (map Number_of_Reviews (products_data me))) i)
    as [count|] eqn:C; [|apply nth_error_Some in L; congruence].
  exists count. split; [reflexivity|].
  unfold create_powerbi_dataset.
  destruct (products_data me) as [|p l] eqn:E;
    [destruct i; discriminate|].
  cbn [fst]. unfold row, fillna, notna, to_numeric, apply.
  cbn [col_Product_Name col_Price_INR col_Rating col_Number_of_Reviews
       col_Product_URL col_Price_Range col_Rating_Category
       col_Review_Category col_Has_Price col_Has_Rating col_Has_Reviews].
  rewrite !nth_error_map, C, H. reflexivity.
Qed.

(** No row beyond the records. *)
Lemma row_none (me : scraper) (i : nat) :
  nth_error (products_data me) i = None ->
  row (fst (create_powerbi_dataset me)) i = None.
Proof.
  intros H. unfold create_powerbi_dataset.
  destruct (products_data me) as [|p l] eqn:E.
  - cbn [fst]. apply row_of_empty_frame.
  - cbn [fst]. unfold row, fillna.
    cbn [col_Product_Name]. now rewrite !nth_error_map, H.
Qed.

(** When a float holds every count, row [i] of the dataset is made from
    record [i] alone. *)
Lemma row_normalize (me : scraper) (i : nat) :
  Forall exact_count (products_data me) ->
  row (fst (create_powerbi_dataset me)) i =
  option_map Spec.normalize (nth_error (products_data me) i).
Proof.
  intros F.
  destruct (nth_error (products_data me) i) as [r|] eqn:H;
    [|now apply row_none].
  destruct (row_fields me i r H) as (count & C & ->).
  rewrite (to_int_column_exact _ F) in C.
  unfold fillna in C. rewrite !nth_error_map, H in C.
  cbn [option_map] in C. injection C as <-.
  unfold Spec.normalize, is_some. reflexivity.
Qed.

End Facts.

End NormalFacts.

(** C7, as the code has it.  [categorize_price] gives "No Price Listed"
    for a missing price and otherwise the bucket of the price among 0 to
    500, 500 to 1000, 1000 to 2000, 2000 to 5000 and 5000 and more, the
    lower bound in and the upper bound out, each under the label of the
    code, which carries the rupee sign: 499 is "Under ₹500" and 500 is
    "₹500 - ₹1,000". *)
Theorem categorize_price_buckets :
  categorize_price None = "No Price Listed" /\
  categorize_price (Some (Finite 499)) = "Under ₹500" /\
  categorize_price (Some (Finite 500)) = "₹500 - ₹1,000" /\
  categorize_price (Some Infinity) = "Above ₹5,000" /\
  forall p : Q,
    ((0 <= p < 500)%Q ->
     categorize_price (Some (Finite p)) = "Under ₹500") /\
    ((500 <= p < 1000)%Q ->
     categorize_price (Some (Finite p)) = "₹500 - ₹1,000") /\
    ((1000 <= p < 2000)%Q ->
     categorize_price (Some (Finite p)) = "₹1,000 - ₹2,000") /\
    ((2000 <= p < 5000)%Q ->
     categorize_price (Some (Finite p)) = "₹2,000 - ₹5,000") /\
    ((5000 <= p)%Q ->
     categorize_price (Some (Finite p)) = "Above ₹5,000").
Proof.
  split; [reflexivity|]. split; [reflexivity|]. split; [reflexivity|].
  split; [reflexivity|].
  intros p. unfold categorize_price, float_ltb.
  assert (L1 : (500 <= 1000)%Q) by (unfold Qle; simpl; lia).
  assert (L2 : (1000 <= 2000)%Q) by (unfold Qle; simpl; lia).
  assert (L3 : (2000 <= 5000)%Q) by (unfold Qle; simpl; lia).
  repeat split.
  - intros [_ H]. now rewrite (NormalFacts.Qltb_lt _ _ H).
  - intros [H1 H2].
    now rewrite (NormalFacts.Qltb_ge _ _ H1), (NormalFacts.Qltb_lt _ _ H2).
  - intros [H1 H2].
    rewrite (NormalFacts.Qltb_ge p 500), (NormalFacts.Qltb_ge _ _ H1),
      (NormalFacts.Qltb_lt _ _ H2); auto.
    eapply Qle_trans; eauto.
  - intros [H1 H2].
    rewrite (NormalFacts.Qltb_ge p 500), (NormalFacts.Qltb_ge p 1000),
      (NormalFacts.Qltb_ge _ _ H1), (NormalFacts.Qltb_lt _ _ H2); auto.
    + eapply Qle_trans; eauto.
    + eapply Qle_trans; [|exact H1]. eapply Qle_trans; eauto.
  - intros H.
    rewrite (NormalFacts.Qltb_ge p 500), (NormalFacts.Qltb_ge p 1000),
      (NormalFacts.Qltb_ge p 2000), (NormalFacts.Qltb_ge _ _ H); auto.
    + eapply Qle_trans; eauto.
    + eapply Qle_trans; [|exact H]. eapply Qle_trans; eauto.
    + eapply Qle_trans; [|exact H].
      eapply Qle_trans; [|exact L3]. eapply Qle_trans; eauto.
Qed.

(** C7, as stated, fails: the labels the claim quotes are not those of the
    code. *)
Lemma price_labels_carry_rupee_sign :
  ~ (categorize_price (Some (Finite 499)) = "Under 500" /\
     categorize_price (Some (Finite 500)) = "500-1000").
Proof. intros [H _]. vm_compute in H. discriminate H. Qed.

Section NormalisationClaims.

Context {P : Platform}.

(** C8, as the code has it.  The normalisation has no effect on the
    instance, and a second call gives the same dataset.  In the analytics
    record of a product record the name, the address, the price, the
    rating, their categories and their flags depend on that record alone;
    the count is that of the column pandas makes of all the counts, of
    which the review category and flag are taken.  When a float holds
    every count of the instance exactly (none is above [2 ^ 53]), the
    whole analytics record is [normalize] of the product record, so equal
    records then give equal rows wherever they stand. *)
Theorem normalisation_record_by_record (me : scraper) :
  snd (create_powerbi_dataset me) = me /\
  fst (create_powerbi_dataset (snd (create_powerbi_dataset me))) =
  fst (create_powerbi_dataset me) /\
  (forall (i : nat) (r : product_data),
     nth_error (products_data me) i = Some r ->
     exists a,
       row (fst (create_powerbi_dataset me)) i = Some a /\
       ar_Product_Name a = Product_Name r /\
       ar_Product_URL a = Product_URL r /\
       ar_Price_INR a = Price r /\
       ar_Rating a = Rating r /\
       ar_Price_Range a = categorize_price (Price r) /\
       ar_Rating_Category a = categorize_rating (Rating r) /\
       ar_Has_Price a = is_some (Price r) /\
       ar_Has_Rating a = is_some (Rating r) /\
       ar_Review_Category a = categorize_reviews (ar_Number_of_Reviews a) /\
       ar_Has_Reviews a = (0 <? ar_Number_of_Reviews a) /\
       (Number_of_Reviews r = None -> ar_Number_of_Reviews a = 0)) /\
  (Forall exact_count (products_data me) ->
   forall i,
     row (fst (create_powerbi_dataset me)) i =
     option_map Spec.normalize (nth_error (products_data me) i)) /\
  (forall (other : scraper) (i j : nat) (r : product_data),
     Forall exact_count (products_data me) ->
     Forall exact_count (products_data other) ->
     nth_error (products_data me) i = Some r ->
     nth_error (products_data other) j = Some r ->
     row (fst (create_powerbi_dataset me)) i =
     row (fst (create_powerbi_dataset other)) j).
Proof.
  split; [apply LoopFacts.dataset_keeps_instance|].
  split; [now rewrite LoopFacts.dataset_keeps_instance|].
  split.
  { intros i r H.
    destruct (NormalFacts.row_fields me i r H) as (count & C & R).
    eexists. split; [exact R|]. cbn.
    repeat (split; [reflexivity|]).
    intros N.
    rewrite (NormalFacts.to_int_column_none _ i) in C; [congruence|].
    rewrite nth_error_map, H. cbn [option_map]. now rewrite N. }
  split; [intros F i; now apply NormalFacts.row_normalize|].
  intros other i j r F G Hi Hj.
  now rewrite !NormalFacts.row_normalize, Hi, Hj.
Qed.

(** The first row of the dataset of [Sample.after_first_call]. *)
Example first_row_of_sample :
  row (fst (create_powerbi_dataset Sample.after_first_call)) 0 =
  Some (Spec.normalize SampleRecords.car_record).
Proof. vm_compute. reflexivity. Qed.

End NormalisationClaims.

(** C8, as stated, fails on every platform: a count above [2 ^ 53] is
    rounded to a float when the count of another record is missing, and
    kept when it stands alone, so that equal product records give
    different analytics records. *)
Lemma count_depends_on_other_records :
  ~ (exists P : Platform,
       forall (me other : scraper) (i j : nat) (r : product_data),
         nth_error (products_data me) i = Some r ->
         nth_error (products_data other) j = Some r ->
         row (fst (create_powerbi_dataset me)) i =
         row (fst (create_powerbi_dataset other)) j).
Proof.
  intros (P & H).
  specialize (H {| products_data := [SampleRecords.popular_record;
                                     SampleRecords.car_record] |}
                {| products_data := [SampleRecords.popular_record] |}
                0%nat 0%nat SampleRecords.popular_record
                eq_refl eq_refl).
  vm_compute in H. discriminate H.
Qed.

(** The two rows of that example: the count [2 ^ 53 + 1] next to a
    missing count, and alone. *)
Example rounded_count (P : Platform) :
  option_map ar_Number_of_Reviews
    (row (fst (create_powerbi_dataset
                 {| products_data := [SampleRecords.popular_record;
                                      SampleRecords.car_record] |})) 0)
    = Some (2 ^ 53) /\
  option_map ar_Number_of_Reviews
    (row (fst (create_powerbi_dataset
                 {| products_data := [SampleRecords.popular_record] |})) 0)
    = Some (2 ^ 53 + 1).
Proof. vm_compute. split; reflexivity. Qed.

(** * Further properties *)

(** ** The request client in any world *)

Module ClientFacts.

Local Open Scope list_scope.

Lemma requests_app (a b : list event) :
  requests (a ++ b) = requests a ++ requests b.
Proof. apply filter_app. Qed.

(** One round of the retry loop, by the answer to its request. *)
Lemma retry_from_round (w : world) (url : string) (max_retries : nat)
    (attempt remaining : nat) (s : sys) :
  retry_from w url max_retries attempt (S remaining) s =
  let asked :=
    {| gets := S (gets s);
       draws := S (draws s);
       trace := trace s ++ [Sleep (uniform_value w 2 5 (draws s)); Get url]
    |} in
  match http_get w (gets s) url with
  | Responded response =>
      if status_code response =? 200 then (Ok (Some response), asked)
      else if status_code response =? 503 then
        retry_from w url max_retries (S attempt) remaining
          {| gets := S (gets s);
             draws := S (S (draws s));
             trace := trace s
                      ++ [Sleep (uniform_value w 2 5 (draws s)); Get url;
                          Sleep (pow2 attempt
                                 + uniform_value w 1 3 (S (draws s)))%Q] |}
      else
        retry_from w url max_retries (S attempt) remaining
          {| gets := S (gets s);
             draws := S (draws s);
             trace := trace s
                      ++ [Sleep (uniform_value w 2 5 (draws s)); Get url;
                          Sleep (pow2 attempt)] |}
  | Failed RequestException =>
      if Z.of_nat attempt <? Z.of_nat max_retries - 1
      then retry_from w url max_retries (S attempt) remaining
             {| gets := S (gets s);
                draws := S (draws s);
                trace := trace s
                         ++ [Sleep (uniform_value w 2 5 (draws s)); Get url;
                             Sleep (pow2 attempt)] |}
      else retry_from w url max_retries (S attempt) remaining asked
  | Failed e => (Raise e, asked)
  end.
Proof.
  cbn [retry_from get_random_delay uniform sleep session_get
       gets draws trace].
  rewrite <- !app_assoc. cbn [app].
  destruct (http_get w (gets s) url) as [r|e].
  - destruct (status_code r =? 200); [reflexivity|].
    destruct (status_code r =? 503); unfold uniform, sleep;
      cbn [gets draws trace fst snd]; rewrite <- ?app_assoc; reflexivity.
  - destruct e; try reflexivity.
    destruct (Z.of_nat attempt <? Z.of_nat max_retries - 1);
      unfold sleep; cbn [gets draws trace]; rewrite <- ?app_assoc;
      reflexivity.
Qed.

(** The loop sends at most [remaining] requests, and all of them when it
    ends without a response. *)
Lemma retry_from_requests (w : world) (url : string) (max_retries : nat) :
  forall (remaining attempt : nat) (s : sys),
  exists events,
    trace (snd (retry_from w url max_retries attempt remaining s))
      = trace s ++ events /\
    gets (snd (retry_from w url max_retries attempt remaining s))
      = (gets s + List.length (requests events))%nat /\
    (List.length (requests events) <= remaining)%nat /\
    (fst (retry_from w url max_retries attempt remaining s) = Ok None ->
     List.length (requests events) = remaining).
Proof.
  induction remaining as [|remaining IH]; intros attempt s.
  - exists []. simpl. rewrite app_nil_r. repeat split; auto.
  - rewrite retry_from_round. cbv zeta.
    destruct (http_get w (gets s) url) as [r|e].
    + destruct (status_code r =? 200).
      * eexists. cbn [fst snd gets trace]. split; [reflexivity|].
        simpl. repeat split; try lia. discriminate.
      * destruct (status_code r =? 503);
          match goal with
          | |- context [retry_from _ _ _ ?a _ ?s'] =>
              destruct (IH a s') as (events & E & G & B & N)
          end;
          rewrite E, G; cbn [gets trace];
          rewrite <- app_assoc;
          eexists; (split; [reflexivity|]);
          rewrite requests_app; simpl;
          (split; [lia|]); (split; [lia|]);
          intros H; rewrite (N H); reflexivity.
    + destruct e;
        try (eexists; cbn [fst snd gets trace]; split; [reflexivity|];
             simpl; repeat split; try lia; discriminate).
      destruct (Z.of_nat attempt <? Z.of_nat max_retries - 1);
        match goal with
        | |- context [retry_from _ _ _ ?a _ ?s'] =>
            destruct (IH a s') as (events & E & G & B & N)
        end;
        rewrite E, G; cbn [gets trace];
        rewrite <- app_assoc;
        eexists; (split; [reflexivity|]);
        rewrite requests_app; simpl;
        (split; [lia|]); (split; [lia|]);
        intros H; rewrite (N H); reflexivity.
Qed.

(** A response returned has status 200 and answers the last request. *)
Lemma retry_from_response (w : world) (url : string) (max_retries : nat) :
  forall (remaining attempt : nat) (s : sys) (r : response),
    fst (retry_from w url max_retries attempt remaining s) = Ok (Some r) ->
    status_code r = 200 /\
    exists n,
      gets (snd (retry_from w url max_retries attempt remaining s)) = S n /\
      http_get w n url = Responded r.
Proof.
  induction remaining as [|remaining IH]; intros attempt s r.
  - simpl. discriminate.
  - rewrite retry_from_round. cbv zeta.
    destruct (http_get w (gets s) url) as [r'|e] eqn:A.
    + destruct (status_code r' =? 200) eqn:C.
      * cbn [fst snd gets]. intros [= <-]. split.
        -- now apply Z.eqb_eq.
        -- exists (gets s). auto.
      * destruct (status_code r' =? 503); apply IH.
    + destruct e; try (cbn [fst]; discriminate).
      destruct (Z.of_nat attempt <? Z.of_nat max_retries - 1); apply IH.
Qed.

(** The loop raises only what the session raises that is no
    [RequestException]. *)
Lemma retry_from_absorbs (w : world) (url : string) (max_retries : nat) :
  transient_failures w ->
  forall (remaining attempt : nat) (s : sys),
  exists r, fst (retry_from w url max_retries attempt remaining s) = Ok r.
Proof.
  intros T. induction remaining as [|remaining IH]; intros attempt s.
  - simpl. eauto.
  - rewrite retry_from_round. cbv zeta.
    destruct (http_get w (gets s) url) as [r'|e] eqn:A.
    + destruct (status_code r' =? 200); [cbn [fst]; eauto|].
      destruct (status_code r' =? 503); apply IH.
    + rewrite (T _ _ _ A).
      destruct (Z.of_nat attempt <? Z.of_nat max_retries - 1); apply IH.
Qed.

Lemma uniform_between (w : world) (a b : Q) (n : nat) :
  unit_random w -> (a <= b)%Q ->
  (a <= uniform_value w a b n <= b)%Q.
Proof.
  intros U L. unfold uniform_value. destruct (U n) as [U0 U1].
  assert (P : (0 <= (b - a) * random w n)%Q).
  { apply Qmult_le_0_compat; [lra|exact U0]. }
  assert (Q1 : (0 <= (b - a) * (1 - random w n))%Q).
  { apply Qmult_le_0_compat; lra. }
  split; lra.
Qed.

(** In a world whose random numbers lie between 0 and 1 the loop works
    in rounds. *)
Lemma retry_from_rounds (w : world) (url : string) (max_retries : nat) :
  unit_random w ->
  forall (remaining attempt : nat) (s : sys),
  exists events,
    trace (snd (retry_from w url max_retries attempt remaining s))
      = trace s ++ events /\
    rounds url events.
Proof.
  intros U.
  assert (D : forall n, (2 <= uniform_value w 2 5 n <= 5)%Q).
  { intros n. apply uniform_between; [exact U|lra]. }
  induction remaining as [|remaining IH]; intros attempt s.
  - exists []. simpl. rewrite app_nil_r. split; [reflexivity|constructor].
  - rewrite retry_from_round. cbv zeta.
    destruct (http_get w (gets s) url) as [r|e].
    + destruct (status_code r =? 200).
      * eexists. cbn [snd trace]. split; [reflexivity|].
        apply (rounds_more url _ [] []); [apply D|auto|constructor].
      * destruct (status_code r =? 503);
          match goal with
          | |- context [retry_from _ _ _ ?a _ ?s'] =>
              destruct (IH a s') as (events & E & R)
          end;
          rewrite E; cbn [trace]; rewrite <- app_assoc;
          eexists; (split; [reflexivity|]);
          apply (rounds_more url _ [Sleep _] events);
          [apply D|eauto|exact R|apply D|eauto|exact R].
    + destruct e;
        try (eexists; cbn [snd trace]; split; [reflexivity|];
             apply (rounds_more url _ [] []); [apply D|auto|constructor]).
      destruct (Z.of_nat attempt <? Z.of_nat max_retries - 1);
        match goal with
        | |- context [retry_from _ _ _ ?a _ ?s'] =>
            destruct (IH a s') as (events & E & R)
        end;
        rewrite E; cbn [trace]; rewrite <- ?app_assoc;
        eexists; (split; [reflexivity|]).
      * apply (rounds_more url _ [Sleep _] events); [apply D|eauto|exact R].
      * apply (rounds_more url _ [] events); [apply D|auto|exact R].
Qed.

(** When no request gets through, every round sleeps, asks, and backs
    off unless it is the last. *)
Lemma retry_when_down (w : world) (url : string) (max_retries : nat) :
  always_down w ->
  forall (remaining attempt : nat) (s : sys),
    retry_from w url max_retries attempt remaining s =
    (Ok None,
     {| gets := gets s + remaining;
        draws := draws s + remaining;
        trace := trace s
                 ++ trace_when_down w url max_retries attempt remaining
                                    (draws s) |}).
Proof.
  intros H. induction remaining as [|remaining IH]; intros attempt s.
  - cbn [retry_from trace_when_down]. destruct s as [g d t].
    cbn [gets draws trace].
    now rewrite !Nat.add_0_r, app_nil_r.
  - rewrite retry_from_round. cbv zeta. rewrite (H (gets s) url).
    cbn [trace_when_down].
    destruct (Z.of_nat attempt <? Z.of_nat max_retries - 1);
      rewrite IH; cbn [gets draws trace];
      rewrite <- ?app_assoc; cbn [app];
      f_equal; f_equal; lia.
Qed.

Lemma down_always_down : always_down Worlds.down.
Proof. intros n url. reflexivity. Qed.

Lemma down_transient : transient_failures Worlds.down.
Proof. intros n url e [= <-]. reflexivity. Qed.

Lemma busy_unit_random : unit_random Sample.busy.
Proof. intros n. simpl. lra. Qed.

End ClientFacts.

(** X1.  Whatever the site answers, [make_request_with_retry] sends at
    most [max_retries] requests, all of them for [url], and it has sent
    all [max_retries] when it returns [None]. *)
Theorem at_most_max_retries_requests (w : world) (url : string)
    (max_retries : nat) (s : sys) :
  exists events,
    trace (snd (make_request_with_retry w url max_retries s))
      = (trace s ++ events)%list /\
    Forall (of_page url) events /\
    gets (snd (make_request_with_retry w url max_retries s))
      = (gets s + List.length (requests events))%nat /\
    (List.length (requests events) <= max_retries)%nat /\
    (fst (make_request_with_retry w url max_retries s) = Ok None ->
     List.length (requests events) = max_retries).
Proof.
  unfold make_request_with_retry.
  destruct (ClientFacts.retry_from_requests w url max_retries
              max_retries 0 s) as (events & E & G & B & N).
  destruct (LoopFacts.retry_from_trace w url max_retries
              max_retries 0 s) as (events' & E' & F).
  exists events. rewrite E in E'. apply app_inv_head in E'. subst events'.
  auto.
Qed.

(** X2.  A response that [make_request_with_retry] returns has status 200
    and is the answer to the last request sent. *)
Theorem response_returned_is_200 (w : world) (url : string)
    (max_retries : nat) (s : sys) (r : response) :
  fst (make_request_with_retry w url max_retries s) = Ok (Some r) ->
  status_code r = 200 /\
  exists n,
    gets (snd (make_request_with_retry w url max_retries s)) = S n /\
    http_get w n url = Responded r.
Proof. apply ClientFacts.retry_from_response. Qed.

Lemma response_returned_is_200_witness :
  fst (make_request_with_retry Worlds.slow (page_url 1)
                               default_max_retries sys0)
    = Ok (Some Sample.ok_response) /\
  gets (snd (make_request_with_retry Worlds.slow (page_url 1)
                                     default_max_retries sys0)) = 3%nat /\
  status_code Sample.ok_response = 200.
Proof.
  split; [reflexivity|]. split; [reflexivity|].
  exact (proj1 (response_returned_is_200
                  Worlds.slow (page_url 1) default_max_retries sys0
                  Sample.ok_response eq_refl)).
Defined.

(** X3.  When the session only fails with [RequestException],
    [make_request_with_retry] never raises. *)
Theorem transient_failures_absorbed (w : world) (url : string)
    (max_retries : nat) (s : sys) :
  transient_failures w ->
  exists r, fst (make_request_with_retry w url max_retries s) = Ok r.
Proof.
  intros T. apply ClientFacts.retry_from_absorbs. exact T.
Qed.

Lemma transient_failures_absorbed_witness :
  exists r,
    fst (make_request_with_retry Worlds.down (page_url 1)
                                 default_max_retries sys0) = Ok r.
Proof.
  exact (transient_failures_absorbed
           Worlds.down (page_url 1) default_max_retries sys0
           ClientFacts.down_transient).
Defined.

(** X4.  With random numbers between 0 and 1, what
    [make_request_with_retry] does is a sequence of rounds: a sleep of 2
    to 5 seconds, one request, and at most one more sleep.  No request
    goes out without the sleep before it. *)
Theorem requests_come_in_polite_rounds (w : world) (url : string)
    (max_retries : nat) (s : sys) :
  unit_random w ->
  exists events,
    trace (snd (make_request_with_retry w url max_retries s))
      = (trace s ++ events)%list /\
    rounds url events.
Proof.
  intros U. apply ClientFacts.retry_from_rounds. exact U.
Qed.

Lemma requests_come_in_polite_rounds_witness :
  exists events,
    trace (snd (make_request_with_retry Sample.busy (page_url 1)
                                        default_max_retries sys0))
      = (trace sys0 ++ events)%list /\
    rounds (page_url 1) events.
Proof.
  exact (requests_come_in_polite_rounds
           Sample.busy (page_url 1) default_max_retries sys0
           ClientFacts.busy_unit_random).
Defined.

(** X5.  When every request fails with a [RequestException],
    [make_request_with_retry] makes all its attempts, sleeps
    [2 ** attempt] seconds after each of them but the last, and returns
    [None]; with the default of 3 attempts the back-off sleeps are of 1
    and 2 seconds. *)
Theorem gives_up_when_down (w : world) (url : string) (max_retries : nat)
    (s : sys) :
  always_down w ->
  make_request_with_retry w url max_retries s =
  (Ok None,
   {| gets := gets s + max_retries;
      draws := draws s + max_retries;
      trace := (trace s
                ++ trace_when_down w url max_retries 0 max_retries
                                   (draws s))%list |}) /\
  trace_when_down w url default_max_retries 0 default_max_retries (draws s)
  = [ Sleep (uniform_value w 2 5 (draws s));
      Get url;
      Sleep (pow2 0);
      Sleep (uniform_value w 2 5 (1 + draws s));
      Get url;
      Sleep (pow2 1);
      Sleep (uniform_value w 2 5 (2 + draws s));
      Get url ].
Proof.
  intros H. split; [|reflexivity].
  apply ClientFacts.retry_when_down. exact H.
Qed.

Lemma gives_up_when_down_witness :
  fst (make_request_with_retry Worlds.down (page_url 1)
                               default_max_retries sys0) = Ok None /\
  List.length
    (trace (snd (make_request_with_retry Worlds.down (page_url 1)
                                         default_max_retries sys0)))
    = 8%nat.
Proof.
  rewrite (proj1 (gives_up_when_down
                    Worlds.down (page_url 1) default_max_retries sys0
                    ClientFacts.down_always_down)).
  split; reflexivity.
Defined.

(** ** [clean_text] *)

Module CleanFacts.

Import Text TextFacts Re ReFacts.

Local Open Scope list_scope.

Section Facts.

Context {P : Platform}.

Lemma isspace_space : isspace space = true.
Proof. reflexivity. Qed.

Lemma drop_while_all (p : char -> bool) (s : str) :
  drop_while p s = [] <-> all p s = true.
Proof.
  induction s as [|c s IH]; simpl; [tauto|].
  destruct (p c); simpl; [exact IH|].
  split; discriminate.
Qed.

Lemma all_rev (p : char -> bool) (s : str) :
  all p (rev s) = all p s.
Proof.
  induction s as [|c s IH]; simpl; auto.
  rewrite all_app, IH. simpl. rewrite andb_true_r. apply andb_comm.
Qed.

Lemma drop_while_starts (s : str) :
  drop_while isspace s = [] \/
  starts_nonspace (drop_while isspace s) = true.
Proof.
  induction s as [|c s IH]; simpl; auto.
  destruct (isspace c) eqn:E; auto.
  right. simpl. now rewrite E.
Qed.

Lemma drop_while_fixed (s : str) :
  starts_nonspace s = true -> drop_while isspace s = s.
Proof.
  destruct s as [|c s]; simpl; auto.
  now destruct (isspace c).
Qed.

Lemma ends_nonspace_snoc (a : str) (c : char) :
  ends_nonspace (a ++ [c]) = negb (isspace c).
Proof.
  induction a as [|x a IH]; simpl; auto.
  rewrite IH. destruct (a ++ [c]) eqn:E; auto.
  destruct a; discriminate.
Qed.

Lemma last_char (s : str) :
  s = [] \/ exists a c, s = a ++ [c].
Proof.
  induction s as [|x s IH]; auto.
  right. destruct IH as [->|(a & c & ->)].
  - exists [], x. reflexivity.
  - exists (x :: a), c. reflexivity.
Qed.

(** A text ends with no white space when its mirror starts with none. *)
Lemma ends_rev (s : str) :
  ends_nonspace s = starts_nonspace (rev s).
Proof.
  destruct (last_char s) as [->|(a & c & ->)]; auto.
  rewrite ends_nonspace_snoc, rev_app. reflexivity.
Qed.

Lemma starts_app (a b : str) :
  starts_nonspace a = true -> starts_nonspace (a ++ b) = true.
Proof. destruct a; simpl; auto. discriminate. Qed.

Lemma drop_while_snoc (a : str) (c : char) :
  isspace c = false ->
  drop_while isspace (a ++ [c])
  = drop_while isspace a ++ [c].
Proof.
  intros N. induction a as [|x a IH]; simpl.
  - now rewrite N.
  - destruct (isspace x); auto.
Qed.

(** [strip] leaves the empty text, or a text with no white space at
    either end. *)
Lemma strip_ends (s : str) :
  strip s = [] \/
  (starts_nonspace (strip s) = true /\ ends_nonspace (strip s) = true).
Proof.
  unfold strip.
  destruct (drop_while_starts s) as [E|S].
  - left. rewrite E. reflexivity.
  - right. set (u := drop_while isspace s) in *.
    assert (En : ends_nonspace (rev (drop_while isspace (rev u))) = true).
    { rewrite ends_rev, rev_rev.
      destruct (drop_while_starts (rev u)) as [E|E]; auto.
      exfalso. apply drop_while_all in E. rewrite all_rev in E.
      destruct u as [|c u]; [discriminate|].
      simpl in S, E. destruct (isspace c); discriminate. }
    split; auto.
    destruct u as [|c u]; [discriminate|].
    simpl in S. apply negb_true_iff in S.
    simpl rev. rewrite (drop_while_snoc _ _ S), rev_app. simpl.
    now rewrite S.
Qed.

Lemma strip_empty (s : str) :
  strip s = [] <-> all isspace s = true.
Proof.
  unfold strip. split.
  - intros H.
    destruct (drop_while_starts s) as [E|S].
    + now apply drop_while_all.
    + exfalso.
      destruct (drop_while isspace s) as [|c u]; [discriminate|].
      simpl in S. apply negb_true_iff in S.
      simpl rev in H. rewrite (drop_while_snoc _ _ S), rev_app in H.
      discriminate.
  - intros H. apply drop_while_all in H. now rewrite H.
Qed.

Lemma strip_fixed (s : str) :
  starts_nonspace s = true -> ends_nonspace s = true -> strip s = s.
Proof.
  intros S E. unfold strip. rewrite (drop_while_fixed _ S).
  rewrite ends_rev in E. rewrite (drop_while_fixed _ E). apply rev_rev.
Qed.

Lemma length_drop_while (p : char -> bool) (s : str) :
  (List.length (drop_while p s) <= List.length s)%nat.
Proof.
  induction s as [|c s IH]; simpl; auto.
  destruct (p c); simpl; lia.
Qed.

(** One step of the substitution of line 78. *)
Lemma sub_from_step (fuel : nat) (c : char) (s : str) :
  sub_from (S fuel) space_re [space] (c :: s) =
  if isspace c
  then space :: sub_from fuel space_re [space] (drop_while isspace s)
  else c :: sub_from fuel space_re [space] s.
Proof.
  cbn [sub_from]. unfold space_re. rewrite match_at_plus.
  destruct (isspace c); auto.
  pose proof (length_drop_while isspace s) as L.
  replace (List.length (drop_while isspace s) <? List.length (c :: s))%nat
    with true; auto.
  symmetry. apply Nat.ltb_lt. simpl. lia.
Qed.

Lemma sub_from_empty (fuel : nat) : sub_from fuel space_re [space] [] = [].
Proof. destruct fuel; reflexivity. Qed.

Lemma ends_drop_while (s : str) :
  ends_nonspace s = true -> ends_nonspace (drop_while isspace s) = true.
Proof.
  induction s as [|c s IH]; simpl; auto.
  destruct (isspace c) eqn:E.
  - destruct s as [|x s]; [discriminate|]. exact IH.
  - intros H. simpl. now rewrite E.
Qed.

Lemma ends_tail (c : char) (s : str) :
  ends_nonspace (c :: s) = true -> s = [] \/ ends_nonspace s = true.
Proof. destruct s; auto. Qed.

(** The substitution turns a text that ends with no white space into a
    tidy one. *)
Lemma sub_from_tidy (fuel : nat) :
  forall (s : str) (after_space : bool),
    (List.length s < fuel)%nat ->
    ends_nonspace s = true ->
    (after_space = true -> starts_nonspace s = true) ->
    tidy_from after_space (sub_from fuel space_re [space] s) = true.
Proof.
  induction fuel as [|fuel IH]; intros s b L E S; [lia|].
  destruct s as [|c s]; [discriminate|].
  rewrite sub_from_step. simpl in L.
  destruct (isspace c) eqn:C.
  - assert (b = false).
    { destruct b; auto. specialize (S eq_refl). simpl in S.
      rewrite C in S. discriminate. }
    subst b. cbn [tidy_from]. rewrite isspace_space, N.eqb_refl.
    cbn [negb andb].
    assert (Es : ends_nonspace s = true).
    { destruct s; [simpl in E; rewrite C in E; discriminate|exact E]. }
    apply IH.
    + pose proof (length_drop_while isspace s). lia.
    + now apply ends_drop_while.
    + intros _. destruct (drop_while_starts s) as [D|D]; auto.
      apply ends_drop_while in Es. rewrite D in Es. discriminate.
  - cbn [tidy_from]. rewrite C.
    destruct (ends_tail _ _ E) as [->|Es].
    + now rewrite sub_from_empty.
    + apply IH; auto; [lia|discriminate].
Qed.

Lemma tidy_from_starts (s : str) :
  tidy_from true s = true -> starts_nonspace s = true.
Proof.
  destruct s as [|c s]; simpl; [discriminate|].
  destruct (isspace c); auto.
  rewrite andb_false_r. discriminate.
Qed.

Lemma tidy_from_ends (s : str) (after_space : bool) :
  s <> [] -> tidy_from after_space s = true -> ends_nonspace s = true.
Proof.
  revert after_space. induction s as [|c s IH]; intros b N H; [easy|].
  cbn [tidy_from] in H. destruct (isspace c) eqn:C.
  - apply andb_true_iff in H. destruct H as [_ H].
    destruct s as [|x s]; [discriminate|].
    apply (IH true); [discriminate|exact H].
  - destruct s as [|x s]; [simpl; now rewrite C|].
    apply (IH false); [discriminate|exact H].
Qed.

(** The substitution leaves a tidy text as it is. *)
Lemma sub_from_fixed (fuel : nat) :
  forall (s : str) (after_space : bool),
    (List.length s < fuel)%nat ->
    tidy_from after_space s = true ->
    sub_from fuel space_re [space] s = s.
Proof.
  induction fuel as [|fuel IH]; intros s b L H; [lia|].
  destruct s as [|c s]; [reflexivity|].
  rewrite sub_from_step. simpl in L. cbn [tidy_from] in H.
  destruct (isspace c) eqn:C.
  - apply andb_true_iff in H. destruct H as [H T].
    apply andb_true_iff in H. destruct H as [H _].
    apply N.eqb_eq in H. subst c.
    rewrite (drop_while_fixed _ (tidy_from_starts _ T)).
    rewrite (IH s true); auto. lia.
  - rewrite (IH s false); auto. lia.
Qed.

Lemma sub_nonempty (c : char) (s : str) :
  Re.sub space_re [space] (c :: s) <> [].
Proof.
  unfold Re.sub. rewrite sub_from_step. destruct (isspace c); discriminate.
Qed.

(** The cleaned text is tidy. *)
Lemma clean_tidy (text : str) : tidy (clean_text text) = true.
Proof.
  unfold clean_text.
  destruct (negb (nonempty text)); [reflexivity|].
  destruct (strip_ends text) as [E|[Hs E]].
  - rewrite E. reflexivity.
  - unfold Re.sub, tidy.
    rewrite (sub_from_tidy (S (List.length (strip text))) (strip text) true);
      auto.
    now destruct (sub_from _ _ _ _).
Qed.

(** A tidy text is left as it is. *)
Lemma clean_fixed (text : str) :
  tidy text = true -> clean_text text = text.
Proof.
  intros T. unfold clean_text.
  destruct text as [|c t]; [reflexivity|].
  cbn [nonempty negb]. unfold tidy in T.
  rewrite (strip_fixed (c :: t)).
  - unfold Re.sub. apply (sub_from_fixed _ (c :: t) true); auto.
  - now apply tidy_from_starts.
  - apply (tidy_from_ends (c :: t) true); [discriminate|exact T].
Qed.

(** The cleaned text is empty exactly for a blank text. *)
Lemma clean_empty_iff (text : str) :
  clean_text text = [] <-> all isspace text = true.
Proof.
  unfold clean_text. destruct text as [|c t]; [simpl; tauto|].
  cbn [nonempty negb]. rewrite <- strip_empty. split.
  - intros H.
    destruct (strip (c :: t)) as [|x u] eqn:E; auto.
    exfalso. exact (sub_nonempty x u H).
  - intros ->. reflexivity.
Qed.

End Facts.

End CleanFacts.

Section CleanClaims.

Context {P : Platform}.

(** X6.  The text [clean_text] gives is tidy: its only white space is
    single spaces between words, with none at either end. *)
Theorem clean_text_is_tidy (text : str) :
  tidy (clean_text text) = true.
Proof. apply CleanFacts.clean_tidy. Qed.

(** X7.  [clean_text] leaves a tidy text as it is; so cleaning twice is
    cleaning once. *)
Theorem clean_text_idempotent (text : str) :
  (tidy text = true -> clean_text text = text) /\
  clean_text (clean_text text) = clean_text text.
Proof.
  split; [apply CleanFacts.clean_fixed|].
  apply CleanFacts.clean_fixed, CleanFacts.clean_tidy.
Qed.

(** X8.  [clean_text] gives the empty text exactly for a text that is
    empty or all white space. *)
Theorem clean_text_empty_iff_blank (text : str) :
  clean_text text = [] <-> Text.all Text.isspace text = true.
Proof. apply CleanFacts.clean_empty_iff. Qed.

End CleanClaims.

(** ** The extractors on any text *)

Module NumberFacts.

Import Text TextFacts Re ReFacts ExtractFacts.

Local Open Scope list_scope.

Section Facts.

Context {P : Platform}.

Lemma replace_twice (t : str) :
  replace comma [] (replace comma [] t) = replace comma [] t.
Proof. apply replace_without_comma, replace_has_no_comma. Qed.

Lemma digit_sequence_none (t : str) :
  Spec.digit_sequence t = None <-> any isdecimal t = false.
Proof.
  unfold Spec.digit_sequence. rewrite <- (any_digit_replace t).
  destruct (any isdecimal (replace comma [] t)) eqn:A.
  - rewrite (first_digits_some _ A). split; discriminate.
  - rewrite (first_digits_none _ A). simpl. tauto.
Qed.

Lemma digit_sequence_nonneg (t : str) (n : Z) :
  Spec.digit_sequence t = Some n -> 0 <= n.
Proof.
  unfold Spec.digit_sequence.
  destruct (nonempty _); [|discriminate].
  intros [= <-]. apply digits_value_nonneg. lia.
Qed.

(** A price has at most two decimals. *)
Lemma decimal_cents (ds rest : str) :
  exists n, 0 <= n /\
            Spec.decimal ds (Spec.two_decimals rest) = Qred (n # 100).
Proof.
  unfold Spec.decimal.
  assert (L : Spec.two_decimals rest = [] \/
              exists d1 d2, Spec.two_decimals rest = [d1; d2]).
  { destruct rest as [|c0 [|d1 [|d2 s]]]; cbn [Spec.two_decimals]; auto.
    destruct (is_point c0 && isdecimal d1 && isdecimal d2); eauto. }
  destruct L as [E|(d1 & d2 & E)]; rewrite E.
  - exists (100 * digits_value 0 (ds ++ [])). split.
    + pose proof (digits_value_nonneg (ds ++ []) 0). lia.
    + apply Qred_complete.
      change (Z.to_pos (10 ^ Z.of_nat (List.length (@nil char))))
        with 1%positive.
      unfold Qeq. cbn [Qnum Qden]. lia.
  - exists (digits_value 0 (ds ++ [d1; d2])). split.
    + apply digits_value_nonneg. lia.
    + reflexivity.
Qed.

Lemma leading_number_cents (t : str) (q : Q) :
  Spec.leading_number t = Some q ->
  exists n, 0 <= n /\ q = Qred (n # 100).
Proof.
  induction t as [|c t IH]; cbn [Spec.leading_number]; [discriminate|].
  destruct (isdecimal c) eqn:E; auto.
  intros H.
  destruct (decimal_cents (take_while isdecimal (c :: t))
                          (drop_while isdecimal (c :: t)))
    as (n & N & D).
  exists n. split; [exact N|]. congruence.
Qed.

(** A price is the float of a whole number of hundredths. *)
Lemma price_hundredths (t : str) (x : pyfloat) :
  extract_price t = Ok (Some x) ->
  float_nonneg x /\
  exists n, 0 <= n /\ x = to_float (Qred (n # 100)).
Proof.
  rewrite extract_price_spec. unfold Spec.price_of.
  destruct (Spec.leading_number _) as [q|] eqn:E; [|discriminate].
  cbn [option_map]. intros [= <-].
  split.
  - apply to_float_nonneg. exact (leading_number_nonneg _ _ E).
  - destruct (leading_number_cents _ _ E) as (n & N & ->). eauto.
Qed.

End Facts.

End NumberFacts.

Section NumberClaims.

Context {P : Platform}.

(** X9.  [extract_rating] never raises; it gives null exactly when the
    text has no decimal digit, and otherwise a number that is not
    negative. *)
Theorem extract_rating_total_nonneg (rating_text : str) :
  exists r,
    extract_rating rating_text = Ok r /\
    (r = None <-> Text.any Text.isdecimal rating_text = false) /\
    (forall x, r = Some x -> float_nonneg x).
Proof.
  destruct (ExtractFacts.extract_rating_total rating_text) as (r & E).
  exists r. split; [exact E|]. split.
  - revert E. unfold extract_rating.
    destruct rating_text as [|c t]; [intros [= <-]; simpl; tauto|].
    cbn [Text.nonempty negb].
    destruct (Text.any Text.isdecimal (c :: t)) eqn:A.
    + destruct (ExtractFacts.search_rating_some _ A) as (group & ->).
      destruct (Text.py_float group); simpl; [|discriminate].
      intros [= <-]. split; discriminate.
    + rewrite (ExtractFacts.search_rating_none _ A).
      intros [= <-]. tauto.
  - intros x ->. exact (ExtractFacts.extract_rating_nonneg _ _ E).
Qed.

(** X10.  [extract_review_count] reads the first run of decimal digits of
    the text without its commas.  When [int] converts a run of that
    length, which it does up to 640 digits at least, the result is null
    exactly when the text has no decimal digit and otherwise a number
    that is not negative; when it does not, a [ValueError] is raised.
    The commas of the text make no difference. *)
Theorem extract_review_count_cases (review_text : str) :
  (Text.int_accepts
     (Spec.first_digits (Text.replace comma [] review_text)) = true ->
   exists r,
     extract_review_count review_text = Ok r /\
     (r = None <-> Text.any Text.isdecimal review_text = false) /\
     (forall n, r = Some n -> 0 <= n)) /\
  (Text.int_accepts
     (Spec.first_digits (Text.replace comma [] review_text)) = false ->
   extract_review_count review_text = Raise ValueError) /\
  ((List.length
      (Spec.first_digits (Text.replace comma [] review_text)) <= 640)%nat ->
   Text.int_accepts
     (Spec.first_digits (Text.replace comma [] review_text)) = true) /\
  extract_review_count (Text.replace comma [] review_text)
    = extract_review_count review_text.
Proof.
  split; [|split; [|split]].
  - intros A. exists (Spec.digit_sequence review_text).
    rewrite ExtractFacts.extract_review_count_spec, A.
    split; [reflexivity|].
    split; [apply NumberFacts.digit_sequence_none|].
    apply NumberFacts.digit_sequence_nonneg.
  - intros A. now rewrite ExtractFacts.extract_review_count_spec, A.
  - apply TextFacts.int_accepts_short.
  - rewrite !ExtractFacts.extract_review_count_spec.
    unfold Spec.digit_sequence. now rewrite NumberFacts.replace_twice.
Qed.

(** X11.  A price that [extract_price] gives is the float nearest to a
    whole number of hundredths that is not negative, so it is not
    negative either; and the commas of the text make no difference. *)
Theorem extract_price_in_hundredths (price_text : str) :
  (forall x,
     extract_price price_text = Ok (Some x) ->
     float_nonneg x /\
     exists n, 0 <= n /\ x = Text.to_float (Qred (n # 100))) /\
  extract_price (Text.replace comma [] price_text)
    = extract_price price_text.
Proof.
  split.
  - intros x. apply NumberFacts.price_hundredths.
  - rewrite !ExtractFacts.extract_price_spec. unfold Spec.price_of.
    now rewrite NumberFacts.replace_twice.
Qed.

End NumberClaims.

(** ** The fields of a record *)

Module FieldFacts.

Section Facts.

Context {P : Platform}.

(** The loops of lines 135-138, 163-166 and 183-186 find the first
    candidate of their selectors. *)
Lemma first_selected_candidates (c : container) (selectors : list string) :
  forall current,
    first_selected c selectors current =
    match Spec.candidates c selectors with
    | e :: _ => Some e
    | [] => match selectors with
            | [] => current
            | _ => None
            end
    end.
Proof.
  induction selectors as [|selector rest IH]; intros current; simpl; auto.
  destruct (select_one c selector) as [e|]; simpl; auto.
  rewrite IH. destruct (Spec.candidates c rest); auto.
  now destruct rest.
Qed.

Lemma first_selected_hd (c : container) (selectors : list string) :
  first_selected c selectors None = hd_error (Spec.candidates c selectors).
Proof.
  rewrite first_selected_candidates.
  destruct (Spec.candidates c selectors); auto.
  now destruct selectors.
Qed.

Lemma product_details_url (urljoin : str -> str -> exc str)
    (c : container) (pd : product_data) :
  product_details_body urljoin c = Ok pd ->
  match tag_or (select_one c link_selector)
               (select_one c link_selector_dp) with
  | Some link => urljoin base_url (get link "href" [])
  | None => Ok []
  end = Ok (Product_URL pd).
Proof.
  unfold product_details_body, exc_bind. intros B.
  repeat match type of B with
         | match ?x with Ok _ => _ | Raise _ => _ end = _ =>
             destruct x eqn:?; [|discriminate B]
         end.
  injection B as <-. simpl. reflexivity.
Qed.

End Facts.

End FieldFacts.

Section FieldClaims.

Context {P : Platform}.
Variable urljoin : str -> str -> exc str.

(** X12.  [scrape_product_details] gives [None] only when [urljoin] raises
    on the link of the container, or when [int] refuses the run of digits
    of the review count; a container without a link whose review count
    has at most 640 digits always gives a record. *)
Theorem details_lost_only_to_urljoin (c : container) :
  (scrape_product_details urljoin c = None <->
   (exists link e,
      tag_or (select_one c link_selector) (select_one c link_selector_dp)
        = Some link /\
      urljoin base_url (get link "href" []) = Raise e) \/
   Text.int_accepts (review_digits c) = false) /\
  (select_one c link_selector = None ->
   select_one c link_selector_dp = None ->
   (List.length (review_digits c) <= 640)%nat ->
   scrape_product_details urljoin c <> None).
Proof.
  split; [apply DetailFacts.details_none_iff|].
  intros A B L H. apply DetailFacts.details_none_iff in H.
  destruct H as [(link & e & H & _)|H].
  - rewrite A, B in H. discriminate.
  - rewrite (TextFacts.int_accepts_short _ L) in H. discriminate.
Qed.

(** X13.  The name of a record is the cleaned text of the first name
    selector that matches, so it is tidy; it is empty exactly when no
    name selector matches or that text is blank. *)
Theorem name_from_first_title (c : container) (pd : product_data) :
  scrape_product_details urljoin c = Some pd ->
  Product_Name pd =
    match hd_error (Spec.candidates c name_selectors) with
    | Some e => clean_text (get_text e)
    | None => []
    end /\
  tidy (Product_Name pd) = true /\
  (Product_Name pd = [] <->
   match hd_error (Spec.candidates c name_selectors) with
   | Some e => Text.all Text.isspace (get_text e) = true
   | None => True
   end).
Proof.
  intros H. apply DetailFacts.details_ok in H.
  apply DetailFacts.product_details_fields in H.
  destruct H as (N & _). rewrite FieldFacts.first_selected_hd in N.
  rewrite N. split; [reflexivity|].
  destruct (hd_error (Spec.candidates c name_selectors)) as [e|].
  - split; [apply CleanFacts.clean_tidy|].
    apply CleanFacts.clean_empty_iff.
  - split; [reflexivity|tauto].
Qed.

(** X14.  The price, the rating and the address of a record each come
    from the first selector of their list that matches: the price is the
    float of the leading number of its text, the rating is read from its
    [aria-label] when that is not empty and from its text otherwise, and
    the address is [urljoin] of the link found by ["h2 a"] before any
    other; a field whose selectors match nothing is null, the address
    empty. *)
Theorem fields_from_first_match (c : container) (pd : product_data) :
  scrape_product_details urljoin c = Some pd ->
  Price pd =
    match hd_error (Spec.candidates c price_selectors) with
    | Some e => Spec.price_of (get_text e)
    | None => None
    end /\
  match hd_error (Spec.candidates c rating_selectors) with
  | Some e =>
      extract_rating
        (if Text.nonempty (get e "aria-label" [])
         then get e "aria-label" [] else get_text e)
      = Ok (Rating pd)
  | None => Rating pd = None
  end /\
  match select_one c link_selector, select_one c link_selector_dp with
  | Some link, _ => urljoin base_url (get link "href" [])
                    = Ok (Product_URL pd)
  | None, Some link => urljoin base_url (get link "href" [])
                       = Ok (Product_URL pd)
  | None, None => Product_URL pd = []
  end.
Proof.
  intros H. apply DetailFacts.details_ok in H.
  pose proof (FieldFacts.product_details_url urljoin c pd H) as U.
  apply DetailFacts.product_details_fields in H.
  destruct H as (_ & Hp & R & _).
  rewrite FieldFacts.first_selected_hd in Hp, R.
  split; [|split].
  - destruct (hd_error (Spec.candidates c price_selectors)) as [e|].
    + rewrite ExtractFacts.extract_price_spec in Hp. congruence.
    + congruence.
  - destruct (hd_error (Spec.candidates c rating_selectors)) as [e|].
    + exact R.
    + congruence.
  - unfold tag_or in U.
    destruct (select_one c link_selector) as [l|]; [exact U|].
    destruct (select_one c link_selector_dp) as [l|]; [exact U|].
    congruence.
Qed.

End FieldClaims.

Lemma name_from_first_title_witness :
  scrape_product_details (P := Sample.platform) Sample.urljoin
                         (Sample.titled "  Toy   Car ")
    <> None /\
  forall pd,
    scrape_product_details (P := Sample.platform) Sample.urljoin
                           (Sample.titled "  Toy   Car ")
      = Some pd ->
    Product_Name pd = lit "Toy Car".
Proof.
  split; [discriminate|].
  intros pd H.
  exact (proj1 (name_from_first_title (P := Sample.platform)
                  Sample.urljoin (Sample.titled "  Toy   Car ") pd H)).
Defined.

Lemma fields_from_first_match_witness :
  scrape_product_details (P := Sample.platform) Sample.urljoin Sample.toy
    = Some SampleRecords.toy_record /\
  Price SampleRecords.toy_record
    = Spec.price_of (P := Sample.platform) (lit "1,234.50").
Proof.
  split; [reflexivity|].
  exact (proj1 (fields_from_first_match (P := Sample.platform)
                  Sample.urljoin Sample.toy SampleRecords.toy_record
                  eq_refl)).
Defined.

(** ** One page *)

Module PageFacts.

Local Open Scope list_scope.

Section Page.

Context {P : Platform}.
Variable urljoin : str -> str -> exc str.
Variable w : world.
Variable max_products : Z.

(** The [for] of lines 297-310 takes the records with a name in the
    order of the page, as many as the budget allows. *)
Lemma process_containers_firstn (containers : list container) :
  forall (scraped : Z) (data : list product_data),
    process_containers urljoin max_products containers scraped data =
    (scraped
     + Z.of_nat (List.length
                   (firstn (Z.to_nat (max_products - scraped))
                           (named_records urljoin containers))),
     data ++ firstn (Z.to_nat (max_products - scraped))
                    (named_records urljoin containers)).
Proof.
  induction containers as [|c rest IH]; intros scraped data;
    cbn [process_containers named_records].
  - rewrite firstn_nil, app_nil_r. simpl. f_equal. lia.
  - destruct (max_products <=? scraped) eqn:G.
    + apply Z.leb_le in G.
      replace (Z.to_nat (max_products - scraped)) with 0%nat by lia.
      simpl. rewrite app_nil_r. f_equal. lia.
    + apply Z.leb_gt in G.
      destruct (scrape_product_details urljoin c) as [product|];
        [|apply IH].
      destruct (Text.nonempty (Product_Name product)); [|apply IH].
      rewrite IH.
      replace (Z.to_nat (max_products - scraped))
        with (S (Z.to_nat (max_products - (scraped + 1)))) by lia.
      cbn [firstn List.length]. rewrite <- app_assoc. f_equal. lia.
Qed.

Lemma named_records_produced (containers : list container) :
  Forall (produced urljoin) (named_records urljoin containers).
Proof.
  induction containers as [|c rest IH]; simpl; [constructor|].
  destruct (scrape_product_details urljoin c) as [product|] eqn:E; auto.
  destruct (Text.nonempty (Product_Name product)); auto.
  constructor; auto. exists c. exact E.
Qed.

(** The retry loop writes no file. *)
Lemma retry_from_no_writes (url : string) (max_retries : nat) :
  forall (remaining attempt : nat) (s : sys),
  exists events,
    trace (snd (retry_from w url max_retries attempt remaining s))
      = trace s ++ events /\
    Forall writes_nothing events.
Proof.
  induction remaining as [|remaining IH]; intros attempt s.
  - exists []. simpl. now rewrite app_nil_r.
  - rewrite ClientFacts.retry_from_round. cbv zeta.
    destruct (http_get w (gets s) url) as [r|e].
    + destruct (status_code r =? 200).
      * eexists. cbn [snd trace]. split; [reflexivity|].
        repeat constructor.
      * destruct (status_code r =? 503);
          match goal with
          | |- context [retry_from _ _ _ ?a _ ?s'] =>
              destruct (IH a s') as (events & E & F)
          end;
          rewrite E; cbn [trace]; rewrite <- app_assoc;
          eexists; (split; [reflexivity|]);
          simpl; repeat constructor; exact F.
    + destruct e;
        try (eexists; cbn [snd trace]; split; [reflexivity|];
             repeat constructor).
      destruct (Z.of_nat attempt <? Z.of_nat max_retries - 1);
        match goal with
        | |- context [retry_from _ _ _ ?a _ ?s'] =>
            destruct (IH a s') as (events & E & F)
        end;
        rewrite E; cbn [trace]; rewrite <- ?app_assoc;
        eexists; (split; [reflexivity|]);
        simpl; repeat constructor; exact F.
Qed.

(** What one round of the [while] does to the outside and to the
    records: at most three requests; no file but the debug file of a page
    that fails; records only from a page that succeeds, and then the
    records with a name of the containers found, in order, within the
    budget. *)
Lemma scrape_page_effects (st : run_state) :
  exists events new,
    trace (system (scrape_page urljoin w max_products st))
      = trace (system st) ++ events /\
    (List.length (requests events) <= 3)%nat /\
    (forall name, In (WriteFile name) events ->
       name = debug_file (page_num st) /\
       pages (scrape_page urljoin w max_products st)
         = pages st ++ [(page_num st, PageFailed)]) /\
    products_data (self (scrape_page urljoin w max_products st))
      = products_data (self st) ++ new /\
    Forall (produced urljoin) new /\
    (pages (scrape_page urljoin w max_products st)
       = pages st ++ [(page_num st, PageFailed)] -> new = []).
Proof.
  unfold scrape_page, make_request_with_retry.
  destruct (ClientFacts.retry_from_requests w (page_url (page_num st))
              default_max_retries default_max_retries 0 (system st))
    as (events & E & _ & B & _).
  destruct (retry_from_no_writes (page_url (page_num st))
              default_max_retries default_max_retries 0 (system st))
    as (events' & E' & F).
  rewrite E in E'. apply app_inv_head in E'. subst events'.
  destruct (retry_from w (page_url (page_num st)) default_max_retries 0
              default_max_retries (system st)) as [fetched s1].
  cbn [snd] in E.
  assert (NW : forall name, In (WriteFile name) events -> False).
  { intros name I. rewrite Forall_forall in F. exact (F _ I). }
  assert (Hfail : exists events0 new,
    trace (system (page_failed st s1)) = trace (system st) ++ events0 /\
    (List.length (requests events0) <= 3)%nat /\
    (forall name, In (WriteFile name) events0 ->
       name = debug_file (page_num st) /\
       pages (page_failed st s1)
         = pages st ++ [(page_num st, PageFailed)]) /\
    products_data (self (page_failed st s1))
      = products_data (self st) ++ new /\
    Forall (produced urljoin) new /\
    (pages (page_failed st s1)
       = pages st ++ [(page_num st, PageFailed)] -> new = [])).
  { exists events, []. cbn [page_failed system self pages].
    rewrite app_nil_r.
    split; [exact E|]. split; [exact B|].
    split; [intros x I; destruct (NW _ I)|]. auto. }
  destruct fetched as [[resp|]|e]; try exact Hfail.
  destruct (locate_containers (content resp) product_selectors [])
    as [|c cs].
  - destruct (writable w (debug_file (page_num st))); [|exact Hfail].
    exists (events ++ [WriteFile (debug_file (page_num st))]), [].
    cbn [page_failed system self pages write_file trace].
    rewrite E, <- app_assoc, app_nil_r. split; [reflexivity|].
    split.
    { rewrite ClientFacts.requests_app. simpl.
      rewrite app_nil_r. exact B. }
    split.
    { intros name I. apply in_app_or in I. destruct I as [I|I].
      - destruct (NW _ I).
      - destruct I as [[= <-]|[]]. auto. }
    auto.
  - rewrite process_containers_firstn.
    eexists events, _. cbn [system self pages products_data].
    split; [exact E|]. split; [exact B|]. split.
    { intros name I. destruct (NW _ I). }
    split; [reflexivity|]. split.
    + pose proof (named_records_produced (c :: cs)) as Hn.
      rewrite <- (firstn_skipn (Z.to_nat (max_products
                                          - products_scraped st)))
        in Hn.
      apply Forall_app in Hn. exact (proj1 Hn).
    + intros H. apply app_inv_head in H. discriminate.
Qed.

End Page.

End PageFacts.

(** X15.  On a page the loop over the containers appends the records that
    have a name, in the order of the page, and no more of them than the
    difference between [max_products] and the number already scraped;
    the counter grows by the number appended. *)
Theorem containers_taken_in_order {P : Platform}
    (urljoin : str -> str -> exc str) (max_products : Z)
    (containers : list container) (scraped : Z)
    (data : list product_data) :
  process_containers urljoin max_products containers scraped data =
  (scraped
   + Z.of_nat (List.length
                 (firstn (Z.to_nat (max_products - scraped))
                         (named_records urljoin containers))),
   (data ++ firstn (Z.to_nat (max_products - scraped))
                   (named_records urljoin containers))%list).
Proof. apply PageFacts.process_containers_firstn. Qed.

(** X16.  The containers of a page are those of the first selector of the
    list that finds any, and there are none only when no selector finds
    one; what later selectors find is never added. *)
Theorem containers_of_first_selector (soup : document)
    (selectors : list string) :
  locate_containers soup selectors [] =
    match find (has_results soup) selectors with
    | Some selector => select soup selector
    | None => []
    end /\
  (locate_containers soup selectors [] = [] <->
   forall selector, In selector selectors -> select soup selector = []).
Proof.
  induction selectors as [|selector rest [IH1 IH2]]; simpl.
  - split; [reflexivity|]. split; [intros _ ? []|reflexivity].
  - unfold has_results at 1.
    destruct (select soup selector) as [|c cs] eqn:E.
    + split; [exact IH1|]. rewrite IH2. split.
      * intros H x [<-|I]; auto.
      * intros H x I. apply H. auto.
    + split; [simpl; congruence|]. split; [discriminate|].
      intros H. rewrite <- E. apply H. auto.
Qed.

(** ** A whole run *)

Module RunFacts.

Local Open Scope list_scope.

Section Run.

Context {P : Platform}.
Variable urljoin : str -> str -> exc str.
Variable w : world.
Variables max_pages max_products : Z.

Lemma scrape_page_log (st : run_state) :
  exists r,
    pages (scrape_page urljoin w max_products st)
      = pages st ++ [(page_num st, r)].
Proof.
  destruct (LoopFacts.scrape_page_cases urljoin w max_products st)
    as (_ & _ & [[Hp _]|[Hp _]]); eauto.
Qed.

(** The pages of the log are 1, 2, 3, ... and the next page is one more
    than their number. *)
Lemma run_pages (me : scraper) (s : sys) :
  let final := run urljoin w max_pages max_products me s in
  page_num final = 1 + Z.of_nat (List.length (pages final)) /\
  map fst (pages final)
    = map Z.of_nat (seq 1 (List.length (pages final))) /\
  page_num final <= Z.max 0 max_pages + 1.
Proof.
  unfold run.
  apply (LoopFacts.scrape_loop_invariant urljoin w max_pages max_products
           (fun st =>
              page_num st = 1 + Z.of_nat (List.length (pages st)) /\
              map fst (pages st)
                = map Z.of_nat (seq 1 (List.length (pages st))) /\
              page_num st <= Z.max 0 max_pages + 1)).
  - intros st (N & M & B) G. apply LoopFacts.loop_guard_iff in G.
    destruct G as (G & _).
    destruct (scrape_page_log st) as (r & Hp).
    rewrite Hp, (proj1 (LoopFacts.scrape_page_cases
                         urljoin w max_products st)).
    rewrite List.length_app, map_app, Nat.add_1_r, seq_S, map_app, M.
    cbn [List.length map fst].
    repeat split; try lia. f_equal. f_equal. lia.
  - simpl. repeat split; lia.
Qed.

(** A run sends at most three requests for each page of its log. *)
Lemma run_requests_bound (me : scraper) (s : sys) :
  let final := run urljoin w max_pages max_products me s in
  (List.length (requests (trace (system final)))
   <= List.length (requests (trace s))
      + 3 * List.length (pages final))%nat.
Proof.
  unfold run.
  apply (LoopFacts.scrape_loop_invariant urljoin w max_pages max_products
           (fun st =>
              (List.length (requests (trace (system st)))
               <= List.length (requests (trace s))
                  + 3 * List.length (pages st))%nat)).
  - intros st H _.
    destruct (PageFacts.scrape_page_effects urljoin w max_products st)
      as (events & new & E & B & _).
    destruct (scrape_page_log st) as (r & Hp).
    rewrite E, Hp, ClientFacts.requests_app, !List.length_app.
    simpl. lia.
  - simpl. lia.
Qed.

(** The only files a run writes are the debug files of pages that
    failed. *)
Lemma run_writes (me : scraper) (s : sys) (name : string) :
  In (WriteFile name)
     (trace (system (run urljoin w max_pages max_products me s))) ->
  In (WriteFile name) (trace s) \/
  exists p,
    In (p, PageFailed)
       (pages (run urljoin w max_pages max_products me s)) /\
    name = debug_file p.
Proof.
  unfold run. revert name.
  apply (LoopFacts.scrape_loop_invariant urljoin w max_pages max_products
           (fun st => forall name,
              In (WriteFile name) (trace (system st)) ->
              In (WriteFile name) (trace s) \/
              exists p, In (p, PageFailed) (pages st) /\
                        name = debug_file p)).
  - intros st H _ name I.
    destruct (PageFacts.scrape_page_effects urljoin w max_products st)
      as (events & new & E & _ & W & _).
    destruct (scrape_page_log st) as (r & Hp).
    rewrite E in I. apply in_app_or in I. destruct I as [I|I].
    + destruct (H name I) as [?|(p & I' & N)]; auto.
      right. exists p. rewrite Hp. split; auto. apply in_or_app. auto.
    + destruct (W name I) as (N & F).
      right. exists (page_num st). rewrite F. split; auto.
      apply in_or_app. right. left. reflexivity.
  - simpl. auto.
Qed.

(** Every record a run adds comes from a container. *)
Lemma run_produced (me : scraper) (s : sys) :
  Forall (produced urljoin) (products_data me) ->
  Forall (produced urljoin)
    (products_data (self (run urljoin w max_pages max_products me s))).
Proof.
  intros H. unfold run.
  apply (LoopFacts.scrape_loop_invariant urljoin w max_pages max_products
           (fun st => Forall (produced urljoin) (products_data (self st)))).
  - intros st F _.
    destruct (PageFacts.scrape_page_effects urljoin w max_products st)
      as (events & new & _ & _ & _ & E & Hp & _).
    rewrite E. apply Forall_app. auto.
  - exact H.
Qed.

(** The requests of a round are for its page. *)
Lemma requests_of_page (url : string) (events : list event) :
  Forall (of_page url) events ->
  requests events = repeat (Get url) (List.length (requests events)).
Proof.
  induction 1 as [|e events H F IH]; [reflexivity|].
  destruct e as [q|u|name]; cbn [requests filter]; try exact IH.
  cbn [List.length repeat]. cbn [of_page] in H. subst u.
  f_equal. exact IH.
Qed.

Lemma page_requests_snoc (counts : list nat) (n : nat) (page : Z) :
  page_requests (counts ++ [n]) page
  = page_requests counts page
    ++ repeat (Get (page_url (page + Z.of_nat (List.length counts)))) n.
Proof.
  revert page. induction counts as [|m counts IH]; intros page.
  - cbn [app page_requests List.length]. rewrite app_nil_r.
    now rewrite Z.add_0_r.
  - cbn [app page_requests List.length]. rewrite IH, <- app_assoc.
    replace (page + 1 + Z.of_nat (List.length counts))
      with (page + Z.of_nat (S (List.length counts))) by lia.
    reflexivity.
Qed.

(** One round sends one to three requests, all for its page. *)
Lemma scrape_page_requests (st : run_state) :
  exists n,
    (1 <= n <= 3)%nat /\
    requests (trace (system (scrape_page urljoin w max_products st)))
    = requests (trace (system st))
      ++ repeat (Get (page_url (page_num st))) n.
Proof.
  destruct (LoopFacts.scrape_page_asks urljoin w max_products st)
    as (events & E & F & I).
  destruct (PageFacts.scrape_page_effects urljoin w max_products st)
    as (events' & new & E' & B & _).
  rewrite E in E'. apply app_inv_head in E'. subst events'.
  exists (List.length (requests events)). split.
  - split; [|exact B].
    assert (J : In (Get (page_url (page_num st))) (requests events))
      by (apply filter_In; auto).
    destruct (requests events); [destruct J|simpl; lia].
  - rewrite E, ClientFacts.requests_app. f_equal.
    now apply requests_of_page.
Qed.

(** The requests of a run, page by page. *)
Lemma run_request_list (me : scraper) (s : sys) :
  exists counts,
    requests (trace (system (run urljoin w max_pages max_products me s)))
      = requests (trace s) ++ page_requests counts 1 /\
    Forall (fun n => (1 <= n <= 3)%nat) counts /\
    page_num (run urljoin w max_pages max_products me s)
      = 1 + Z.of_nat (List.length counts) /\
    Z.of_nat (List.length counts) <= Z.max 0 max_pages.
Proof.
  unfold run.
  apply (LoopFacts.scrape_loop_invariant urljoin w max_pages max_products
           (fun st =>
              exists counts,
                requests (trace (system st))
                  = requests (trace s) ++ page_requests counts 1 /\
                Forall (fun n => (1 <= n <= 3)%nat) counts /\
                page_num st = 1 + Z.of_nat (List.length counts) /\
                Z.of_nat (List.length counts) <= Z.max 0 max_pages)).
  - intros st (counts & R & F & N & B) G.
    apply LoopFacts.loop_guard_iff in G. destruct G as (G & _).
    destruct (scrape_page_requests st) as (n & Hn & E).
    exists (counts ++ [n]).
    rewrite E, R, page_requests_snoc, <- app_assoc, <- N.
    split; [reflexivity|]. split.
    + apply Forall_app. split; [exact F|]. constructor; auto.
    + rewrite (proj1 (LoopFacts.scrape_page_cases
                        urljoin w max_products st)).
      rewrite List.length_app. cbn [List.length]. lia.
  - exists []. cbn [page_requests List.length start system page_num].
    rewrite app_nil_r. repeat split; auto; lia.
Qed.

(** The request of a round stays in the trace. *)
Lemma state_asked (me : scraper) (s : sys) (k j : nat) :
  (j < k)%nat ->
  In (Get (page_url (Z.of_nat j + 1)))
     (trace (system (after_rounds urljoin w max_products me s k))).
Proof.
  induction k as [|k IH]; [lia|].
  intros Hj. rewrite (LoopFacts.state_succ urljoin w max_products me s k).
  destruct (LoopFacts.scrape_page_asks urljoin w max_products
              (after_rounds urljoin w max_products me s k))
    as (events & E & _ & I).
  rewrite E. apply in_or_app.
  destruct (Nat.eq_dec j k) as [->|N].
  - right.
    now rewrite <- (LoopFacts.state_page urljoin w max_products me s k).
  - left. apply IH. lia.
Qed.

(** A run that the budget of pages stops has asked for every page. *)
Lemma run_asks_every_page (me : scraper) (s : sys) :
  products_scraped (run urljoin w max_pages max_products me s)
    < max_products ->
  consecutive_failures (run urljoin w max_pages max_products me s) < 3 ->
  page_num (run urljoin w max_pages max_products me s)
    = Z.max 0 max_pages + 1 /\
  forall p, 1 <= p <= max_pages ->
    In (Get (page_url p))
       (trace (system (run urljoin w max_pages max_products me s))).
Proof.
  destruct (LoopFacts.run_rounds urljoin w max_pages max_products me s)
    as (k & E & _ & G).
  pose proof (run_pages me s) as (_ & _ & L). cbv zeta in L.
  rewrite E in *. intros Hp Hc.
  pose proof (LoopFacts.state_page urljoin w max_products me s k) as N.
  unfold loop_guard in G.
  apply Z.ltb_lt in Hp, Hc. rewrite Hp, Hc, !andb_true_r in G.
  apply Z.leb_gt in G.
  split; [lia|].
  intros p Hr.
  replace p with (Z.of_nat (Z.to_nat (p - 1)) + 1) by lia.
  apply state_asked. lia.
Qed.

(** A page of a site that always answers 503 fails after three
    requests. *)
Lemma scrape_page_under_503 (st : run_state) :
  always_503 w ->
  scrape_page urljoin w max_products st =
  page_failed st
    {| gets := gets (system st) + 3;
       draws := draws (system st) + 2 * 3;
       trace := trace (system st)
                ++ trace_under_503 w (page_url (page_num st)) 0 3
                                   (draws (system st)) |}.
Proof.
  intros H. unfold scrape_page, make_request_with_retry.
  rewrite (RetryFacts.retry_under_503 w (page_url (page_num st))
             default_max_retries H).
  reflexivity.
Qed.

End Run.

Lemma reachable_produced {P : Platform} (urljoin : str -> str -> exc str)
    (me : scraper) :
  reachable urljoin me -> Forall (produced urljoin) (products_data me).
Proof.
  induction 1 as [|w mp mx me s R IH|me R IH].
  - constructor.
  - now apply run_produced.
  - now rewrite LoopFacts.dataset_keeps_instance.
Qed.

Lemma string_app_inv (a b x y : string) :
  length a = length b -> (a ++ x)%string = (b ++ y)%string ->
  a = b /\ x = y.
Proof.
  revert b. induction a as [|c a IH]; intros [|d b] L E;
    try discriminate L.
  - auto.
  - simpl in L, E. injection E as -> E. injection L as L.
    destruct (IH b L E) as [-> ->]. auto.
Qed.

Lemma string_app_inv_head (a x y : string) :
  (a ++ x)%string = (a ++ y)%string -> x = y.
Proof.
  intros E. now destruct (string_app_inv a a x y eq_refl E).
Qed.

Lemma str_of_int_inj (p q : Z) : str_of_int p = str_of_int q -> p = q.
Proof.
  unfold str_of_int. intros E.
  assert (N : forall z, Z.to_int z <> Decimal.Pos Decimal.Nil /\
                        Z.to_int z <> Decimal.Neg Decimal.Nil).
  { intros [|z|z]; simpl; split; try discriminate;
      intros [= H]; exact (Unsigned.to_uint_nonnil _ H). }
  apply DecimalZ.to_int_inj.
  assert (S1 : NilZero.int_of_string (NilZero.string_of_int (Z.to_int p))
               = Some (Z.to_int p))
    by (apply NilZero.isi; apply N).
  assert (S2 : NilZero.int_of_string (NilZero.string_of_int (Z.to_int q))
               = Some (Z.to_int q))
    by (apply NilZero.isi; apply N).
  rewrite E in S1. congruence.
Qed.

Lemma string_length_app (a b : string) :
  length (a ++ b)%string = (length a + length b)%nat.
Proof. induction a; simpl; auto. Qed.

End RunFacts.

Section RunClaims.

Local Open Scope list_scope.

Context {P : Platform}.
Variable urljoin : str -> str -> exc str.

(** X17.  The requests of a run are for the pages 1, 2, 3, ... in order,
    one to three requests for each and none skipped, and for at most
    [max_pages] pages; the page the loop would ask for next is one more
    than their number. *)
Theorem pages_requested_in_order (w : world) (max_pages max_products : Z)
    (me : scraper) (s : sys) :
  exists counts : list nat,
    requests (trace (system (run urljoin w max_pages max_products me s)))
      = requests (trace s) ++ page_requests counts 1 /\
    Forall (fun n => (1 <= n <= 3)%nat) counts /\
    page_num (run urljoin w max_pages max_products me s)
      = 1 + Z.of_nat (List.length counts) /\
    Z.of_nat (List.length counts) <= Z.max 0 max_pages.
Proof. apply RunFacts.run_request_list. Qed.

(** X18.  A run sends at most three requests for each page it asks for,
    so at most [3 * max_pages] in all. *)
Theorem run_sends_at_most_three_per_page (w : world)
    (max_pages max_products : Z) (me : scraper) (s : sys) :
  let final := run urljoin w max_pages max_products me s in
  (List.length (requests (trace (system final)))
   <= List.length (requests (trace s))
      + 3 * List.length (pages final))%nat /\
  Z.of_nat (List.length (requests (trace (system final))))
    <= Z.of_nat (List.length (requests (trace s)))
       + 3 * Z.max 0 max_pages.
Proof.
  cbv zeta.
  pose proof (RunFacts.run_requests_bound
                urljoin w max_pages max_products me s) as B.
  destruct (RunFacts.run_pages urljoin w max_pages max_products me s)
    as (N & _ & L).
  cbv zeta in B. split; [exact B|]. lia.
Qed.

(** X19.  With [max_pages] or [max_products] not positive the run does
    nothing: no request, no sleep, and the list it returns is the one the
    instance had. *)
Theorem nothing_to_do (w : world) (max_pages max_products : Z)
    (me : scraper) (s : sys) :
  max_pages <= 0 \/ max_products <= 0 ->
  scrape_toys_category urljoin w max_pages max_products me s
  = (products_data me, me, s).
Proof.
  intros H. unfold scrape_toys_category, run.
  rewrite LoopFacts.scrape_loop_stable; [reflexivity|].
  unfold loop_guard, start. cbn [page_num products_scraped].
  destruct H as [H|H].
  - replace (1 <=? max_pages) with false; auto.
    symmetry. apply Z.leb_gt. lia.
  - replace (0 <? max_products) with false.
    + now rewrite andb_false_r.
    + symmetry. apply Z.ltb_ge. lia.
Qed.

(** X20.  A run that ends with fewer than [max_products] records scraped
    and fewer than three failures in a row has sent a request for every
    page from 1 to [max_pages]. *)
Theorem run_exhausts_pages (w : world) (max_pages max_products : Z)
    (me : scraper) (s : sys) :
  let final := run urljoin w max_pages max_products me s in
  products_scraped final < max_products ->
  consecutive_failures final < 3 ->
  page_num final = Z.max 0 max_pages + 1 /\
  forall p, 1 <= p <= max_pages ->
    In (Get (page_url p)) (trace (system final)).
Proof. cbv zeta. apply RunFacts.run_asks_every_page. Qed.

(** X23.  The only files a run writes are the debug files of pages that
    failed. *)
Theorem only_debug_files_written (w : world) (max_pages max_products : Z)
    (me : scraper) (s : sys) (name : string) :
  In (WriteFile name)
     (trace (system (run urljoin w max_pages max_products me s))) ->
  In (WriteFile name) (trace s) \/
  exists p,
    In (p, PageFailed)
       (pages (run urljoin w max_pages max_products me s)) /\
    name = debug_file p.
Proof. apply RunFacts.run_writes. Qed.

(** X22.  On a site that always answers 503, a run for three pages or
    more gives up after the third: nine requests, no record added. *)
Theorem outage_costs_nine_requests (w : world) (max_pages max_products : Z)
    (me : scraper) (s : sys) :
  always_503 w -> 3 <= max_pages -> 0 < max_products ->
  let final := run urljoin w max_pages max_products me s in
  pages final = [(1, PageFailed); (2, PageFailed); (3, PageFailed)] /\
  self final = me /\
  gets (system final) = (gets s + 9)%nat.
Proof.
  intros H Hp M.
  assert (G : forall st,
            page_num st <= max_pages -> products_scraped st = 0 ->
            consecutive_failures st < 3 ->
            loop_guard max_pages max_products st = true).
  { intros st A B C. apply LoopFacts.loop_guard_iff. lia. }
  unfold run.
  destruct (Z.to_nat max_pages) as [|[|[|fuel]]] eqn:F; try lia.
  cbn [scrape_loop].
  rewrite G by (simpl; lia).
  rewrite (RunFacts.scrape_page_under_503 urljoin w max_products _ H).
  rewrite G by (simpl; lia).
  rewrite (RunFacts.scrape_page_under_503 urljoin w max_products _ H).
  rewrite G by (simpl; lia).
  rewrite (RunFacts.scrape_page_under_503 urljoin w max_products _ H).
  rewrite LoopFacts.scrape_loop_stable.
  - cbn [page_failed start pages self system gets page_num app].
    repeat split. lia.
  - unfold loop_guard. cbn [page_failed start consecutive_failures].
    now rewrite andb_false_r.
Qed.

End RunClaims.

(** X21.  Different page numbers have different addresses. *)
Theorem page_url_injective (p q : Z) : page_url p = page_url q -> p = q.
Proof.
  unfold page_url.
  destruct (p =? 1) eqn:Ep; destruct (q =? 1) eqn:Eq.
  - apply Z.eqb_eq in Ep, Eq. congruence.
  - intros E. apply RunFacts.string_app_inv_head in E. discriminate E.
  - intros E. apply RunFacts.string_app_inv_head in E. discriminate E.
  - intros E.
    apply RunFacts.string_app_inv_head in E.
    apply (RunFacts.string_app_inv_head "?k=toys+and+gifts&page=") in E.
    assert (L : length (str_of_int p) = length (str_of_int q)).
    { apply (f_equal length) in E.
      rewrite !RunFacts.string_length_app in E. simpl in E. lia. }
    destruct (RunFacts.string_app_inv _ _ _ _ L E) as [E' _].
    now apply RunFacts.str_of_int_inj.
Qed.

Lemma page_url_injective_witness : 2 = 2.
Proof. exact (page_url_injective 2 2 eq_refl). Defined.

Lemma nothing_to_do_witness :
  scrape_toys_category (P := Sample.platform)
    Sample.urljoin Sample.up 0 500 init sys0
  = (products_data init, init, sys0).
Proof.
  exact (nothing_to_do (P := Sample.platform)
           Sample.urljoin Sample.up 0 500 init sys0
           (or_introl (Z.le_refl 0))).
Defined.

Lemma run_exhausts_pages_witness :
  page_num (run (P := Sample.platform) Sample.urljoin Sample.up 2 500
                init sys0) = Z.max 0 2 + 1 /\
  forall p, 1 <= p <= 2 ->
    In (Get (page_url p))
       (trace (system (run (P := Sample.platform)
                           Sample.urljoin Sample.up 2 500 init sys0))).
Proof.
  apply (run_exhausts_pages (P := Sample.platform)
           Sample.urljoin Sample.up 2 500 init sys0);
    vm_compute; reflexivity.
Defined.

Lemma only_debug_files_written_witness :
  let blank :=
    {| http_get := fun _ _ =>
         Responded {| status_code := 200;
                      content := {| doc_matches := [] |};
                      text := [] |};
       random := fun _ => 1 # 2;
       writable := fun _ => true |} in
  In (WriteFile (debug_file 1))
     (trace (system (run (P := Sample.platform) Sample.urljoin blank 1 5 init sys0))) /\
  (In (WriteFile (debug_file 1)) (trace sys0) \/
   exists p,
     In (p, PageFailed) (pages (run (P := Sample.platform) Sample.urljoin blank 1 5 init sys0)) /\
     debug_file 1 = debug_file p).
Proof.
  intros blank.
  assert (I : In (WriteFile (debug_file 1))
                 (trace (system (run (P := Sample.platform)
                                     Sample.urljoin blank 1 5
                                     init sys0)))).
  { vm_compute. right. right. left. reflexivity. }
  split; [exact I|].
  exact (only_debug_files_written (P := Sample.platform)
           Sample.urljoin blank 1 5 init sys0
           (debug_file 1) I).
Defined.

Lemma outage_costs_nine_requests_witness :
  pages (run (P := Sample.platform) Sample.urljoin Sample.busy 25 500
              init sys0)
    = [(1, PageFailed); (2, PageFailed); (3, PageFailed)] /\
  self (run (P := Sample.platform) Sample.urljoin Sample.busy 25 500
              init sys0) = init /\
  gets (system (run (P := Sample.platform) Sample.urljoin Sample.busy 25 500
              init sys0)) = 9%nat.
Proof.
  apply (outage_costs_nine_requests (P := Sample.platform)
           Sample.urljoin Sample.busy 25 500
           init sys0 RetryFacts.busy_always_503); lia.
Defined.

(** ** The categories and the dataset *)

Module DatasetFacts.

Lemma Qle_bool_false (x y : Q) : (y < x)%Q -> Qle_bool x y = false.
Proof.
  intros H. destruct (Qle_bool x y) eqn:E; auto.
  apply Qle_bool_iff in E. exfalso. exact (Qlt_not_le _ _ H E).
Qed.

Lemma Qle_bool_true (x y : Q) : (x <= y)%Q -> Qle_bool x y = true.
Proof. apply Qle_bool_iff. Qed.

Lemma price_range_listed (price : option pyfloat) :
  categorize_price price = "No Price Listed" <-> price = None.
Proof.
  destruct price as [p|]; cbn [categorize_price]; [|tauto].
  split; [|discriminate].
  destruct (float_ltb p 500); [discriminate|].
  destruct (float_ltb p 1000); [discriminate|].
  destruct (float_ltb p 2000); [discriminate|].
  destruct (float_ltb p 5000); discriminate.
Qed.

Lemma rating_category_rated (rating : option pyfloat) :
  categorize_rating rating = "No Rating" <-> rating = None.
Proof.
  destruct rating as [r|]; cbn [categorize_rating]; [|tauto].
  split; [|discriminate].
  destruct (float_geb r 4.5); [discriminate|].
  destruct (float_geb r 4.0); [discriminate|].
  destruct (float_geb r 3.5); [discriminate|].
  destruct (float_geb r 3.0); discriminate.
Qed.

Lemma review_category_none (n : Z) :
  categorize_reviews n = "No Reviews" <-> n = 0.
Proof.
  unfold categorize_reviews. destruct (n =? 0) eqn:E.
  - apply Z.eqb_eq in E. tauto.
  - apply Z.eqb_neq in E. split; [|tauto].
    destruct (n <? 10); [discriminate|].
    destruct (n <? 50); [discriminate|].
    destruct (n <? 100); [discriminate|].
    destruct (n <? 500); discriminate.
Qed.

Section Facts.

Context {P : Platform}.

(** What [scrape_product_details] puts in a record. *)
Lemma produced_fields (urljoin : str -> str -> exc str)
    (r : product_data) :
  produced urljoin r ->
  tidy (Product_Name r) = true /\
  (forall x, Price r = Some x ->
     float_nonneg x /\
     exists n, 0 <= n /\ x = Text.to_float (Qred (n # 100))) /\
  (forall x, Rating r = Some x -> float_nonneg x) /\
  (forall n, Number_of_Reviews r = Some n -> 0 <= n).
Proof.
  intros (c & H). apply DetailFacts.details_ok in H.
  apply DetailFacts.product_details_fields in H.
  destruct H as (N & Hp & R & V).
  split; [|split; [|split]].
  - rewrite N. destruct (first_selected c name_selectors None).
    + apply CleanFacts.clean_tidy.
    + reflexivity.
  - intros x E. rewrite E in Hp.
    destruct (first_selected c price_selectors None) as [e|];
      [|discriminate].
    exact (NumberFacts.price_hundredths _ _ Hp).
  - intros x E. rewrite E in R.
    destruct (first_selected c rating_selectors None) as [e|];
      [|discriminate].
    exact (ExtractFacts.extract_rating_nonneg _ _ R).
  - intros n E. rewrite E, DetailFacts.reviews_field in V.
    destruct (Text.int_accepts (review_digits c)); [|discriminate].
    injection V as V. unfold Spec.review_count in V.
    destruct (Spec.first_validated c) as [e|]; [|discriminate].
    exact (NumberFacts.digit_sequence_nonneg _ _ V).
Qed.

(** What every row of the dataset has, whatever the counts are. *)
Lemma row_flags (me : scraper) (i : nat) (a : analytics_record) :
  row (fst (create_powerbi_dataset me)) i = Some a ->
  exists r,
    nth_error (products_data me) i = Some r /\
    ar_Product_Name a = Product_Name r /\
    ar_Price_INR a = Price r /\
    ar_Rating a = Rating r /\
    ar_Price_Range a = categorize_price (Price r) /\
    ar_Rating_Category a = categorize_rating (Rating r) /\
    ar_Has_Price a = is_some (Price r) /\
    ar_Has_Rating a = is_some (Rating r) /\
    ar_Review_Category a = categorize_reviews (ar_Number_of_Reviews a) /\
    ar_Has_Reviews a = (0 <? ar_Number_of_Reviews a) /\
    (Number_of_Reviews r = None -> ar_Number_of_Reviews a = 0).
Proof.
  intros H.
  destruct (nth_error (products_data me) i) as [r|] eqn:E;
    [|rewrite (NormalFacts.row_none me i E) in H; discriminate].
  destruct (NormalFacts.row_fields me i r E) as (count & C & R).
  rewrite R in H. injection H as <-.
  exists r. cbn. repeat (split; [reflexivity|]).
  intros N.
  rewrite (NormalFacts.to_int_column_none _ i) in C; [congruence|].
  rewrite nth_error_map, E. cbn [option_map]. now rewrite N.
Qed.

End Facts.

End DatasetFacts.

(** X24.  [categorize_rating] gives "No Rating" for a missing rating and
    otherwise the band of the rating: 4.5 and more, 4.0 to 4.5, 3.5 to
    4.0, 3.0 to 3.5, and below 3.0, the lower bound in and the upper
    bound out; no band has an upper limit of 5. *)
Theorem categorize_rating_bands :
  categorize_rating None = "No Rating" /\
  categorize_rating (Some Infinity) = "Excellent (4.5+)" /\
  forall r : Q,
    ((4.5 <= r)%Q ->
     categorize_rating (Some (Finite r)) = "Excellent (4.5+)") /\
    ((4.0 <= r < 4.5)%Q ->
     categorize_rating (Some (Finite r)) = "Very Good (4.0-4.4)") /\
    ((3.5 <= r < 4.0)%Q ->
     categorize_rating (Some (Finite r)) = "Good (3.5-3.9)") /\
    ((3.0 <= r < 3.5)%Q ->
     categorize_rating (Some (Finite r)) = "Average (3.0-3.4)") /\
    ((r < 3.0)%Q ->
     categorize_rating (Some (Finite r)) = "Below Average (<3.0)").
Proof.
  split; [reflexivity|]. split; [reflexivity|].
  intros r. unfold categorize_rating, float_geb.
  split; [|split; [|split; [|split]]].
  - intros H. now rewrite (DatasetFacts.Qle_bool_true _ _ H).
  - intros [H1 H2].
    now rewrite (DatasetFacts.Qle_bool_false _ _ H2),
                (DatasetFacts.Qle_bool_true _ _ H1).
  - intros [H1 H2].
    rewrite (DatasetFacts.Qle_bool_false 4.5 r),
            (DatasetFacts.Qle_bool_false _ _ H2),
            (DatasetFacts.Qle_bool_true _ _ H1); auto. lra.
  - intros [H1 H2].
    rewrite (DatasetFacts.Qle_bool_false 4.5 r),
            (DatasetFacts.Qle_bool_false 4.0 r),
            (DatasetFacts.Qle_bool_false _ _ H2),
            (DatasetFacts.Qle_bool_true _ _ H1); auto; lra.
  - intros H.
    rewrite (DatasetFacts.Qle_bool_false 4.5 r),
            (DatasetFacts.Qle_bool_false 4.0 r),
            (DatasetFacts.Qle_bool_false 3.5 r),
            (DatasetFacts.Qle_bool_false _ _ H); auto; lra.
Qed.

(** X25.  [categorize_reviews] gives "No Reviews" for 0 and otherwise the
    band of the count: 1 to 9, 10 to 49, 50 to 99, 100 to 499, 500 and
    more; a negative count falls in the band of 1 to 9. *)
Theorem categorize_reviews_bands (n : Z) :
  (n = 0 -> categorize_reviews n = "No Reviews") /\
  (1 <= n <= 9 -> categorize_reviews n = "Few Reviews (1-9)") /\
  (10 <= n <= 49 -> categorize_reviews n = "Some Reviews (10-49)") /\
  (50 <= n <= 99 -> categorize_reviews n = "Many Reviews (50-99)") /\
  (100 <= n <= 499 -> categorize_reviews n = "Lots of Reviews (100-499)") /\
  (500 <= n -> categorize_reviews n = "Very Popular (500+)") /\
  (n < 0 -> categorize_reviews n = "Few Reviews (1-9)").
Proof.
  unfold categorize_reviews.
  destruct (Z.eqb_spec n 0); destruct (Z.ltb_spec n 10);
    destruct (Z.ltb_spec n 50); destruct (Z.ltb_spec n 100);
    destruct (Z.ltb_spec n 500);
    repeat split; intros; try reflexivity; lia.
Qed.

Section DatasetClaims.

Context {P : Platform}.

(** X26.  In every row of the dataset the flags agree with the
    categories: [Has_Price] is false exactly for "No Price Listed",
    [Has_Rating] exactly for "No Rating", and the category is "No
    Reviews" exactly when the count is 0, which is the count of a record
    without one; [Has_Reviews] is true exactly for a positive count. *)
Theorem flags_agree_with_categories (me : scraper) (i : nat)
    (a : analytics_record) :
  row (fst (create_powerbi_dataset me)) i = Some a ->
  (ar_Has_Price a = false <-> ar_Price_Range a = "No Price Listed") /\
  (ar_Has_Rating a = false <-> ar_Rating_Category a = "No Rating") /\
  (ar_Review_Category a = "No Reviews" <-> ar_Number_of_Reviews a = 0) /\
  (ar_Has_Reviews a = true <-> 0 < ar_Number_of_Reviews a) /\
  exists r,
    nth_error (products_data me) i = Some r /\
    (Number_of_Reviews r = None -> ar_Number_of_Reviews a = 0).
Proof.
  intros H.
  destruct (DatasetFacts.row_flags me i a H)
    as (r & E & _ & _ & _ & Pr & Rc & Hp & Hr & Vc & Hv & Z0).
  rewrite Pr, Rc, Hp, Hr, Vc, Hv.
  split; [|split; [|split; [|split]]].
  - rewrite DatasetFacts.price_range_listed.
    destruct (Price r); split; cbn; congruence.
  - rewrite DatasetFacts.rating_category_rated.
    destruct (Rating r); split; cbn; congruence.
  - apply DatasetFacts.review_category_none.
  - apply Z.ltb_lt.
  - exists r. auto.
Qed.

(** X27.  In the dataset of an instance the code reaches, every row has a
    tidy name that is not empty, a price that is missing or the float of
    a whole number of hundredths that is not negative, and a rating that
    is missing or not negative; when a float holds every count of the
    instance exactly, the count of reviews is not negative and
    [Has_Reviews] is false exactly for "No Reviews". *)
Theorem dataset_of_scraped_records
    (urljoin : str -> str -> exc str) (me : scraper) (i : nat)
    (a : analytics_record) :
  reachable urljoin me ->
  row (fst (create_powerbi_dataset me)) i = Some a ->
  Text.nonempty (ar_Product_Name a) = true /\
  tidy (ar_Product_Name a) = true /\
  (forall x, ar_Price_INR a = Some x ->
     float_nonneg x /\
     exists n, 0 <= n /\ x = Text.to_float (Qred (n # 100))) /\
  (forall x, ar_Rating a = Some x -> float_nonneg x) /\
  (Forall exact_count (products_data me) ->
   0 <= ar_Number_of_Reviews a /\
   (ar_Has_Reviews a = false <-> ar_Review_Category a = "No Reviews")).
Proof.
  intros R H.
  destruct (DatasetFacts.row_flags me i a H)
    as (r & E & En & Ep & Er & _).
  pose proof (LoopFacts.reachable_named urljoin me R) as N.
  pose proof (RunFacts.reachable_produced urljoin me R) as Hp.
  rewrite Forall_forall in N, Hp.
  pose proof (nth_error_In _ _ E) as I.
  destruct (DatasetFacts.produced_fields urljoin r (Hp r I))
    as (T & Pr & Ra & Re).
  rewrite En, Ep, Er.
  split; [exact (N r I)|]. split; [exact T|].
  split; [exact Pr|]. split; [exact Ra|].
  intros F. rewrite (NormalFacts.row_normalize me i F), E in H.
  cbn [option_map] in H. injection H as <-.
  unfold Spec.normalize.
  cbn [ar_Number_of_Reviews ar_Has_Reviews ar_Review_Category].
  assert (V : 0 <= match Number_of_Reviews r with
                   | Some n => n
                   | None => 0
                   end).
  { destruct (Number_of_Reviews r) as [n|]; [apply Re; reflexivity|lia]. }
  split; [exact V|].
  rewrite DatasetFacts.review_category_none, Z.ltb_ge. lia.
Qed.

End DatasetClaims.

Lemma flags_agree_with_categories_witness :
  row (fst (create_powerbi_dataset (P := Sample.platform)
              (Sample.after_first_call (P := Sample.platform)))) 0
    = Some (Spec.normalize SampleRecords.car_record) /\
  (ar_Has_Price (Spec.normalize SampleRecords.car_record) = false <->
   ar_Price_Range (Spec.normalize SampleRecords.car_record)
     = "No Price Listed").
Proof.
  split; [reflexivity|].
  exact (proj1 (flags_agree_with_categories (P := Sample.platform)
                  (Sample.after_first_call (P := Sample.platform)) 0
                  (Spec.normalize SampleRecords.car_record) eq_refl)).
Defined.

Lemma dataset_of_scraped_records_witness :
  row (fst (create_powerbi_dataset (P := Sample.platform)
              (Sample.after_first_call (P := Sample.platform)))) 1
    = Some (Spec.normalize SampleRecords.toy_record) /\
  Text.nonempty (ar_Product_Name (Spec.normalize SampleRecords.toy_record))
    = true.
Proof.
  split; [reflexivity|].
  assert (R : reachable (P := Sample.platform) Sample.urljoin
                (Sample.after_first_call (P := Sample.platform)))
    by (apply reach_scrape, reach_init).
  exact (proj1
           (dataset_of_scraped_records (P := Sample.platform)
              Sample.urljoin
              (Sample.after_first_call (P := Sample.platform)) 1
              (Spec.normalize SampleRecords.toy_record) R eq_refl)).
Defined.

(** ** Saving and [main] *)

Module SaveFacts.

Local Open Scope list_scope.

Section Facts.

Context {P : Platform}.

(** The dataset has no row exactly when the instance has no record. *)
Lemma frame_empty_iff (me : scraper) :
  frame_empty (fst (create_powerbi_dataset me)) = true <->
  products_data me = [].
Proof.
  unfold create_powerbi_dataset.
  destruct (products_data me) as [|r l]; simpl; [tauto|].
  split; discriminate.
Qed.

Lemma save_to_csv_cases (w : world) (timestamp : string)
    (filename : option string) (me : scraper) (s : sys) :
  let name := name_or_default filename (csv_name timestamp) in
  (products_data me <> [] /\ writable w name = true /\
   save_to_csv w timestamp filename me s = (Some name, write_file name s))
  \/
  ((products_data me = [] \/ writable w name = false) /\
   save_to_csv w timestamp filename me s = (None, s)).
Proof.
  unfold save_to_csv. cbv zeta.
  destruct (products_data me) as [|r l]; [right; auto|].
  destruct (writable w _) eqn:W.
  - left. repeat split; auto. discriminate.
  - right. auto.
Qed.

Lemma save_powerbi_cases (w : world) (timestamp : string)
    (filename : option string) (me : scraper) (s : sys) :
  let name := name_or_default filename (xlsx_name timestamp) in
  (products_data me <> [] /\ writable w name = true /\
   save_powerbi_dataset w timestamp filename me s
   = (Some name, write_file name s))
  \/
  ((products_data me = [] \/ writable w name = false) /\
   save_powerbi_dataset w timestamp filename me s = (None, s)).
Proof.
  unfold save_powerbi_dataset. cbv zeta.
  pose proof (frame_empty_iff me) as F.
  destruct (create_powerbi_dataset me) as [df me']. cbn [fst] in F.
  destruct (frame_empty df) eqn:E.
  - right. split; auto. left. now apply F.
  - destruct (writable w _) eqn:W.
    + left. repeat split; auto. intros N. apply F in N. discriminate.
    + right. auto.
Qed.

Lemma requests_write_file (name : string) (s : sys) :
  requests (trace (write_file name s)) = requests (trace s).
Proof.
  unfold write_file. cbn [trace]. rewrite ClientFacts.requests_app.
  simpl. apply app_nil_r.
Qed.

End Facts.

End SaveFacts.

(** X29.  [main] sends at most 75 requests; when the run scrapes no
    product it saves nothing and names no file; a file it names has been
    written, under the default name of its kind. *)
Theorem main_saves_what_it_scraped {P : Platform}
    (urljoin : str -> str -> exc str) (w : world)
    (csv_time xlsx_time : string) (s : sys) :
  let result := main urljoin w csv_time xlsx_time s in
  let scraped :=
    scrape_toys_category urljoin w MAX_PAGES MAX_PRODUCTS init s in
  (List.length (requests (trace (snd result)))
   <= List.length (requests (trace s)) + 75)%nat /\
  (fst (fst scraped) = [] -> result = (None, None, snd scraped)) /\
  (forall name, fst (fst result) = Some name ->
     name = csv_name csv_time /\
     In (WriteFile name) (trace (snd result))) /\
  (forall name, snd (fst result) = Some name ->
     name = xlsx_name xlsx_time /\
     In (WriteFile name) (trace (snd result))).
Proof.
  cbv zeta. unfold main, scrape_toys_category.
  pose proof (RunFacts.run_requests_bound
                urljoin w MAX_PAGES MAX_PRODUCTS init s) as B.
  destruct (RunFacts.run_pages urljoin w MAX_PAGES MAX_PRODUCTS init s)
    as (N & _ & L).
  cbv zeta in B.
  set (final := run urljoin w MAX_PAGES MAX_PRODUCTS init s) in *.
  assert (B75 : (List.length (requests (trace (system final)))
                 <= List.length (requests (trace s)) + 75)%nat).
  { unfold MAX_PAGES in L. lia. }
  cbn [fst snd].
  destruct (products_data (self final)) as [|r l] eqn:Hd.
  - cbn [fst snd]. repeat split; auto; discriminate.
  - destruct (SaveFacts.save_to_csv_cases w csv_time None (self final)
                (system final)) as [(_ & _ & E1)|(_ & E1)];
      rewrite E1;
      match goal with
      | |- context [save_powerbi_dataset w xlsx_time None (self final) ?s2]
        => destruct (SaveFacts.save_powerbi_cases w xlsx_time None
                       (self final) s2) as [(_ & _ & E2)|(_ & E2)]
      end;
      rewrite E2; cbn [fst snd name_or_default];
      rewrite ?SaveFacts.requests_write_file;
      (split; [exact B75|]); (split; [discriminate|]);
      split; intros name [= <-] || intros name; try discriminate;
      (split; [reflexivity|]);
      unfold write_file; cbn [trace];
      repeat (apply in_or_app; first [right; left; reflexivity | left]).
Qed.
